(** * Invoice generator: a shallow embedding of [generate-invoice.py]

    The development follows the script top to bottom: Python values and
    strings, the exceptions the script lets escape, the files it touches,
    then [get_next_invoice_number], [peek_next_invoice_number],
    [create_empty_invoice], the interactive prompts, [generate_pdf],
    [parse_item_string] and [main].

    Modelling conventions.
    - A Python [str] is a [string], one character per code point, for
      code points up to 255 (Latin-1); [int] is [Z];
      [float] is the kernel's binary64 [float].  CPython's cap on the
      number of digits in an int/str conversion is not modelled.
    - A [dict] is an association list in insertion order.
    - [json.load]/[json.dump] are taken by their contract: a file holds
      either a JSON value or something [json.load] rejects.
    - reportlab is taken by its contract.  [Paragraph] parses its text as
      markup and raises on a text it does not accept; [doc.build] lays
      the flowables out and raises on a document it cannot lay out, or
      else stores the flowables at the output path.  Which texts and
      documents are refused is left open: it is part of the world a run
      finds, as two functions that the script can only call.
    - Terminal output ([print], the prompt text of [input]) is not part of
      the state; the exceptions that evaluating a printed expression can
      raise are kept.
    - Paths given on the command line denote files other than the
      script's own [data/*.json] and [logo.png]. *)

From Stdlib Require Import ZArith NArith Ascii String List Lia Bool.
From Stdlib Require Import PrimFloat SpecFloat FloatOps.
From stdpp Require Import base option list strings pretty gmap.

Local Open Scope Z_scope.

(** ** Strings *)

Module Str.

Definition code (c : ascii) : N := N_of_ascii c.

(** [str.isspace] on one Latin-1 code point. *)
Definition isspace (c : ascii) : bool :=
  let n := code c in
  ((9 <=? n) && (n <=? 13) || (28 <=? n) && (n <=? 32)
   || (n =? 133) || (n =? 160))%N.

Definition isdigit (c : ascii) : bool :=
  let n := code c in ((48 <=? n) && (n <=? 57))%N.

Definition isalpha (c : ascii) : bool :=
  let n := code c in
  ((65 <=? n) && (n <=? 90) || (97 <=? n) && (n <=? 122)
   || (n =? 170) || (n =? 181) || (n =? 186)
   || (192 <=? n) && (n <=? 214) || (216 <=? n) && (n <=? 246)
   || (248 <=? n))%N.

(** Code points that are numeric without being decimal digits:
    superscripts and vulgar fractions. *)
Definition isnumeric_other (c : ascii) : bool :=
  let n := code c in
  ((n =? 178) || (n =? 179) || (n =? 185)
   || (188 <=? n) && (n <=? 190))%N.

Definition isalnum_char (c : ascii) : bool :=
  isalpha c || isdigit c || isnumeric_other c.

(** [s.isalnum()]: every code point alphanumeric, and at least one. *)
Fixpoint all_chars (p : ascii -> bool) (s : string) : bool :=
  match s with
  | EmptyString => true
  | String c s' => p c && all_chars p s'
  end.

Definition isalnum (s : string) : bool :=
  match s with
  | EmptyString => false
  | _ => all_chars isalnum_char s
  end.

Fixpoint lstrip_by (space : ascii -> bool) (s : string) : string :=
  match s with
  | String c s' => if space c then lstrip_by space s' else s
  | EmptyString => EmptyString
  end.

Fixpoint rstrip_by (space : ascii -> bool) (s : string) : string :=
  match s with
  | EmptyString => EmptyString
  | String c s' =>
      match rstrip_by space s' with
      | EmptyString => if space c then EmptyString else String c EmptyString
      | r => String c r
      end
  end.

Definition strip_by (space : ascii -> bool) (s : string) : string :=
  rstrip_by space (lstrip_by space s).

(** [s.strip()] *)
Definition strip (s : string) : string := strip_by isspace s.

(** The whitespace [int()] and [float()] skip around a numeric literal:
    C's [isspace], and the two Latin-1 spaces above 127. *)
Definition numeric_space (c : ascii) : bool :=
  let n := code c in
  ((9 <=? n) && (n <=? 13) || (n =? 32) || (n =? 133) || (n =? 160))%N.

Definition strip_numeric (s : string) : string := strip_by numeric_space s.

(** [s.split(sep)] for a one-character separator: never empty. *)
Fixpoint split (sep : ascii) (s : string) : list string :=
  match s with
  | EmptyString => [EmptyString]
  | String c s' =>
      if Ascii.eqb c sep then EmptyString :: split sep s'
      else match split sep s' with
           | p :: ps => String c p :: ps
           | [] => [String c EmptyString]
           end
  end.

(** [s.replace(old, new)] for a one-character [old]. *)
Fixpoint replace (old : ascii) (new : string) (s : string) : string :=
  match s with
  | EmptyString => EmptyString
  | String c s' =>
      if Ascii.eqb c old then new +:+ replace old new s'
      else String c (replace old new s')
  end.

(** [sub in s] *)
Fixpoint contains (sub s : string) : bool :=
  String.prefix sub s
  || match s with
     | EmptyString => false
     | String _ s' => contains sub s'
     end.

(** ["".join(l)] *)
Definition join (l : list string) : string :=
  fold_right String.append EmptyString l.

(** The characters of a string, as Python iterates them. *)
Fixpoint chars (s : string) : list string :=
  match s with
  | EmptyString => []
  | String c s' => String c EmptyString :: chars s'
  end.

Fixpoint repeat_char (c : ascii) (n : nat) : string :=
  match n with
  | O => EmptyString
  | S n' => String c (repeat_char c n')
  end.

(** Left padding with zeros up to [width], as the [0] format flag does on
    the digits of a number. *)
Definition zfill (width : nat) (s : string) : string :=
  repeat_char "0" (width - String.length s) +:+ s.

Definition lower (c : ascii) : ascii :=
  let n := code c in
  if ((65 <=? n) && (n <=? 90))%N then ascii_of_N (n + 32) else c.

Fixpoint lowercase (s : string) : string :=
  match s with
  | EmptyString => EmptyString
  | String c s' => String (lower c) (lowercase s')
  end.

End Str.

(** ** Numbers: Python's [int] and [float] conversions *)

Module Num.

Definition digit_val (c : ascii) : Z := Z.of_N (Str.code c) - 48.

(** *** [int(s)] on a string: optional sign, then digits, single
    underscores allowed between digits, surrounding whitespace ignored. *)

Fixpoint scan_digits (prev_digit : bool) (acc : Z) (s : string) : option Z :=
  match s with
  | EmptyString => if prev_digit then Some acc else None
  | String c s' =>
      if Str.isdigit c then scan_digits true (acc * 10 + digit_val c) s'
      else if Ascii.eqb c "_" then
             if prev_digit then scan_digits false acc s' else None
           else None
  end.

Definition signed (s : string) : bool * string :=
  match s with
  | String "-" s' => (true, s')
  | String "+" s' => (false, s')
  | _ => (false, s)
  end.

Definition int_of_string (s : string) : option Z :=
  let '(neg, body) := signed (Str.strip_numeric s) in
  match scan_digits false 0 body with
  | Some n => Some (if neg then - n else n)
  | None => None
  end.

(** *** [float(s)] on a string *)

(** Underscores are dropped when they stand between two digits; any
    other underscore makes the literal invalid. *)
Fixpoint drop_underscores (prev : ascii) (s : string) : option string :=
  match s with
  | EmptyString => if Ascii.eqb prev "_" then None else Some EmptyString
  | String c s' =>
      if Ascii.eqb c "_" then
        if Str.isdigit prev then drop_underscores c s' else None
      else if Ascii.eqb prev "_" && negb (Str.isdigit c) then None
           else option_map (String c) (drop_underscores c s')
  end.

Fixpoint take_digits (s : string) (acc : Z) (n : nat) : Z * nat * string :=
  match s with
  | String c s' =>
      if Str.isdigit c then take_digits s' (acc * 10 + digit_val c) (S n)
      else (acc, n, s)
  | EmptyString => (acc, n, s)
  end.

(** A decimal literal as mantissa and power of ten. *)
Definition parse_decimal (s : string) : option (Z * Z) :=
  let '(ip, ni, r1) := take_digits s 0 0%nat in
  let '(m, nf, r2) :=
    match r1 with
    | String "." r => take_digits r ip 0%nat
    | _ => (ip, 0%nat, r1)
    end in
  if (ni + nf =? 0)%nat then None
  else match r2 with
       | EmptyString => Some (m, - Z.of_nat nf)
       | String c r3 =>
           if Ascii.eqb c "e" || Ascii.eqb c "E" then
             let '(eneg, r4) := signed r3 in
             let '(e, ne, r5) := take_digits r4 0 0%nat in
             match ne, r5 with
             | S _, EmptyString =>
                 Some (m, (if eneg then - e else e) - Z.of_nat nf)
             | _, _ => None
             end
           else None
       end.

(** The binary64 value nearest to [(-1)^neg * m * 10^e10], ties to even. *)
Definition decimal_to_float (neg : bool) (m e10 : Z) : float :=
  SF2Prim
    match m with
    | Zpos p =>
        if 0 <=? e10 then
          binary_normalize prec emax
            ((if neg then - m else m) * 10 ^ e10) 0 false
        else
          SFdiv prec emax (S754_finite neg p 0)
            (S754_finite false (Z.to_pos (10 ^ (- e10))) 0)
    | _ => S754_zero neg
    end.

Definition float_of_string (s : string) : option float :=
  match drop_underscores "000" (Str.strip_numeric s) with
  | None => None
  | Some t =>
      let '(neg, body) := signed t in
      let low := Str.lowercase body in
      if String.eqb low "inf" || String.eqb low "infinity" then
        Some (if neg then neg_infinity else infinity)
      else if String.eqb low "nan" then Some nan
      else match parse_decimal body with
           | Some (m, e10) => Some (decimal_to_float neg m e10)
           | None => None
           end
  end.

(** *** [float(n)] on an int: nearest binary64, or overflow. *)
Definition float_of_Z (z : Z) : option float :=
  match binary_normalize prec emax z 0 false with
  | S754_infinity _ => None
  | sf => Some (SF2Prim sf)
  end.

(** *** [int(x)] on a float truncates toward zero. *)
Inductive trunc_result := Truncated (z : Z) | IsInfinite | IsNaN.

Definition Z_of_float (x : float) : trunc_result :=
  match Prim2SF x with
  | S754_zero _ => Truncated 0
  | S754_finite s m e =>
      let a := if 0 <=? e then Zpos m * 2 ^ e else Zpos m / 2 ^ (- e) in
      Truncated (if s then - a else a)
  | S754_infinity _ => IsInfinite
  | S754_nan => IsNaN
  end.

(** [x == n] between a float and an int compares the exact values. *)
Definition float_eq_Z (x : float) (z : Z) : bool :=
  match Prim2SF x with
  | S754_zero _ => z =? 0
  | S754_finite s m e =>
      let sm := if s then Zneg m else Zpos m in
      if 0 <=? e then z =? sm * 2 ^ e else z * 2 ^ (- e) =? sm
  | _ => false
  end.

(** *** Formatting *)

(** [str(n)] and the [d] presentation. *)
Definition str_of_Z (z : Z) : string := pretty z.

(** [format(n, "03d")]: sign-aware zero padding to width 3. *)
Definition format_03d (z : Z) : string :=
  if z <? 0 then "-" +:+ Str.zfill 2 (pretty (Z.abs_N z))
  else Str.zfill 3 (pretty (Z.abs_N z)).

Definition round_half_even (num den : Z) : Z :=
  let q := num / den in
  match 2 * (num mod den) ?= den with
  | Lt => q
  | Gt => q + 1
  | Eq => if Z.even q then q else q + 1
  end.

(** The digits of [n / 10^p] with [p] decimals; no point when [p = 0]. *)
Definition fixed (p : nat) (n : Z) : string :=
  let scale := 10 ^ Z.of_nat p in
  pretty (Z.to_N (n / scale))
  +:+ match p with
      | O => ""
      | _ => "." +:+ Str.zfill p (pretty (Z.to_N (n mod scale)))
      end.

(** [format(x, ".<p>f")] on a float. *)
Definition format_f (p : nat) (x : float) : string :=
  let sign (s : bool) := if s then "-" else "" in
  match Prim2SF x with
  | S754_nan => "nan"
  | S754_infinity s => sign s +:+ "inf"
  | S754_zero s => sign s +:+ fixed p 0
  | S754_finite s m e =>
      let scale := 10 ^ Z.of_nat p in
      let n := if 0 <=? e then Zpos m * 2 ^ e * scale
               else round_half_even (Zpos m * scale) (2 ^ (- e)) in
      sign s +:+ fixed p n
  end.

(** *** [repr(x)] of a float: the shortest digits that read back as [x] *)

(** A positive rational [num / den] rounded down to a multiple of [10^p],
    in units of [10^p]. *)
Definition floor_scaled (num den p : Z) : Z :=
  if 0 <=? p then num / (den * 10 ^ p) else (num * 10 ^ (- p)) / den.

(** The position of the decimal point: [10^(E-1) <= num/den < 10^E], for
    any positive binary64 value. *)
Definition decimal_point (num den : Z) : Z :=
  Z.of_nat (String.length (pretty (Z.to_N (floor_scaled num den (- 350)))))
  - 350.

(** Where [num/den] lies between [lo * 10^p] and [(lo + 1) * 10^p]:
    [Lt] nearer the lower one, [Gt] nearer the upper one, [Eq] half way. *)
Definition nearer (num den lo p : Z) : comparison :=
  if 0 <=? p then
    2 * num ?= (2 * lo + 1) * 10 ^ p * den
  else
    2 * num * 10 ^ (- p) ?= (2 * lo + 1) * den.

(** The digits and the exponent of ten of the [n]-digit decimal that
    reads back as [x], if there is one; of two, the nearer one, and the
    even one when [x] is half way. *)
Definition candidate (x : float) (num den E : Z) (n : nat)
  : option (Z * Z) :=
  let p := E - Z.of_nat n in
  let lo := floor_scaled num den p in
  let back d := PrimFloat.eqb (decimal_to_float false d p) x in
  match back lo, back (lo + 1) with
  | true, true =>
      Some (match nearer num den lo p with
            | Lt => lo
            | Gt => lo + 1
            | Eq => if Z.even lo then lo else lo + 1
            end, p)
  | true, false => Some (lo, p)
  | false, true => Some (lo + 1, p)
  | false, false => None
  end.

Fixpoint shortest (x : float) (num den E : Z) (n tries : nat) : Z * Z :=
  match tries with
  | O => (floor_scaled num den (E - 17), E - 17)
  | S tries' =>
      match candidate x num den E n with
      | Some dp => dp
      | None => shortest x num den E (S n) tries'
      end
  end.

Fixpoint drop_zeros (fuel : nat) (d p : Z) : Z * Z :=
  match fuel with
  | O => (d, p)
  | S fuel' =>
      if (d mod 10 =? 0) && negb (d =? 0) then drop_zeros fuel' (d / 10) (p + 1)
      else (d, p)
  end.

Definition substring_from (k : nat) (s : string) : string :=
  String.substring k (String.length s - k) s.

(** The digits [ds] with the decimal point after the first [decpt] of
    them, as [repr] lays them out. *)
Definition layout (ds : string) (decpt : Z) : string :=
  let n := Z.of_nat (String.length ds) in
  if (decpt <=? - 4) || (16 <? decpt) then
    let e := decpt - 1 in
    String.substring 0 1 ds
    +:+ (if n =? 1 then "" else "." +:+ substring_from 1 ds)
    +:+ "e" +:+ (if e <? 0 then "-" else "+")
    +:+ Str.zfill 2 (pretty (Z.abs_N e))
  else if decpt <=? 0 then
    "0." +:+ Str.repeat_char "0" (Z.to_nat (- decpt)) +:+ ds
  else if n <=? decpt then
    ds +:+ Str.repeat_char "0" (Z.to_nat (decpt - n)) +:+ ".0"
  else
    String.substring 0 (Z.to_nat decpt) ds
    +:+ "." +:+ substring_from (Z.to_nat decpt) ds.

Definition repr_float (x : float) : string :=
  let sign (s : bool) := if s then "-" else "" in
  match Prim2SF x with
  | S754_nan => "nan"
  | S754_infinity s => sign s +:+ "inf"
  | S754_zero s => sign s +:+ "0.0"
  | S754_finite s m e =>
      let num := if 0 <=? e then Zpos m * 2 ^ e else Zpos m in
      let den := if 0 <=? e then 1 else 2 ^ (- e) in
      let E := decimal_point num den in
      let '(d, p) := shortest (abs x) num den E 1 17 in
      let '(d, p) := drop_zeros 17 d p in
      let ds := pretty (Z.to_N d) in
      sign s +:+ layout ds (p + Z.of_nat (String.length ds))
  end.

End Num.

(** ** Python values *)

#[local] Set Warnings "-register-all,-inexact-float".

Inductive pyval :=
| PNone
| PBool (b : bool)
| PInt (z : Z)
| PFloat (f : float)
| PStr (s : string)
| PList (l : list pyval)
| PDict (d : list (string * pyval)).

(** The exceptions the script can let escape.  [JSONDecodeError] is what
    [json.load] raises on a file it cannot decode; [ParagraphParseError]
    is the [ValueError] of reportlab's markup parser and [LayoutError]
    the error of its layout. *)
Inductive value_error :=
| InvalidIntLiteral (text : string)
| CouldNotConvertToFloat (text : string)
| UnknownFormatCode
| CannotConvertNaN
| ParagraphParseError (text : string).

Inductive exn :=
| JSONDecodeError
| KeyError (key : string)
| TypeError
| AttributeError
| ValueError (why : value_error)
| OverflowError
| FileNotFoundError (path : string)
| EOFError
| LayoutError.

(** The result of evaluating an expression: a value, a raised exception,
    or [Beyond] where Python's behaviour is outside what is modelled
    (the [repr] of lists and dicts, a repeated sequence too long for a
    machine index, reportlab on non-string text). *)
Inductive res (A : Type) :=
| Val (a : A)
| Exn (e : exn)
| Beyond.
Arguments Val {A} a.
Arguments Exn {A} e.
Arguments Beyond {A}.

Definition res_bind {A B} (r : res A) (k : A -> res B) : res B :=
  match r with
  | Val a => k a
  | Exn e => Exn e
  | Beyond => Beyond
  end.

Declare Scope res_scope.
Delimit Scope res_scope with res.
Bind Scope res_scope with res.
Notation "'let*' x := m 'in' k" := (res_bind m (fun x => k))
  (at level 10, x binder, m at level 100, k at level 200) : res_scope.

Module Py.

(** Truth value of an object, as [if x:] tests it. *)
Definition truthy (v : pyval) : bool :=
  match v with
  | PNone => false
  | PBool b => b
  | PInt z => negb (z =? 0)
  | PFloat f => negb (PrimFloat.eqb f 0)
  | PStr s => negb (String.eqb s "")
  | PList l => match l with [] => false | _ => true end
  | PDict d => match d with [] => false | _ => true end
  end.

(** Truth value of an optional command-line string. *)
Definition given (o : option string) : bool :=
  match o with
  | Some s => negb (String.eqb s "")
  | None => false
  end.

Fixpoint assoc_get (k : string) (d : list (string * pyval)) : option pyval :=
  match d with
  | [] => None
  | (k', v) :: d' => if String.eqb k' k then Some v else assoc_get k d'
  end.

(** Assignment keeps the position of a key that is already there and
    appends a new one. *)
Fixpoint assoc_set (k : string) (x : pyval) (d : list (string * pyval))
  : list (string * pyval) :=
  match d with
  | [] => [(k, x)]
  | (k', v) :: d' =>
      if String.eqb k' k then (k', x) :: d' else (k', v) :: assoc_set k x d'
  end.

Fixpoint assoc_del (k : string) (d : list (string * pyval))
  : list (string * pyval) :=
  match d with
  | [] => []
  | (k', v) :: d' =>
      if String.eqb k' k then d' else (k', v) :: assoc_del k d'
  end.

(** [v[k]] with a string key. *)
Definition getitem (v : pyval) (k : string) : res pyval :=
  match v with
  | PDict d => match assoc_get k d with
               | Some x => Val x
               | None => Exn (KeyError k)
               end
  | _ => Exn TypeError
  end.

(** [v[k] = x] with a string key; the updated container is returned. *)
Definition setitem (v : pyval) (k : string) (x : pyval) : res pyval :=
  match v with
  | PDict d => Val (PDict (assoc_set k x d))
  | _ => Exn TypeError
  end.

(** [del v[k]] with a string key. *)
Definition delitem (v : pyval) (k : string) : res pyval :=
  match v with
  | PDict d => match assoc_get k d with
               | Some _ => Val (PDict (assoc_del k d))
               | None => Exn (KeyError k)
               end
  | _ => Exn TypeError
  end.

(** [v.get(k, default)]: only dicts have the method. *)
Definition get (v : pyval) (k : string) (default : pyval) : res pyval :=
  match v with
  | PDict d => Val (match assoc_get k d with Some x => x | None => default end)
  | _ => Exn AttributeError
  end.

(** [k in v] for a string [k]. *)
Definition is_in (k : string) (v : pyval) : res bool :=
  match v with
  | PDict d => Val (match assoc_get k d with Some _ => true | None => false end)
  | PList l =>
      Val (existsb (fun x => match x with
                             | PStr s => String.eqb s k
                             | _ => false
                             end) l)
  | PStr s => Val (Str.contains k s)
  | _ => Exn TypeError
  end.

(** [str(v)], where it is modelled. *)
Definition str (v : pyval) : res string :=
  match v with
  | PNone => Val "None"
  | PBool true => Val "True"
  | PBool false => Val "False"
  | PInt z => Val (Num.str_of_Z z)
  | PStr s => Val s
  | PFloat f => Val (Num.repr_float f)
  | PList _ | PDict _ => Beyond
  end.

(** Numbers: [bool] counts as [int]. *)
Inductive number := NInt (z : Z) | NFloat (f : float).

Definition as_number (v : pyval) : option number :=
  match v with
  | PBool b => Some (NInt (if b then 1 else 0))
  | PInt z => Some (NInt z)
  | PFloat f => Some (NFloat f)
  | _ => None
  end.

Definition of_number (n : number) : pyval :=
  match n with
  | NInt z => PInt z
  | NFloat f => PFloat f
  end.

(** [float(n)] as mixed arithmetic and the [f] presentation apply it. *)
Definition to_float (n : number) : res float :=
  match n with
  | NFloat f => Val f
  | NInt z => match Num.float_of_Z z with
              | Some f => Val f
              | None => Exn OverflowError
              end
  end.

Definition arith (fz : Z -> Z -> Z) (ff : float -> float -> float)
           (a b : number) : res pyval :=
  match a, b with
  | NInt x, NInt y => Val (PInt (fz x y))
  | _, _ =>
      (let* x := to_float a in
       let* y := to_float b in
       Val (PFloat (ff x y)))%res
  end.

(** [a + b] with a number on one side: a non-number on the other side
    is a [TypeError]. *)
Definition add (a b : pyval) : res pyval :=
  match as_number a, as_number b with
  | Some x, Some y => arith Z.add PrimFloat.add x y
  | _, _ => Exn TypeError
  end.

(** [seq * n]: the sequence repeated [n] times, empty for [n <= 0].  A
    count that does not fit a machine index is an [OverflowError]; a
    result too long for a machine index is an error whose kind is not
    modelled, and running out of memory is not modelled either. *)
Definition repeat_sequence (v : pyval) (n : Z) : res pyval :=
  let times (len : nat) :=
    if (n <? - 2 ^ 63) || (2 ^ 63 <=? n) then Exn OverflowError
    else if (n <=? 0) || (len =? 0)%nat then Val 0%nat
         else if 2 ^ 63 <=? Z.of_nat len * n then Beyond
              else Val (Z.to_nat n) in
  match v with
  | PStr s =>
      (let* k := times (String.length s) in
       Val (PStr (Str.join (repeat s k))))%res
  | PList l =>
      (let* k := times (length l) in
       Val (PList (concat (repeat l k))))%res
  | _ => Exn TypeError
  end.

(** [a * b]: arithmetic on two numbers, repetition of a string or a list
    by an int, a [TypeError] otherwise. *)
Definition mul (a b : pyval) : res pyval :=
  match as_number a, as_number b with
  | Some x, Some y => arith Z.mul PrimFloat.mul x y
  | None, Some (NInt n) => repeat_sequence a n
  | Some (NInt n), None => repeat_sequence b n
  | _, _ => Exn TypeError
  end.

(** [int(v)] on a number. *)
Definition int_of (n : number) : res Z :=
  match n with
  | NInt z => Val z
  | NFloat f => match Num.Z_of_float f with
                | Num.Truncated z => Val z
                | Num.IsInfinite => Exn OverflowError
                | Num.IsNaN => Exn (ValueError CannotConvertNaN)
                end
  end.

(** [n == z] for a number and an int. *)
Definition eq_int (n : number) (z : Z) : bool :=
  match n with
  | NInt x => x =? z
  | NFloat f => Num.float_eq_Z f z
  end.

(** [format(n, ".<p>f")] *)
Definition format_float (p : nat) (n : number) : res string :=
  (let* x := to_float n in Val (Num.format_f p x))%res.

(** [format(v, "03d")]: ints (and bools) only. *)
Definition format_int (v : pyval) : res string :=
  match as_number v with
  | Some (NInt z) => Val (Num.format_03d z)
  | Some (NFloat _) => Exn (ValueError UnknownFormatCode)
  | None => Beyond
  end.

End Py.

(** ** Documents and files *)

Inductive style := title_style | normal_style.

(** The flowables [generate_pdf] hands to reportlab.  The table's
    [TableStyle] is a constant of the script and is left out. *)
Inductive flowable :=
| Image (width height : float)
| Spacer (width : Z) (height : float)
| Paragraph (text : string) (st : style)
| Table (data : list (list pyval)) (colWidths : list float).

(** What a file holds: a JSON document, a rendered invoice, or anything
    else (which [json.load] rejects). *)
Inductive content :=
| Json (v : pyval)
| Rendered (elements : list flowable)
| Unparseable (raw : string).

(** What one run of the script can see and change.  The last two fields
    are the reportlab a run finds installed: the exception, if any, that
    [Paragraph] raises on a text, and the exception, if any, that
    [doc.build] raises on a list of flowables.  No run changes them. *)
Record world := World {
  data_dir : bool;                    (* DATA_DIR exists *)
  clients_file : option content;      (* CLIENTS_FILE *)
  counter_file : option content;      (* COUNTER_FILE *)
  logo_file : bool;                   (* LOGO_FILE exists *)
  user_files : gmap string content;   (* files named on the command line *)
  stdin : list string;                (* lines still to be read by input() *)
  today : string;                     (* datetime.now().strftime("%B %d, %Y") *)
  paragraph_error : string -> option exn;        (* Paragraph(text, style) *)
  layout_error : list flowable -> option exn     (* doc.build(elements) *)
}.

Definition set_data_dir (b : bool) (w : world) : world :=
  World b (clients_file w) (counter_file w) (logo_file w) (user_files w)
        (stdin w) (today w) (paragraph_error w)
        (layout_error w).
Definition set_clients_file (c : option content) (w : world) : world :=
  World (data_dir w) c (counter_file w) (logo_file w) (user_files w)
        (stdin w) (today w) (paragraph_error w)
        (layout_error w).
Definition set_counter_file (c : option content) (w : world) : world :=
  World (data_dir w) (clients_file w) c (logo_file w) (user_files w)
        (stdin w) (today w) (paragraph_error w)
        (layout_error w).
Definition set_user_files (m : gmap string content) (w : world) : world :=
  World (data_dir w) (clients_file w) (counter_file w) (logo_file w) m
        (stdin w) (today w) (paragraph_error w)
        (layout_error w).
Definition set_stdin (l : list string) (w : world) : world :=
  World (data_dir w) (clients_file w) (counter_file w) (logo_file w)
        (user_files w) l (today w) (paragraph_error w)
        (layout_error w).

(** ** Statements: state passing with exceptions *)

Definition M (A : Type) : Type := world -> res A * world.

Definition ret {A} (a : A) : M A := fun w => (Val a, w).
Definition raise {A} (e : exn) : M A := fun w => (Exn e, w).
Definition lift {A} (r : res A) : M A := fun w => (r, w).
Definition bind {A B} (m : M A) (k : A -> M B) : M B :=
  fun w =>
    match m w with
    | (Val a, w') => k a w'
    | (Exn e, w') => (Exn e, w')
    | (Beyond, w') => (Beyond, w')
    end.

Declare Scope io_scope.
Delimit Scope io_scope with io.
Bind Scope io_scope with M.
Notation "'let*' x := m 'in' k" := (bind m (fun x => k))
  (at level 10, x binder, m at level 100, k at level 200) : io_scope.

(** [json.load] of an open file. *)
Definition json_load (c : content) : res pyval :=
  match c with
  | Json v => Val v
  | Rendered _ | Unparseable _ => Exn JSONDecodeError
  end.

(** ** Defaults *)

Module DEFAULTS.
Definition from_name : string := "Adam Luck".
Definition from_email : string := "adamluckydo@gmail.com".
(** The source literal has 32 characters, three of them not ASCII:
    U+00E2, U+20AC and U+201C.  The last two lie outside Latin-1 and are
    stood for by the code points 128 and 147 (their Windows-1252 bytes):
    like the characters they stand for, these are neither alphanumeric
    nor white space, so every test the script makes on a character gives
    the same answer. *)
Definition payment_method : string :=
  "PayPal "
  +:+ string_of_list_ascii (map ascii_of_N [226; 128; 147]%N)
  +:+ " adamluckydo@gmail.com".
Definition invoice_prefix : string := "INV".
End DEFAULTS.

(** ** Data persistence *)

(** [DATA_DIR.mkdir(exist_ok=True)] *)
Definition ensure_data_dir : M unit :=
  fun w => (Val tt, set_data_dir true w).

Definition load_clients : M pyval :=
  fun w =>
    match clients_file w with
    | Some c => (json_load c, w)
    | None => (Val (PDict []), w)
    end.

Definition save_clients (clients : pyval) : M unit :=
  (let* _ := ensure_data_dir in
   fun w => (Val tt, set_clients_file (Some (Json clients)) w))%io.

(** The identifier text for a counter value. *)
Definition invoice_id (number : string) : string :=
  DEFAULTS.invoice_prefix +:+ "-" +:+ number.

Definition get_next_invoice_number : M string :=
  (let* _ := ensure_data_dir in
   let* data := (fun w => match counter_file w with
                          | Some c => (json_load c, w)
                          | None => (Val (PDict [("last_number", PInt 0)]), w)
                          end) in
   let* last := lift (Py.getitem data "last_number") in
   let* next := lift (Py.add last (PInt 1)) in
   let* data := lift (Py.setitem data "last_number" next) in
   let* _ := (fun w => (Val tt, set_counter_file (Some (Json data)) w)) in
   let* last := lift (Py.getitem data "last_number") in
   let* number := lift (Py.format_int last) in
   ret (invoice_id number))%io.

Definition peek_next_invoice_number : M string :=
  fun w =>
    match counter_file w with
    | Some c =>
        (let* data := lift (json_load c) in
         let* last := lift (Py.getitem data "last_number") in
         let* next := lift (Py.add last (PInt 1)) in
         let* number := lift (Py.format_int next) in
         ret (invoice_id number))%io w
    | None => (Val (invoice_id "001"), w)
    end.

(** ** Invoice data structure *)

Definition create_empty_invoice : M pyval :=
  fun w =>
    (Val (PDict
       [("invoice_number", PNone);
        ("title", PStr "");
        ("date", PStr (today w));
        ("from", PDict [("name", PStr DEFAULTS.from_name);
                        ("email", PStr DEFAULTS.from_email)]);
        ("to", PDict [("name", PStr ""); ("company", PStr "")]);
        ("items", PList []);
        ("payment_method", PStr DEFAULTS.payment_method);
        ("notes", PStr "")]), w).

(** [v[k1][k2] = x] *)
Definition setitem2 (v : pyval) (k1 k2 : string) (x : pyval) : res pyval :=
  (let* inner := Py.getitem v k1 in
   let* inner := Py.setitem inner k2 x in
   Py.setitem v k1 inner)%res.

(** [v[k1][k2]] *)
Definition getitem2 (v : pyval) (k1 k2 : string) : res pyval :=
  (let* inner := Py.getitem v k1 in Py.getitem inner k2)%res.

(** What a [for] loop iterates over. *)
Definition iterate (v : pyval) : res (list pyval) :=
  match v with
  | PList l => Val l
  | PDict d => Val (map (fun kv => PStr (fst kv)) d)
  | PStr s => Val (map PStr (Str.chars s))
  | PNone | PBool _ | PInt _ | PFloat _ => Exn TypeError
  end.

Fixpoint res_map {A B} (f : A -> res B) (l : list A) : res (list B) :=
  match l with
  | [] => Val []
  | a :: l' =>
      (let* b := f a in
       let* bs := res_map f l' in
       Val (b :: bs))%res
  end.

(** ** Interactive input *)

(** [input()]: the next line of standard input, or [EOFError]. *)
Definition input : M string :=
  fun w =>
    match stdin w with
    | line :: rest => (Val line, set_stdin rest w)
    | [] => (Exn EOFError, w)
    end.

(** [prompt(msg, default)]; every default the script passes is a string
    or [None]. *)
Definition prompt (default : option string) : M string :=
  match default with
  | Some d =>
      if Py.given default then
        (let* line := input in
         let result := Str.strip line in
         ret (if String.eqb result "" then d else result))%io
      else
        (let* line := input in ret (Str.strip line))%io
  | None => (let* line := input in ret (Str.strip line))%io
  end.

Definition prompt_client_selection (clients : pyval) : M pyval :=
  if negb (Py.truthy clients) then ret PNone
  else
    match clients with
    | PDict d =>
        let client_list := map fst d in
        (let* _ := lift (res_map
                     (fun key =>
                        (let* client := Py.getitem clients key in
                         let* name := Py.get client "name" (PStr key) in
                         Py.get client "company" (PStr ""))%res)
                     client_list) in
         let* choice := prompt (Some "") in
         match Num.int_of_string choice with
         | Some n =>
             let idx := n - 1 in
             if (0 <=? idx) && (idx <? Z.of_nat (length client_list)) then
               lift (Py.getitem clients (nth (Z.to_nat idx) client_list ""))
             else ret PNone
         | None =>
             let* known := lift (Py.is_in choice clients) in
             if known then lift (Py.getitem clients choice) else ret PNone
         end)%io
    | _ => raise AttributeError
    end.

Definition make_item (service date : string) (quantity rate : pyval) : pyval :=
  PDict [("service", PStr service); ("date", PStr date);
         ("quantity", quantity); ("rate", rate)].

(** The [while True] loop of [prompt_items].  Every round reads at least
    one line, so [fuel] beyond the number of lines left is never used. *)
Fixpoint prompt_items_loop (fuel : nat) (items : list pyval)
  : M (list pyval) :=
  match fuel with
  | O => lift Beyond
  | S fuel' =>
      (let* line := input in
       let service := Str.strip line in
       if String.eqb service "" then
         match items with
         | [] => prompt_items_loop fuel' items
         | _ => ret items
         end
       else
         let* date := prompt (Some "") in
         let* quantity := prompt (Some "1") in
         let* rate := prompt (Some "0") in
         let '(quantity, rate) :=
           match Num.int_of_string quantity,
                 Num.float_of_string
                   (Str.replace "," "" (Str.replace "$" "" rate)) with
           | Some q, Some r => (PInt q, PFloat r)
           | _, _ => (PInt 1, PInt 0)
           end in
         let item := make_item service date quantity rate in
         (* the confirmation line prints quantity * rate *)
         let* _ := lift (Py.mul quantity rate) in
         prompt_items_loop fuel' (items ++ [item]))%io
  end.

Definition prompt_items : M (list pyval) :=
  fun w => prompt_items_loop (S (length (stdin w))) [] w.

Definition interactive_input : M pyval :=
  (let* invoice := create_empty_invoice in
   let* clients := load_clients in
   let* _ := peek_next_invoice_number in
   (* Title and date *)
   let* title := prompt None in
   let* invoice := lift (Py.setitem invoice "title" (PStr title)) in
   let* date0 := lift (Py.getitem invoice "date") in
   let* date := prompt (match date0 with PStr d => Some d | _ => None end) in
   let* invoice := lift (Py.setitem invoice "date" (PStr date)) in
   (* From (with defaults) *)
   let* name := prompt (Some DEFAULTS.from_name) in
   let* invoice := lift (setitem2 invoice "from" "name" (PStr name)) in
   let* email := prompt (Some DEFAULTS.from_email) in
   let* invoice := lift (setitem2 invoice "from" "email" (PStr email)) in
   (* To (with client selection) *)
   let* selected_client := prompt_client_selection clients in
   let* invoice :=
     if Py.truthy selected_client then
       let* name := lift (Py.get selected_client "name" (PStr "")) in
       let* invoice := lift (setitem2 invoice "to" "name" name) in
       let* company := lift (Py.get selected_client "company" (PStr "")) in
       lift (setitem2 invoice "to" "company" company)
     else
       let* name := prompt None in
       let* invoice := lift (setitem2 invoice "to" "name" (PStr name)) in
       let* company := prompt (Some "") in
       lift (setitem2 invoice "to" "company" (PStr company)) in
   (* Items *)
   let* items := prompt_items in
   let* invoice := lift (Py.setitem invoice "items" (PList items)) in
   (* Payment *)
   let* payment := prompt (Some DEFAULTS.payment_method) in
   let* invoice := lift (Py.setitem invoice "payment_method" (PStr payment)) in
   (* Notes *)
   let* notes := prompt (Some "") in
   lift (Py.setitem invoice "notes" (PStr notes)))%io.

(** ** PDF generation *)

Definition inch : float := 72%float.

(** The text given to [Paragraph]; reportlab on anything but a [str] is
    not modelled. *)
Definition as_text (v : pyval) : res string :=
  match v with
  | PStr s => Val s
  | _ => Beyond
  end.

(** [f"${x:.0f}" if x == int(x) else f"${x:.2f}"] *)
Definition money (x : pyval) : res string :=
  match Py.as_number x with
  | Some n =>
      (let* i := Py.int_of n in
       if Py.eq_int n i then
         let* s := Py.format_float 0 n in Val ("$" +:+ s)
       else
         let* s := Py.format_float 2 n in Val ("$" +:+ s))%res
  | None => Beyond
  end.

Definition table_header : list pyval :=
  [PStr "Services"; PStr "Date"; PStr "Quantity"; PStr "Rate"; PStr "Total"].

(** The [for item in invoice["items"]] loop, threading [table_data] and
    [grand_total]. *)
Fixpoint items_loop (items : list pyval) (table_data : list (list pyval))
         (grand_total : pyval) : res (list (list pyval) * pyval) :=
  match items with
  | [] => Val (table_data, grand_total)
  | item :: rest =>
      (let* quantity := Py.getitem item "quantity" in
       let* rate := Py.getitem item "rate" in
       let* total := Py.mul quantity rate in
       let* grand_total := Py.add grand_total total in
       let* service := Py.getitem item "service" in
       let* date := Py.get item "date" (PStr "") in
       let* quantity_text := Py.str quantity in
       let* rate_text := money rate in
       let* total_text := money total in
       items_loop rest
         (table_data ++ [[service; date; PStr quantity_text;
                          PStr rate_text; PStr total_text]])
         grand_total)%res
  end.

Definition col_widths : list float :=
  [2.5 * inch; 1.25 * inch; 0.75 * inch; 0.75 * inch; 0.75 * inch]%float.

(** The items table: header, one row per item, total row. *)
Definition items_table (invoice : pyval) : res flowable :=
  (let* items := Py.getitem invoice "items" in
   let* items := iterate items in
   let* '(table_data, grand_total) := items_loop items [table_header] (PInt 0) in
   let* grand_text := money grand_total in
   Val (Table (table_data
               ++ [[PStr "Total"; PStr ""; PStr ""; PStr ""; PStr grand_text]])
              col_widths))%res.

(** [Paragraph(text, style)]: the flowable, or the exception reportlab's
    markup parser raises on the text. *)
Definition paragraph (markup : string -> option exn) (text : string)
           (st : style) : res flowable :=
  match markup text with
  | Some e => Exn e
  | None => Val (Paragraph text st)
  end.

(** The flowables of an invoice, in the order [generate_pdf] builds and
    appends them; [markup] is the parser of the reportlab at hand. *)
Definition invoice_elements (markup : string -> option exn) (logo : bool)
           (invoice : pyval) : res (list flowable) :=
  (let elements :=
     if logo then [Image (2 * inch) (0.6 * inch); Spacer 1 (0.25 * inch)]%float
     else [] in
   (* Invoice number (if present) *)
   let* number := Py.get invoice "invoice_number" PNone in
   let* elements :=
     if Py.truthy number then
       let* number := Py.getitem invoice "invoice_number" in
       let* text := Py.str number in
       let* p := paragraph markup ("<b>Invoice #:</b> " +:+ text) normal_style in
       Val (elements ++ [p])
     else Val elements in
   (* Title and date *)
   let* title := Py.getitem invoice "title" in
   let* title := as_text title in
   let* p_title := paragraph markup title title_style in
   let* date := Py.getitem invoice "date" in
   let* date := Py.str date in
   let* p_date := paragraph markup ("<b>Date:</b> " +:+ date) normal_style in
   let elements :=
     elements ++ [p_title; p_date; Spacer 1 (0.25 * inch)%float] in
   (* From *)
   let* p_from := paragraph markup "<b>From:</b>" normal_style in
   let* name := getitem2 invoice "from" "name" in
   let* name := as_text name in
   let* p_name := paragraph markup name normal_style in
   let* email := getitem2 invoice "from" "email" in
   let* email := as_text email in
   let* p_email := paragraph markup email normal_style in
   let elements :=
     elements ++ [p_from; p_name; p_email; Spacer 1 (0.15 * inch)%float] in
   (* To *)
   let* p_to := paragraph markup "<b>To:</b>" normal_style in
   let* name := getitem2 invoice "to" "name" in
   let* name := as_text name in
   let* p_name := paragraph markup name normal_style in
   let elements := elements ++ [p_to; p_name] in
   let* to := Py.getitem invoice "to" in
   let* company := Py.get to "company" PNone in
   let* elements :=
     if Py.truthy company then
       let* company := getitem2 invoice "to" "company" in
       let* company := as_text company in
       let* p := paragraph markup company normal_style in
       Val (elements ++ [p])
     else Val elements in
   let elements := elements ++ [Spacer 1 (0.25 * inch)%float] in
   (* Items table *)
   let* table := items_table invoice in
   let elements := elements ++ [table; Spacer 1 (0.25 * inch)%float] in
   (* Payment method *)
   let* payment := Py.getitem invoice "payment_method" in
   let* payment := Py.str payment in
   let* p := paragraph markup ("<b>Payment Method:</b> " +:+ payment)
               normal_style in
   let elements := elements ++ [p] in
   (* Notes *)
   let* notes := Py.get invoice "notes" PNone in
   if Py.truthy notes then
     let* notes := Py.getitem invoice "notes" in
     let* notes := Py.str notes in
     let* p := paragraph markup ("<b>Notes:</b> " +:+ notes) normal_style in
     Val (elements ++ [Spacer 1 (0.25 * inch)%float; p])
   else Val elements)%res.

(** [doc.build(elements)] lays the document out and writes it at
    [output_path]; when the layout fails nothing is written. *)
Definition doc_build (output_path : string) (elements : list flowable)
  : M unit :=
  fun w =>
    match layout_error w elements with
    | Some e => (Exn e, w)
    | None =>
        (Val tt,
         set_user_files (<[output_path := Rendered elements]> (user_files w)) w)
    end.

Definition generate_pdf (invoice : pyval) (output_path : string) : M string :=
  (let* elements :=
     (fun w =>
        (invoice_elements (paragraph_error w) (logo_file w) invoice, w)) in
   let* _ := doc_build output_path elements in
   ret output_path)%io.

(** ** Command line *)

(** The comma-separated fields of an item string, stripped, and padded
    with empty fields up to four. *)
Definition item_fields (item_str : string) : list string :=
  let parts := map Str.strip (Str.split "," item_str) in
  if (length parts <? 4)%nat
  then parts ++ repeat EmptyString (4 - length parts)
  else parts.

Definition parse_item_string (item_str : string) : res pyval :=
  let parts := item_fields item_str in
  let part (i : nat) := nth i parts EmptyString in
  (let* quantity :=
     if negb (String.eqb (part 2%nat) "") then
       match Num.int_of_string (part 2%nat) with
       | Some q => Val (PInt q)
       | None => Exn (ValueError (InvalidIntLiteral (part 2%nat)))
       end
     else Val (PInt 1) in
   let* rate :=
     if negb (String.eqb (part 3%nat) "") then
       let text := Str.replace "$" "" (part 3%nat) in
       match Num.float_of_string text with
       | Some r => Val (PFloat r)
       | None => Exn (ValueError (CouldNotConvertToFloat text))
       end
     else Val (PInt 0) in
   Val (make_item (part 0%nat) (part 1%nat) quantity rate))%res.

Record Args := {
  args_from_json : option string;
  args_title : option string;
  args_date : option string;
  args_to : option string;
  args_to_company : option string;
  args_from_name : option string;
  args_from_email : option string;
  args_item : option (list string);     (* action="append" *)
  args_payment : option string;
  args_notes : option string;
  args_output : option string;
  args_save_json : option string;
  args_invoice_number : option string;
  args_no_number : bool;
  args_client : option string;
  args_list_clients : bool;
  args_save_client : option string;
  args_delete_client : option string
}.

(** The value and truth of an optional string argument. *)
Definition arg (o : option string) : string :=
  match o with Some s => s | None => "" end.

Definition items_given (o : option (list string)) : bool :=
  match o with
  | Some (_ :: _) => true
  | _ => false
  end.

(** [--list-clients] *)
Definition list_clients : M unit :=
  (let* clients := load_clients in
   if negb (Py.truthy clients) then ret tt
   else
     match clients with
     | PDict d =>
         let* _ := lift (res_map
                     (fun kv : string * pyval =>
                        (let* name := Py.get (snd kv) "name" (PStr "") in
                         Py.get (snd kv) "company" (PStr ""))%res) d) in
         ret tt
     | _ => raise AttributeError
     end)%io.

(** [--delete-client KEY] *)
Definition delete_client (key : string) : M unit :=
  (let* clients := load_clients in
   let* known := lift (Py.is_in key clients) in
   if known then
     let* clients := lift (Py.delitem clients key) in
     save_clients clients
   else ret tt)%io.

(** [--save-client KEY]; the result tells whether [main] goes on. *)
Definition save_client (args : Args) (key : string) : M bool :=
  if negb (Py.given (args_to args)) then ret false
  else
    (let* clients := load_clients in
     let* clients :=
       lift (Py.setitem clients key
               (PDict [("name", PStr (arg (args_to args)));
                       ("company", PStr (arg (args_to_company args)))])) in
     let* _ := save_clients clients in
     ret (items_given (args_item args)))%io.

(** [if o: invoice[k] = o] and its nested form. *)
Definition override (o : option string) (k : string) (invoice : pyval)
  : res pyval :=
  if Py.given o then Py.setitem invoice k (PStr (arg o)) else Val invoice.

Definition override2 (o : option string) (k1 k2 : string) (invoice : pyval)
  : res pyval :=
  if Py.given o then setitem2 invoice k1 k2 (PStr (arg o)) else Val invoice.

(** The explicit field overrides of CLI mode, [--title] to [--notes]. *)
Definition cli_overrides (args : Args) (invoice : pyval) : res pyval :=
  (let* invoice := override (args_title args) "title" invoice in
   let* invoice := override (args_date args) "date" invoice in
   let* invoice := override2 (args_to args) "to" "name" invoice in
   let* invoice := override2 (args_to_company args) "to" "company" invoice in
   let* invoice := override2 (args_from_name args) "from" "name" invoice in
   let* invoice := override2 (args_from_email args) "from" "email" invoice in
   let* invoice :=
     if items_given (args_item args) then
       let* items := res_map parse_item_string
                       (match args_item args with Some l => l | None => [] end) in
       Py.setitem invoice "items" (PList items)
     else Val invoice in
   let* invoice := override (args_payment args) "payment_method" invoice in
   override (args_notes args) "notes" invoice)%res.

(** CLI mode; [None] is the early return on an unknown client. *)
Definition cli_invoice (args : Args) : M (option pyval) :=
  (let* invoice := create_empty_invoice in
   let* loaded :=
     if Py.given (args_client args) then
       let key := arg (args_client args) in
       let* clients := load_clients in
       let* known := lift (Py.is_in key clients) in
       if negb known then ret None
       else
         let* client := lift (Py.getitem clients key) in
         let* name := lift (Py.get client "name" (PStr "")) in
         let* invoice := lift (setitem2 invoice "to" "name" name) in
         let* company := lift (Py.get client "company" (PStr "")) in
         let* invoice := lift (setitem2 invoice "to" "company" company) in
         ret (Some invoice)
     else ret (Some invoice) in
   match loaded with
   | None => ret None
   | Some invoice =>
       let* invoice := lift (cli_overrides args invoice) in
       ret (Some invoice)
   end)%io.

(** [open(path)] then [json.load]. *)
Definition read_json (path : string) : M pyval :=
  fun w =>
    match user_files w !! path with
    | Some c => (json_load c, w)
    | None => (Exn (FileNotFoundError path), w)
    end.

(** [open(path, "w")] then [json.dump]. *)
Definition write_json (path : string) (v : pyval) : M unit :=
  fun w => (Val tt, set_user_files (<[path := Json v]> (user_files w)) w).

(** "Load from JSON or start fresh" *)
Definition load_invoice (args : Args) : M (option pyval) :=
  if Py.given (args_from_json args) then
    (let* invoice := read_json (arg (args_from_json args)) in
     ret (Some invoice))%io
  else if Py.given (args_title args) || items_given (args_item args)
          || Py.given (args_client args) then
    cli_invoice args
  else
    (let* invoice := interactive_input in ret (Some invoice))%io.

(** "Handle invoice numbering" *)
Definition handle_invoice_numbering (args : Args) (invoice : pyval)
  : M pyval :=
  if args_no_number args then
    lift (Py.setitem invoice "invoice_number" PNone)
  else if Py.given (args_invoice_number args) then
    lift (Py.setitem invoice "invoice_number"
            (PStr (arg (args_invoice_number args))))
  else
    (let* number := lift (Py.get invoice "invoice_number" PNone) in
     if negb (Py.truthy number) then
       let* number := get_next_invoice_number in
       lift (Py.setitem invoice "invoice_number" (PStr number))
     else ret invoice)%io.

(** The title with everything but alphanumerics, space, hyphen and
    underscore dropped, then spaces turned into hyphens. *)
Definition keep_char (c : pyval) : res string :=
  match c with
  | PStr c => Val (if Str.isalnum c || Str.contains c " -_" then c else "")
  | _ => Exn AttributeError
  end.

Definition safe_title (title : pyval) : res string :=
  (let* cs := iterate title in
   let* kept := res_map keep_char cs in
   Val (Str.replace " " "-" (Str.join kept)))%res.

(** "Generate output filename" *)
Definition output_filename (args : Args) (invoice : pyval) : res string :=
  if Py.given (args_output args) then Val (arg (args_output args))
  else
    (let* title := Py.getitem invoice "title" in
     let* safe := safe_title title in
     let* number := Py.get invoice "invoice_number" PNone in
     if Py.truthy number then
       let* number := Py.getitem invoice "invoice_number" in
       let* text := Py.str number in
       Val (text +:+ "-" +:+ safe +:+ ".pdf")
     else Val (safe +:+ ".pdf"))%res.

(** What [main] does once the invoice has been collected. *)
Definition number_and_render (args : Args) (invoice : pyval) : M unit :=
  (let* invoice := handle_invoice_numbering args invoice in
   let* output_path := lift (output_filename args invoice) in
   let* _ := generate_pdf invoice output_path in
   if Py.given (args_save_json args) then
     write_json (arg (args_save_json args)) invoice
   else ret tt)%io.

Definition main (args : Args) : M unit :=
  (* Client management commands *)
  if args_list_clients args then list_clients
  else if Py.given (args_delete_client args) then
    delete_client (arg (args_delete_client args))
  else
    (let* go_on :=
       if Py.given (args_save_client args) then
         save_client args (arg (args_save_client args))
       else ret true in
     if negb go_on then ret tt
     else
       let* loaded := load_invoice args in
       match loaded with
       | None => ret tt
       | Some invoice => number_and_render args invoice
       end)%io.

(** ** Repeated calls, for the properties of the sequence counter *)

(** [n] calls of [get_next_invoice_number] in a row, results in order. *)
Fixpoint allocate_n (n : nat) : M (list string) :=
  match n with
  | O => ret []
  | S n' =>
      (let* first := get_next_invoice_number in
       let* others := allocate_n n' in
       ret (first :: others))%io
  end.

(** [n] calls of [peek_next_invoice_number] in a row, each result kept
    whether it is a value or an exception. *)
Fixpoint peek_n (n : nat) (w : world) : list (res string) * world :=
  match n with
  | O => ([], w)
  | S n' =>
      let '(r, w1) := peek_next_invoice_number w in
      let '(rs, w2) := peek_n n' w1 in
      (r :: rs, w2)
  end.

(** Number of decimal digits of a positive number ([0] for [0]). *)
Definition ndigits (x : N) : nat := String.length (pretty_N_go x "").

(** The persisted counter as the script reads it: [0] without a file, the
    int under ["last_number"] of the JSON object otherwise. *)
Definition last_number (w : world) : option Z :=
  match counter_file w with
  | None => Some 0
  | Some (Json (PDict d)) =>
      match Py.assoc_get "last_number" d with
      | Some (PInt k) => Some k
      | _ => None
      end
  | Some _ => None
  end.

(** The reportlab of the examples.  It is stricter than the real one,
    which accepts more: a paragraph is accepted when its text, after one
    of the labels the script puts in front, holds no [<] and no [&], and
    a document is laid out when every cell of its tables is a string of
    one line.  The examples use no other text, so nothing in them
    depends on what reportlab does elsewhere. *)
Definition plain (text : string) : bool :=
  Str.all_chars (fun c => negb (Ascii.eqb c "<") && negb (Ascii.eqb c "&"))
    text.

Fixpoint without_prefix (p s : string) : option string :=
  match p, s with
  | EmptyString, _ => Some s
  | String a p', String b s' =>
      if Ascii.eqb a b then without_prefix p' s' else None
  | String _ _, EmptyString => None
  end.

Definition labels : list string :=
  ["<b>Invoice #:</b> "; "<b>Date:</b> "; "<b>Payment Method:</b> ";
   "<b>Notes:</b> "].

Definition strict_paragraph (text : string) : option exn :=
  if plain text
     || String.eqb text "<b>From:</b>" || String.eqb text "<b>To:</b>"
     || existsb (fun label => match without_prefix label text with
                              | Some rest => plain rest
                              | None => false
                              end) labels
  then None
  else Some (ValueError (ParagraphParseError text)).

Definition one_line (cell : pyval) : bool :=
  match cell with
  | PStr s => Str.all_chars (fun c => negb (Ascii.eqb c "010")) s
  | _ => false
  end.

Definition strict_layout (elements : list flowable) : option exn :=
  if forallb (fun element => match element with
                             | Table data _ => forallb (forallb one_line) data
                             | _ => true
                             end) elements
  then None
  else Some LayoutError.

(** A world to run examples in: no files, nothing on standard input. *)
Definition empty_world : world :=
  World false None None false empty [] "January 01, 2025"
        strict_paragraph strict_layout.

(** ** Vocabulary for the properties of item strings and of CLI mode *)

Definition is_none {A} (o : option A) : bool :=
  match o with None => true | Some _ => false end.

(** Malformed numeric text in an item string: a quantity field that is
    not empty and not an int literal, or else a rate field that is not
    empty and, its dollar signs removed, not a float literal.  The result
    is the complaint Python makes about it. *)
Definition malformed_number (item_str : string) : option value_error :=
  let part (i : nat) := nth i (item_fields item_str) EmptyString in
  let rate_text := Str.replace "$" "" (part 3%nat) in
  if negb (String.eqb (part 2%nat) "")
     && is_none (Num.int_of_string (part 2%nat))
  then Some (InvalidIntLiteral (part 2%nat))
  else if negb (String.eqb (part 3%nat) "")
          && is_none (Num.float_of_string rate_text)
       then Some (CouldNotConvertToFloat rate_text)
       else None.

(** No comma in the string. *)
Definition comma_free (s : string) : bool :=
  Str.all_chars (fun c => negb (Ascii.eqb c ",")) s.

(** The input text an exception echoes. *)
Definition echoed (e : exn) : option string :=
  match e with
  | ValueError (InvalidIntLiteral text)
  | ValueError (CouldNotConvertToFloat text) => Some text
  | KeyError key => Some key
  | FileNotFoundError path => Some path
  | _ => None
  end.

(** A run in CLI mode with no client profile involved: no client
    management command, no [--from-json], no [--client]. *)
Definition plain_cli (args : Args) : Prop :=
  args_list_clients args = false
  /\ Py.given (args_delete_client args) = false
  /\ Py.given (args_save_client args) = false
  /\ Py.given (args_from_json args) = false
  /\ Py.given (args_client args) = false.

(** The invoice dict of CLI mode, field by field. *)
Record invoice_record := {
  r_invoice_number : pyval;
  r_title : string;
  r_date : string;
  r_from_name : string;
  r_from_email : string;
  r_to_name : string;
  r_to_company : string;
  r_items : list pyval;
  r_payment_method : string;
  r_notes : string
}.

Definition to_dict (r : invoice_record) : pyval :=
  PDict
    [("invoice_number", r_invoice_number r);
     ("title", PStr (r_title r));
     ("date", PStr (r_date r));
     ("from", PDict [("name", PStr (r_from_name r));
                     ("email", PStr (r_from_email r))]);
     ("to", PDict [("name", PStr (r_to_name r));
                   ("company", PStr (r_to_company r))]);
     ("items", PList (r_items r));
     ("payment_method", PStr (r_payment_method r));
     ("notes", PStr (r_notes r))].

(** An argument over a default: [a if a else d]. *)
Definition over (o : option string) (d : string) : string :=
  if Py.given o then arg o else d.

(** The item strings of the command line, parsed in order. *)
Definition cli_items (args : Args) : res (list pyval) :=
  if items_given (args_item args) then
    res_map parse_item_string
      (match args_item args with Some l => l | None => [] end)
  else Val [].

(** The record CLI mode builds from the defaults and the arguments. *)
Definition cli_record (args : Args) (today : string) (items : list pyval)
  : invoice_record :=
  {| r_invoice_number := PNone;
     r_title := over (args_title args) "";
     r_date := over (args_date args) today;
     r_from_name := over (args_from_name args) DEFAULTS.from_name;
     r_from_email := over (args_from_email args) DEFAULTS.from_email;
     r_to_name := over (args_to args) "";
     r_to_company := over (args_to_company args) "";
     r_items := items;
     r_payment_method := over (args_payment args) DEFAULTS.payment_method;
     r_notes := over (args_notes args) "" |}.


(** ** Command lines for the examples *)

(** [--title] / [--item] / [--invoice-number] / [--no-number] only. *)
Definition cli_args (title : option string) (items : option (list string))
           (number : option string) (no_number : bool) : Args :=
  {| args_from_json := None; args_title := title; args_date := None;
     args_to := None; args_to_company := None; args_from_name := None;
     args_from_email := None; args_item := items; args_payment := None;
     args_notes := None; args_output := None; args_save_json := None;
     args_invoice_number := number; args_no_number := no_number;
     args_client := None; args_list_clients := false;
     args_save_client := None; args_delete_client := None |}.

(** [--from-json PATH] with the numbering flags. *)
Definition json_args (path : string) (number : option string)
           (no_number : bool) : Args :=
  {| args_from_json := Some path; args_title := None; args_date := None;
     args_to := None; args_to_company := None; args_from_name := None;
     args_from_email := None; args_item := None; args_payment := None;
     args_notes := None; args_output := None; args_save_json := None;
     args_invoice_number := number; args_no_number := no_number;
     args_client := None; args_list_clients := false;
     args_save_client := None; args_delete_client := None |}.

(** An invoice as it may come from a JSON file, carrying its own number. *)
Definition numbered_invoice : pyval :=
  PDict
    [("invoice_number", PStr "A-7");
     ("title", PStr "Invoice for Consulting!!");
     ("date", PStr "March 03, 2025");
     ("from", PDict [("name", PStr "Adam Luck");
                     ("email", PStr "adamluckydo@gmail.com")]);
     ("to", PDict [("name", PStr "Acme Corp"); ("company", PStr "")]);
     ("items", PList [make_item "Consulting" "Jan 1-15" (PInt 10) (PInt 150)]);
     ("payment_method", PStr "PayPal");
     ("notes", PStr "")].

(** ** Vocabulary for the items table *)

(** [quantity * rate] of one item. *)
Definition line_total (item : pyval) : res pyval :=
  (let* quantity := Py.getitem item "quantity" in
   let* rate := Py.getitem item "rate" in
   Py.mul quantity rate)%res.

(** The sum of a list of totals, added up from the left starting at
    [start]. *)
Fixpoint sum_from (start : pyval) (totals : list pyval) : res pyval :=
  match totals with
  | [] => Val start
  | t :: ts => (let* s := Py.add start t in sum_from s ts)%res
  end.

(** The table row of one item: service, date, quantity, rate, total. *)
Definition item_row (item : pyval) : res (list pyval) :=
  (let* total := line_total item in
   let* service := Py.getitem item "service" in
   let* date := Py.get item "date" (PStr "") in
   let* quantity := Py.getitem item "quantity" in
   let* quantity_text := Py.str quantity in
   let* rate := Py.getitem item "rate" in
   let* rate_text := money rate in
   let* total_text := money total in
   Val [service; date; PStr quantity_text; PStr rate_text; PStr total_text])%res.



(** ** Vocabulary for the sequence counter and the numbering step *)

(** The counter file holds a JSON object [d] whose [last_number] is the
    int [k]. *)
Definition counter_at (w : world) (d : list (string * pyval)) (k : Z) : Prop :=
  counter_file w = Some (Json (PDict d))
  /\ Py.assoc_get "last_number" d = Some (PInt k).

(** The number the numbering step can leave in a CLI record: none, or a
    string. *)
Definition cli_number (v : pyval) : Prop :=
  v = PNone \/ exists s, v = PStr s.

(** [m] neither reads nor writes the counter file: run with any other
    counter file it gives the same result and the same changes. *)
Definition counter_blind {A} (m : M A) : Prop :=
  forall (c : option content) (w : world),
    m (set_counter_file c w)
    = (fst (m w), set_counter_file c (snd (m w))).

(** [m] leaves the counter file as it found it. *)
Definition keeps_counter {A} (m : M A) : Prop :=
  forall w : world, counter_file (snd (m w)) = counter_file w.



(** A world whose standard input answers every prompt of one interactive
    run: title, date, sender, client, one item, payment and notes. *)
Definition answering_world : world :=
  set_stdin ["Invoice for Work"; ""; ""; ""; "Acme Corp"; "";
             "Work"; "Jan 2025"; "2"; "50"; ""; ""; ""]
    empty_world.

(** What [safe_title] keeps of one character. *)
Definition kept (c : string) : string :=
  if Str.isalnum c || Str.contains c " -_" then c else "".

(** The items table of the example invoice: ten hours at 150. *)
Definition example_table : list (list pyval) :=
  [table_header;
   [PStr "Consulting"; PStr "Jan 1-15"; PStr "10"; PStr "$150"; PStr "$1500"];
   [PStr "Total"; PStr ""; PStr ""; PStr ""; PStr "$1500"]].

(** ** Vocabulary for the shape of the counter file *)

(** What is wrong with a counter file that decodes to [v] but is not a
    JSON object with a number under ["last_number"]: the exception that
    reading the number raises. *)
Definition shape_error (v : pyval) : option exn :=
  match v with
  | PDict d =>
      match Py.assoc_get "last_number" d with
      | None => Some (KeyError "last_number")
      | Some x =>
          match Py.as_number x with
          | None => Some TypeError
          | Some _ => None
          end
      end
  | _ => Some TypeError
  end.

(** ** Vocabulary for the client store *)

(** The client profiles as the script reads them: none without a file,
    the entries of the JSON object otherwise. *)
Definition stored_clients (w : world) : option (list (string * pyval)) :=
  match clients_file w with
  | None => Some []
  | Some (Json (PDict d)) => Some d
  | Some _ => None
  end.

(** The profile [--save-client] stores. *)
Definition client_profile (args : Args) : pyval :=
  PDict [("name", PStr (arg (args_to args)));
         ("company", PStr (arg (args_to_company args)))].

(** The same command line without [--save-client]. *)
Definition without_save_client (args : Args) : Args :=
  {| args_from_json := args_from_json args;
     args_title := args_title args;
     args_date := args_date args;
     args_to := args_to args;
     args_to_company := args_to_company args;
     args_from_name := args_from_name args;
     args_from_email := args_from_email args;
     args_item := args_item args;
     args_payment := args_payment args;
     args_notes := args_notes args;
     args_output := args_output args;
     args_save_json := args_save_json args;
     args_invoice_number := args_invoice_number args;
     args_no_number := args_no_number args;
     args_client := args_client args;
     args_list_clients := args_list_clients args;
     args_save_client := None;
     args_delete_client := args_delete_client args |}.

(** Whether a run gets as far as reading the client store. *)
Definition reads_clients (args : Args) : bool :=
  if args_list_clients args then true
  else if Py.given (args_delete_client args) then true
  else if Py.given (args_save_client args) then Py.given (args_to args)
  else if Py.given (args_from_json args) then false
  else if Py.given (args_title args) || items_given (args_item args)
          || Py.given (args_client args)
  then Py.given (args_client args)
  else true.

(** The record CLI mode builds when [--client] names a stored profile
    with the given name and company. *)
Definition client_record (args : Args) (today name company : string)
           (items : list pyval) : invoice_record :=
  {| r_invoice_number := PNone;
     r_title := over (args_title args) "";
     r_date := over (args_date args) today;
     r_from_name := over (args_from_name args) DEFAULTS.from_name;
     r_from_email := over (args_from_email args) DEFAULTS.from_email;
     r_to_name := over (args_to args) name;
     r_to_company := over (args_to_company args) company;
     r_items := items;
     r_payment_method := over (args_payment args) DEFAULTS.payment_method;
     r_notes := over (args_notes args) "" |}.

(** ** Vocabulary for the files a run writes *)

(** [m] leaves the files named on the command line as it found them. *)
Definition keeps_files {A} (m : M A) : Prop :=
  forall w : world, user_files (snd (m w)) = user_files w.

(** No client management command on the command line. *)
Definition no_client_command (args : Args) : Prop :=
  args_list_clients args = false
  /\ Py.given (args_delete_client args) = false
  /\ Py.given (args_save_client args) = false.

(** A run from a JSON file takes no number from the counter: a flag
    settles the number, or the invoice carries one. *)
Definition takes_no_number (args : Args) (d : list (string * pyval)) : bool :=
  args_no_number args
  || Py.given (args_invoice_number args)
  || Py.truthy (match Py.assoc_get "invoice_number" d with
                | Some number => number
                | None => PNone
                end).

(** ** Vocabulary for the output file name *)


(** ** Vocabulary for the layout of the document *)

(** What appears only when a text is not empty. *)
Definition unless_empty {A} (text : string) (l : list A) : list A :=
  if String.eqb text "" then [] else l.

(** The text of an invoice number that is a string; empty for [None]. *)
Definition number_text (number : pyval) : string :=
  match number with
  | PStr s => s
  | _ => ""
  end.

(** The texts of the paragraphs of an invoice record, in the order
    [generate_pdf] builds them. *)
Definition record_texts (r : invoice_record) : list string :=
  unless_empty (number_text (r_invoice_number r))
    ["<b>Invoice #:</b> " +:+ number_text (r_invoice_number r)]
  ++ [r_title r;
      "<b>Date:</b> " +:+ r_date r;
      "<b>From:</b>";
      r_from_name r;
      r_from_email r;
      "<b>To:</b>";
      r_to_name r]
  ++ unless_empty (r_to_company r) [r_to_company r]
  ++ ["<b>Payment Method:</b> " +:+ r_payment_method r]
  ++ unless_empty (r_notes r) ["<b>Notes:</b> " +:+ r_notes r].

(** The document of an invoice record, top to bottom, around its items
    table. *)
Definition record_elements (logo : bool) (r : invoice_record)
           (table : flowable) : list flowable :=
  (if logo
   then [Image (2 * inch) (0.6 * inch); Spacer 1 (0.25 * inch)]%float
   else [])
  ++ unless_empty (number_text (r_invoice_number r))
       [Paragraph ("<b>Invoice #:</b> " +:+ number_text (r_invoice_number r))
          normal_style]
  ++ [Paragraph (r_title r) title_style;
      Paragraph ("<b>Date:</b> " +:+ r_date r) normal_style;
      Spacer 1 (0.25 * inch)%float;
      Paragraph "<b>From:</b>" normal_style;
      Paragraph (r_from_name r) normal_style;
      Paragraph (r_from_email r) normal_style;
      Spacer 1 (0.15 * inch)%float;
      Paragraph "<b>To:</b>" normal_style;
      Paragraph (r_to_name r) normal_style]
  ++ unless_empty (r_to_company r) [Paragraph (r_to_company r) normal_style]
  ++ [Spacer 1 (0.25 * inch)%float;
      table;
      Spacer 1 (0.25 * inch)%float;
      Paragraph ("<b>Payment Method:</b> " +:+ r_payment_method r)
        normal_style]
  ++ unless_empty (r_notes r)
       [Spacer 1 (0.25 * inch)%float;
        Paragraph ("<b>Notes:</b> " +:+ r_notes r) normal_style].

(** The exception of the first text, in order, that the markup parser
    refuses. *)
Fixpoint first_error (markup : string -> option exn) (texts : list string)
  : option exn :=
  match texts with
  | [] => None
  | text :: texts' =>
      match markup text with
      | Some e => Some e
      | None => first_error markup texts'
      end
  end.



(** A float that is neither an infinity nor a NaN. *)
Definition finite (f : float) : bool :=
  match Prim2SF f with
  | S754_zero _ | S754_finite _ _ _ => true
  | S754_infinity _ | S754_nan => false
  end.

(** ** Vocabulary for the interactive prompts *)

(** What [prompt] makes of a line typed: the stripped line, or the
    default when nothing is left of it. *)
Definition answer (line default : string) : string :=
  let result := Str.strip line in
  if String.eqb result "" then default else result.

(** The four lines typed for one line item. *)
Record entry := {
  e_service : string;
  e_date : string;
  e_quantity : string;
  e_rate : string
}.

Definition entry_lines (e : entry) : list string :=
  [e_service e; e_date e; e_quantity e; e_rate e].

(** The quantity and rate [prompt_items] keeps of an entry: both as
    typed when both parse, and [1] and [0] otherwise. *)
Definition entry_numbers (e : entry) : pyval * pyval :=
  match Num.int_of_string (answer (e_quantity e) "1"),
        Num.float_of_string
          (Str.replace "," "" (Str.replace "$" "" (answer (e_rate e) "0"))) with
  | Some q, Some r => (PInt q, PFloat r)
  | _, _ => (PInt 1, PInt 0)
  end.

Definition entry_item (e : entry) : pyval :=
  make_item (Str.strip (e_service e)) (answer (e_date e) "")
    (fst (entry_numbers e)) (snd (entry_numbers e)).

(** An entry with a service, whose total the confirmation line can
    print. *)
Definition entry_ok (e : entry) : bool :=
  negb (String.eqb (Str.strip (e_service e)) "")
  && match Py.mul (fst (entry_numbers e)) (snd (entry_numbers e)) with
     | Val _ => true
     | _ => false
     end.

(** A line with nothing but white space on it. *)
Definition blank (line : string) : bool := String.eqb (Str.strip line) "".

(** ** Command lines and stores for further examples *)

(** A command line about saved clients: [--list-clients],
    [--delete-client], [--save-client], [--client], [--to], [--item]. *)
Definition client_args (list_clients : bool)
           (delete save client to : option string)
           (items : option (list string)) : Args :=
  {| args_from_json := None; args_title := None; args_date := None;
     args_to := to; args_to_company := None; args_from_name := None;
     args_from_email := None; args_item := items; args_payment := None;
     args_notes := None; args_output := None; args_save_json := None;
     args_invoice_number := None; args_no_number := false;
     args_client := client; args_list_clients := list_clients;
     args_save_client := save; args_delete_client := delete |}.

(** [--title] / [--item] / [--save-json], with [--from-json] or not. *)
Definition saving_args (from_json title : option string)
           (items : option (list string)) (save_json : option string)
  : Args :=
  {| args_from_json := from_json; args_title := title; args_date := None;
     args_to := None; args_to_company := None; args_from_name := None;
     args_from_email := None; args_item := items; args_payment := None;
     args_notes := None; args_output := None; args_save_json := save_json;
     args_invoice_number := None; args_no_number := false;
     args_client := None; args_list_clients := false;
     args_save_client := None; args_delete_client := None |}.

(** A store of two clients, and a world that has it. *)
Definition example_clients : list (string * pyval) :=
  [("acme", PDict [("name", PStr "Acme Corp");
                   ("company", PStr "Acme Holdings")]);
   ("bob", PDict [("name", PStr "Bob"); ("company", PStr "")])].

Definition client_world : world :=
  set_clients_file (Some (Json (PDict example_clients))) empty_world.



(** * Properties *)

(** ** Decimal text *)

Lemma pretty_N_go_length (x : N) (s : string) :
  String.length (pretty_N_go x s) = (ndigits x + String.length s)%nat.
Proof.
  unfold ndigits. revert s.
  induction (N.lt_wf_0 x) as [x _ IH]; intros s.
  destruct (decide (x = 0)%N) as [->|Hx].
  - reflexivity.
  - assert (0 < x)%N as Hpos by lia.
    rewrite (pretty_N_go_step x s Hpos), (pretty_N_go_step x "" Hpos).
    assert (x `div` 10 < x)%N as Hlt by (apply N.div_lt; lia).
    rewrite (IH _ Hlt (String _ s)), (IH _ Hlt (String _ "")).
    simpl. lia.
Qed.

Lemma ndigits_0 : ndigits 0 = 0%nat.
Proof. reflexivity. Qed.

Lemma ndigits_step (x : N) :
  (0 < x)%N -> ndigits x = S (ndigits (x `div` 10)).
Proof.
  intros Hpos. unfold ndigits at 1.
  rewrite (pretty_N_go_step x "" Hpos), pretty_N_go_length. simpl. lia.
Qed.

Lemma ndigits_lower (k : nat) (x : N) :
  (10 ^ N.of_nat k <= x)%N -> (k < ndigits x)%nat.
Proof.
  revert x. induction k as [|k IH]; intros x Hx.
  - simpl in Hx. rewrite ndigits_step by lia. lia.
  - rewrite Nnat.Nat2N.inj_succ, N.pow_succ_r' in Hx.
    rewrite ndigits_step by lia.
    apply ->Nat.succ_lt_mono. apply IH.
    apply N.div_le_lower_bound; lia.
Qed.

Lemma ndigits_upper (k : nat) (x : N) :
  (x < 10 ^ N.of_nat k)%N -> (ndigits x <= k)%nat.
Proof.
  revert x. induction k as [|k IH]; intros x Hx.
  - simpl in Hx. assert (x = 0%N) as -> by lia. rewrite ndigits_0. lia.
  - destruct (decide (x = 0)%N) as [->|Hne]; [rewrite ndigits_0; lia|].
    rewrite Nnat.Nat2N.inj_succ, N.pow_succ_r' in Hx.
    rewrite ndigits_step by lia.
    apply ->Nat.succ_le_mono. apply IH.
    apply N.Div0.div_lt_upper_bound; lia.
Qed.

Lemma digit_val_pretty (r : N) :
  (r < 10)%N ->
  Str.isdigit (pretty_N_char r) = true
  /\ Num.digit_val (pretty_N_char r) = Z.of_N r.
Proof.
  intros Hr.
  assert (r = 0 \/ r = 1 \/ r = 2 \/ r = 3 \/ r = 4 \/ r = 5 \/ r = 6
          \/ r = 7 \/ r = 8 \/ r = 9)%N as Hcases by lia.
  repeat (destruct Hcases as [->|Hcases]; [split; reflexivity|]).
  subst r. split; reflexivity.
Qed.

(** Reading back the digits that [pretty] wrote. *)
Lemma take_digits_pretty_go (x : N) (s : string) (acc : Z) (k : nat) :
  Num.take_digits (pretty_N_go x s) acc k
  = Num.take_digits s (acc * 10 ^ Z.of_nat (ndigits x) + Z.of_N x)
      (k + ndigits x)%nat.
Proof.
  revert s.
  induction (N.lt_wf_0 x) as [x _ IH]; intros s.
  destruct (decide (x = 0)%N) as [->|Hx].
  - rewrite pretty_N_go_0, ndigits_0. simpl. f_equal; lia.
  - assert (0 < x)%N as Hpos by lia.
    rewrite (pretty_N_go_step x s Hpos).
    assert (x `div` 10 < x)%N as Hlt by (apply N.div_lt; lia).
    rewrite (IH _ Hlt). cbn [Num.take_digits].
    destruct (digit_val_pretty (x `mod` 10)) as [-> ->];
      [apply N.mod_lt; lia|].
    rewrite (ndigits_step x Hpos).
    f_equal; [|lia].
    rewrite Nat2Z.inj_succ, Z.pow_succ_r by lia.
    assert (Z.of_N x = 10 * Z.of_N (x `div` 10) + Z.of_N (x `mod` 10)) as Hdm.
    { pose proof (N.div_mod x 10 ltac:(lia)). lia. }
    rewrite Hdm. ring.
Qed.

Lemma pretty_N_length (x : N) :
  String.length (pretty x) = if decide (x = 0%N) then 1%nat else ndigits x.
Proof.
  unfold pretty, pretty_N. destruct (decide (x = 0%N)); [reflexivity|].
  rewrite pretty_N_go_length. simpl. lia.
Qed.

Lemma take_digits_pretty_N (x : N) (acc : Z) (k : nat) :
  Num.take_digits (pretty x) acc k
  = (acc * 10 ^ Z.of_nat (String.length (pretty x)) + Z.of_N x,
     (k + String.length (pretty x))%nat, "").
Proof.
  rewrite pretty_N_length. unfold pretty, pretty_N.
  destruct (decide (x = 0%N)) as [->|Hx].
  - cbn. change (Num.digit_val "0") with 0.
    change (Pos.to_nat 1) with 1%nat. repeat (f_equal; try lia).
  - rewrite take_digits_pretty_go. reflexivity.
Qed.

Lemma take_digits_zeros (j : nat) (s : string) (acc : Z) (k : nat) :
  Num.take_digits (Str.repeat_char "0" j +:+ s) acc k
  = Num.take_digits s (acc * 10 ^ Z.of_nat j) (k + j)%nat.
Proof.
  revert acc k. induction j as [|j IH]; intros acc k.
  - simpl. repeat (f_equal; try lia).
  - change (Str.repeat_char "0" (S j) +:+ s)
      with (String "0" (Str.repeat_char "0" j +:+ s)).
    cbn [Num.take_digits].
    change (Str.isdigit "0") with true. cbn iota.
    rewrite IH. change (Num.digit_val "0") with 0.
    rewrite Nat2Z.inj_succ, Z.pow_succ_r by lia.
    repeat (f_equal; try lia).
Qed.

Lemma pretty_abs_N (z : Z) : 0 <= z -> pretty (Z.abs_N z) = Num.str_of_Z z.
Proof. destruct z; [reflexivity|reflexivity|lia]. Qed.

Lemma format_03d_nonneg (z : Z) :
  0 <= z -> Num.format_03d z = Str.zfill 3 (Num.str_of_Z z).
Proof.
  intros Hz. unfold Num.format_03d.
  destruct (z <? 0) eqn:E; [lia|]. now rewrite pretty_abs_N.
Qed.

(** The number text holds digits only, reads back as the number, and is
    as wide as the number needs, three characters at least. *)
Lemma take_digits_format_03d (z : Z) :
  0 <= z ->
  Num.take_digits (Num.format_03d z) 0 0
  = (z, Nat.max 3 (String.length (Num.str_of_Z z)), "").
Proof.
  intros Hz. rewrite format_03d_nonneg by done.
  unfold Str.zfill. rewrite take_digits_zeros.
  rewrite <-(pretty_abs_N z Hz), take_digits_pretty_N.
  rewrite N2Z.inj_abs_N. repeat (f_equal; try lia).
Qed.

Lemma format_03d_inj (a b : Z) :
  0 <= a -> 0 <= b -> Num.format_03d a = Num.format_03d b -> a = b.
Proof.
  intros Ha Hb Heq.
  pose proof (take_digits_format_03d a Ha) as Ea.
  rewrite Heq, (take_digits_format_03d b Hb) in Ea. congruence.
Qed.

Lemma str_of_Z_length_small (z : Z) :
  0 <= z < 1000 -> (String.length (Num.str_of_Z z) <= 3)%nat.
Proof.
  intros Hz. rewrite <-pretty_abs_N by lia. rewrite pretty_N_length.
  destruct (decide _); [lia|]. apply ndigits_upper. simpl. lia.
Qed.

Lemma str_of_Z_length_large (k : nat) (z : Z) :
  10 ^ Z.of_nat k <= z -> (k < String.length (Num.str_of_Z z))%nat.
Proof.
  intros Hz.
  assert (0 < 10 ^ Z.of_nat k) by (apply Z.pow_pos_nonneg; lia).
  rewrite <-pretty_abs_N by lia. rewrite pretty_N_length.
  destruct (decide _); [lia|]. apply ndigits_lower.
  apply N2Z.inj_le. rewrite N2Z.inj_pow, nat_N_Z, N2Z.inj_abs_N.
  change (Z.of_N 10) with 10. lia.
Qed.

Lemma zfill_wide (w : nat) (s : string) :
  (w <= String.length s)%nat -> Str.zfill w s = s.
Proof.
  intros H. unfold Str.zfill.
  replace (w - String.length s)%nat with 0%nat by lia. reflexivity.
Qed.

Lemma zfill_length (w : nat) (s : string) :
  String.length (Str.zfill w s) = Nat.max w (String.length s).
Proof.
  unfold Str.zfill.
  assert (forall j t, String.length (Str.repeat_char "0" j +:+ t)
                      = (j + String.length t)%nat) as Hlen.
  { induction j as [|j IH]; intros t; [reflexivity|].
    change (Str.repeat_char "0" (S j) +:+ t)
      with (String "0" (Str.repeat_char "0" j +:+ t)).
    cbn [String.length]. rewrite IH. lia. }
  rewrite Hlen. lia.
Qed.

(** ** Association lists *)

Lemma assoc_get_set (k : string) (x : pyval) (d : list (string * pyval)) :
  Py.assoc_get k (Py.assoc_set k x d) = Some x.
Proof.
  induction d as [|[k' v] d IH]; simpl.
  - now rewrite String.eqb_refl.
  - destruct (String.eqb k' k) eqn:E; simpl; rewrite E; [reflexivity|apply IH].
Qed.

Lemma assoc_get_set_ne (k k' : string) (x : pyval) (d : list (string * pyval)) :
  k <> k' -> Py.assoc_get k' (Py.assoc_set k x d) = Py.assoc_get k' d.
Proof.
  intros Hne. induction d as [|[k0 v] d IH]; simpl.
  - destruct (String.eqb k k') eqn:E; [|reflexivity].
    apply String.eqb_eq in E. contradiction.
  - destruct (String.eqb k0 k) eqn:E; simpl.
    + apply String.eqb_eq in E. subst k0.
      destruct (String.eqb k k') eqn:E'; [|reflexivity].
      apply String.eqb_eq in E'. contradiction.
    + destruct (String.eqb k0 k'); [reflexivity|apply IH].
Qed.

Lemma assoc_set_set (k : string) (x y : pyval) (d : list (string * pyval)) :
  Py.assoc_set k y (Py.assoc_set k x d) = Py.assoc_set k y d.
Proof.
  induction d as [|[k' v] d IH]; simpl.
  - now rewrite String.eqb_refl.
  - destruct (String.eqb k' k) eqn:E; simpl; rewrite E; [reflexivity|].
    now rewrite IH.
Qed.

Lemma assoc_set_same (k : string) (x : pyval) (d : list (string * pyval)) :
  Py.assoc_get k d = Some x -> Py.assoc_set k x d = d.
Proof.
  induction d as [|[k' v] d IH]; simpl; [discriminate|].
  destruct (String.eqb k' k) eqn:E.
  - intros [= ->]. reflexivity.
  - intros H. now rewrite IH.
Qed.

(** ** The sequence counter *)

Lemma get_next_absent (w : world) :
  counter_file w = None ->
  get_next_invoice_number w
  = (Val (invoice_id (Num.format_03d 1)),
     set_counter_file (Some (Json (PDict [("last_number", PInt 1)])))
       (set_data_dir true w)).
Proof.
  intros H. unfold get_next_invoice_number, bind, ensure_data_dir, lift, ret.
  cbn. rewrite H. reflexivity.
Qed.

Lemma get_next_present (w : world) (d : list (string * pyval)) (k : Z) :
  counter_at w d k ->
  get_next_invoice_number w
  = (Val (invoice_id (Num.format_03d (k + 1))),
     set_counter_file
       (Some (Json (PDict (Py.assoc_set "last_number" (PInt (k + 1)) d))))
       (set_data_dir true w)).
Proof.
  intros [Hfile Hlast].
  unfold get_next_invoice_number, bind, ensure_data_dir, lift, ret.
  cbn. rewrite Hfile. cbn. rewrite Hlast. cbn.
  rewrite assoc_get_set. reflexivity.
Qed.

Lemma allocate_n_present (n : nat) :
  forall (w : world) (d : list (string * pyval)) (k : Z),
    counter_at w d k ->
    data_dir w = true ->
    allocate_n n w
    = (Val (map (fun i => invoice_id (Num.format_03d (k + Z.of_nat i)))
              (seq 1 n)),
       set_counter_file
         (Some (Json (PDict (Py.assoc_set "last_number"
                               (PInt (k + Z.of_nat n)) d))))
         w).
Proof.
  induction n as [|n IH]; intros w d k Hat Hdir.
  - destruct Hat as [Hfile Hlast]. cbn.
    rewrite Z.add_0_r, (assoc_set_same _ _ _ Hlast), <-Hfile.
    unfold ret. f_equal. destruct w; reflexivity.
  - cbn [allocate_n]. unfold bind at 1.
    rewrite (get_next_present w d k Hat).
    unfold bind at 1.
    rewrite (IH _ (Py.assoc_set "last_number" (PInt (k + 1)) d) (k + 1)).
    2:{ split; [reflexivity|apply assoc_get_set]. }
    2:{ reflexivity. }
    unfold ret. f_equal.
    + f_equal. cbn [seq map]. f_equal.
      rewrite <-(seq_shift n 1), map_map. apply map_ext. intros i.
      do 2 f_equal. lia.
    + rewrite assoc_set_set.
      replace (k + 1 + Z.of_nat n) with (k + Z.of_nat (S n)) by lia.
      destruct w; cbn in *. subst. reflexivity.
Qed.

(** Calls from an absent counter file: the identifiers of 1, 2, ..., n. *)
Lemma allocate_n_absent (n : nat) (w : world) :
  counter_file w = None ->
  (1 <= n)%nat ->
  allocate_n n w
  = (Val (map (fun i => invoice_id (Num.format_03d (Z.of_nat i))) (seq 1 n)),
     set_counter_file
       (Some (Json (PDict [("last_number", PInt (Z.of_nat n))])))
       (set_data_dir true w)).
Proof.
  intros Habs Hn. destruct n as [|n]; [lia|].
  cbn [allocate_n]. unfold bind at 1. rewrite (get_next_absent w Habs).
  unfold bind at 1.
  rewrite (allocate_n_present n _ [("last_number", PInt 1)] 1);
    [|split; reflexivity|reflexivity].
  unfold ret. f_equal.
  - f_equal. cbn [seq map]. f_equal.
    rewrite <-(seq_shift n 1), map_map. apply map_ext. intros i.
    do 2 f_equal. lia.
  - cbn. replace (1 + Z.of_nat n) with (Z.of_nat (S n)) by lia. reflexivity.
Qed.

Lemma invoice_id_inj (a b : string) : invoice_id a = invoice_id b -> a = b.
Proof.
  unfold invoice_id, DEFAULTS.invoice_prefix. intros H.
  now injection H.
Qed.

(** C1: [N >= 1] calls of [get_next_invoice_number] in a row, starting
    without a counter file, return the identifiers of 1, 2, ..., N in
    that order and leave [last_number = N] in the file.  The identifiers
    are pairwise different; the number part of each holds digits only,
    reads back as the number, is three characters wide below 1000 (two
    zeros and the digit up to 9) and is the plain decimal text from 1000
    on. *)
Theorem allocate_sequence (w : world) (N : nat) :
  counter_file w = None ->
  (1 <= N)%nat ->
  let number (i : nat) := Num.format_03d (Z.of_nat i) in
  let ids := map (fun i => invoice_id (number i)) (seq 1 N) in
  allocate_n N w
  = (Val ids,
     set_counter_file
       (Some (Json (PDict [("last_number", PInt (Z.of_nat N))])))
       (set_data_dir true w))
  /\ List.NoDup ids
  /\ (forall i j : nat, (i < j < N)%nat ->
        nth i ids "" = invoice_id (number (S i))
        /\ nth i ids "" <> nth j ids "")
  /\ (forall i : nat,
        Num.take_digits (number i) 0 0
        = (Z.of_nat i,
           Nat.max 3 (String.length (Num.str_of_Z (Z.of_nat i))), "")
        /\ ((i <= 9)%nat -> number i = "00" +:+ Num.str_of_Z (Z.of_nat i))
        /\ ((i < 1000)%nat -> String.length (number i) = 3%nat)
        /\ ((1000 <= i)%nat -> number i = Num.str_of_Z (Z.of_nat i))).
Proof.
  intros Habs HN number ids.
  assert (forall a b : nat, invoice_id (number a) = invoice_id (number b) -> a = b)
    as Hinj.
  { intros a b Hab. apply invoice_id_inj, format_03d_inj in Hab; lia. }
  assert (forall i, (i < N)%nat -> nth i ids "" = invoice_id (number (S i)))
    as Hnth.
  { intros i Hi. unfold ids.
    rewrite (nth_indep _ "" (invoice_id (number 0%nat))) by (rewrite length_map, length_seq; lia).
    rewrite (map_nth (fun i => invoice_id (number i))), seq_nth by lia.
    reflexivity. }
  split; [apply allocate_n_absent; assumption|].
  split.
  { unfold ids. apply NoDup_map_NoDup_ForallPairs; [|apply seq_NoDup].
    intros a b _ _. apply Hinj. }
  split.
  { intros i j Hij. split; [apply Hnth; lia|].
    rewrite !Hnth by lia. intros Heq. apply Hinj in Heq. lia. }
  intros i. split; [apply take_digits_format_03d; lia|].
  split; [|split].
  - intros Hi. unfold number.
    assert (i = 0 \/ i = 1 \/ i = 2 \/ i = 3 \/ i = 4 \/ i = 5 \/ i = 6
            \/ i = 7 \/ i = 8 \/ i = 9)%nat as Hc by lia.
    repeat (destruct Hc as [->|Hc]; [reflexivity|]). subst i. reflexivity.
  - intros Hi. unfold number.
    rewrite format_03d_nonneg, zfill_length by lia.
    pose proof (str_of_Z_length_small (Z.of_nat i) ltac:(lia)). lia.
  - intros Hi. unfold number.
    rewrite format_03d_nonneg by lia. apply zfill_wide.
    pose proof (str_of_Z_length_large 3 (Z.of_nat i) ltac:(simpl; lia)). lia.
Qed.

(** [peek_next_invoice_number] has no effect at all, whatever it returns. *)
Lemma peek_frame (w : world) : snd (peek_next_invoice_number w) = w.
Proof.
  unfold peek_next_invoice_number.
  destruct (counter_file w) as [c|]; [|reflexivity].
  unfold bind, lift, ret.
  destruct (json_load c) as [data| |]; try reflexivity.
  destruct (Py.getitem data "last_number") as [l| |]; try reflexivity.
  destruct (Py.add l (PInt 1)) as [x| |]; try reflexivity.
  destruct (Py.format_int x); reflexivity.
Qed.

Lemma peek_n_frame (n : nat) (w : world) :
  peek_n n w = (repeat (fst (peek_next_invoice_number w)) n, w).
Proof.
  induction n as [|n IH]; [reflexivity|].
  cbn [peek_n repeat].
  pose proof (peek_frame w) as Hw.
  destruct (peek_next_invoice_number w) as [r w1]. cbn in Hw. subst w1.
  rewrite IH. reflexivity.
Qed.

Lemma peek_value (w : world) (k : Z) :
  last_number w = Some k ->
  peek_next_invoice_number w = (Val (invoice_id (Num.format_03d (k + 1))), w).
Proof.
  unfold last_number, peek_next_invoice_number.
  destruct (counter_file w) as [[[]| |]|]; try discriminate.
  - unfold bind, lift, ret. cbn.
    destruct (Py.assoc_get "last_number" d) as [[]|]; try discriminate.
    intros [= ->]. reflexivity.
  - intros [= <-]. reflexivity.
Qed.

(** C3: with the counter at [k] ([0] without a file), any number of calls
    of [peek_next_invoice_number] return the identifier of [k + 1] every
    time and leave the world, the counter file included, as it was; a
    following [get_next_invoice_number] behaves as if no peek had been
    made, and returns that same identifier. *)
Theorem peek_is_pure (w : world) (n : nat) (k : Z) :
  last_number w = Some k ->
  peek_n n w = (repeat (Val (invoice_id (Num.format_03d (k + 1)))) n, w)
  /\ counter_file (snd (peek_n n w)) = counter_file w
  /\ get_next_invoice_number (snd (peek_n n w)) = get_next_invoice_number w
  /\ fst (get_next_invoice_number (snd (peek_n n w)))
     = Val (invoice_id (Num.format_03d (k + 1)))
  /\ last_number (snd (get_next_invoice_number (snd (peek_n n w))))
     = Some (k + 1).
Proof.
  intros Hk. rewrite peek_n_frame, (peek_value w k Hk). cbn [fst snd].
  repeat split.
  unfold last_number in Hk.
  - destruct (counter_file w) as [[[]| |]|] eqn:Hfile; try discriminate.
    + destruct (Py.assoc_get "last_number" d) as [[]|] eqn:Hlast;
        try discriminate.
      injection Hk as ->.
      now rewrite (get_next_present w d k (conj Hfile Hlast)).
    + injection Hk as <-. now rewrite (get_next_absent w Hfile).
  - unfold last_number in Hk.
    destruct (counter_file w) as [[[]| |]|] eqn:Hfile; try discriminate.
    + destruct (Py.assoc_get "last_number" d) as [[]|] eqn:Hlast;
        try discriminate.
      injection Hk as ->.
      rewrite (get_next_present w d k (conj Hfile Hlast)).
      unfold last_number. cbn. now rewrite assoc_get_set.
    + injection Hk as <-. now rewrite (get_next_absent w Hfile).
Qed.

(** C4: a counter file that [json.load] cannot decode makes both
    [get_next_invoice_number] and [peek_next_invoice_number] raise the
    decoding error; nothing that would follow the call is run, the
    counter file is left as it was, and a run of the script that has to
    allocate a number ends with that error before any document is
    written. *)
Theorem corrupt_counter_raises (w : world) (c : content) :
  counter_file w = Some c ->
  json_load c = Exn JSONDecodeError ->
  get_next_invoice_number w = (Exn JSONDecodeError, set_data_dir true w)
  /\ peek_next_invoice_number w = (Exn JSONDecodeError, w)
  /\ counter_file (snd (get_next_invoice_number w)) = Some c
  /\ counter_file (snd (peek_next_invoice_number w)) = Some c
  /\ (forall (A : Type) (k : string -> M A),
        bind get_next_invoice_number k w
        = (Exn JSONDecodeError, set_data_dir true w)
        /\ bind peek_next_invoice_number k w = (Exn JSONDecodeError, w))
  /\ (forall (args : Args) (invoice number : pyval),
        args_no_number args = false ->
        Py.given (args_invoice_number args) = false ->
        Py.get invoice "invoice_number" PNone = Val number ->
        Py.truthy number = false ->
        number_and_render args invoice w
        = (Exn JSONDecodeError, set_data_dir true w))
  /\ fst (interactive_input w) = Exn JSONDecodeError
  /\ user_files (snd (interactive_input w)) = user_files w.
Proof.
  intros Hfile Hload.
  assert (get_next_invoice_number w = (Exn JSONDecodeError, set_data_dir true w))
    as Hnext.
  { unfold get_next_invoice_number, bind, ensure_data_dir, lift, ret.
    cbn. rewrite Hfile, Hload. reflexivity. }
  assert (peek_next_invoice_number w = (Exn JSONDecodeError, w)) as Hpeek.
  { unfold peek_next_invoice_number, bind, lift, ret.
    rewrite Hfile, Hload. reflexivity. }
  rewrite Hnext, Hpeek. cbn [fst snd].
  repeat split; try assumption.
  - unfold bind. now rewrite Hnext.
  - unfold bind. now rewrite Hpeek.
  - intros args invoice number Hno Hnum Hget Hfalsy.
    unfold number_and_render, handle_invoice_numbering.
    rewrite Hno, Hnum. unfold bind at 1. unfold bind at 1. unfold lift at 1.
    rewrite Hget, Hfalsy. cbn [negb]. unfold bind at 1.
    now rewrite Hnext.
  - unfold interactive_input, create_empty_invoice, load_clients.
    unfold bind at 1. unfold bind at 1.
    destruct (clients_file w) as [[]|]; try reflexivity;
      unfold bind at 1; now rewrite Hpeek.
  - unfold interactive_input, create_empty_invoice, load_clients.
    unfold bind at 1. unfold bind at 1.
    destruct (clients_file w) as [[]|]; try reflexivity;
      unfold bind at 1; now rewrite Hpeek.
Qed.


(** ** Item strings *)

Lemma parse_item_string_malformed (item_str : string) (ve : value_error) :
  malformed_number item_str = Some ve ->
  parse_item_string item_str = Exn (ValueError ve).
Proof.
  unfold malformed_number, parse_item_string.
  set (p2 := nth 2 (item_fields item_str) "").
  set (p3 := nth 3 (item_fields item_str) "").
  destruct (String.eqb p2 ""), (Num.int_of_string p2),
    (String.eqb p3 ""), (Num.float_of_string (Str.replace "$" "" p3));
    cbn; try discriminate; now intros [= <-].
Qed.

Lemma parse_item_string_wellformed (item_str : string) :
  malformed_number item_str = None ->
  exists quantity rate,
    parse_item_string item_str
    = Val (make_item (nth 0 (item_fields item_str) "")
             (nth 1 (item_fields item_str) "") quantity rate).
Proof.
  unfold malformed_number, parse_item_string.
  set (p2 := nth 2 (item_fields item_str) "").
  set (p3 := nth 3 (item_fields item_str) "").
  destruct (String.eqb p2 ""), (Num.int_of_string p2),
    (String.eqb p3 ""), (Num.float_of_string (Str.replace "$" "" p3));
    cbn; try discriminate; intros _; eexists _, _; reflexivity.
Qed.

(** ** CLI mode *)

Lemma create_empty_invoice_record (w : world) :
  create_empty_invoice w
  = (Val (to_dict
            {| r_invoice_number := PNone; r_title := ""; r_date := today w;
               r_from_name := DEFAULTS.from_name;
               r_from_email := DEFAULTS.from_email;
               r_to_name := ""; r_to_company := ""; r_items := [];
               r_payment_method := DEFAULTS.payment_method;
               r_notes := "" |}), w).
Proof. reflexivity. Qed.

(** The overrides of CLI mode act on the record field by field; they fail
    only where an item string fails to parse. *)
Lemma cli_overrides_record (args : Args) (day : string) :
  cli_overrides args
    (to_dict
       {| r_invoice_number := PNone; r_title := ""; r_date := day;
          r_from_name := DEFAULTS.from_name;
          r_from_email := DEFAULTS.from_email;
          r_to_name := ""; r_to_company := ""; r_items := [];
          r_payment_method := DEFAULTS.payment_method;
          r_notes := "" |})
  = res_bind (cli_items args)
      (fun items => Val (to_dict (cli_record args day items))).
Proof.
  unfold cli_overrides, cli_items, cli_record, override, override2, over.
  destruct (Py.given (args_title args)), (Py.given (args_date args)),
    (Py.given (args_to args)), (Py.given (args_to_company args)),
    (Py.given (args_from_name args)), (Py.given (args_from_email args)),
    (items_given (args_item args));
    cbn;
    try (destruct (res_map parse_item_string _); cbn);
    destruct (Py.given (args_payment args)), (Py.given (args_notes args));
    reflexivity.
Qed.

Lemma res_map_failure {A B} (f : A -> res B) (good : list A) (bad : A)
      (rest : list A) (e : exn) :
  Forall (fun a => exists b, f a = Val b) good ->
  f bad = Exn e ->
  res_map f (good ++ bad :: rest) = Exn e.
Proof.
  intros Hgood Hbad. induction Hgood as [|a good [b Hb] _ IH]; cbn.
  - now rewrite Hbad.
  - now rewrite Hb, IH.
Qed.

(** A plain CLI run gets as far as the collected invoice, or stops at the
    first item string that does not parse. *)
Lemma main_plain_cli (args : Args) (w : world) :
  plain_cli args ->
  Py.given (args_title args) || items_given (args_item args) = true ->
  main args w
  = match cli_items args with
    | Val items =>
        number_and_render args (to_dict (cli_record args (today w) items)) w
    | Exn e => (Exn e, w)
    | Beyond => (Beyond, w)
    end.
Proof.
  intros (Hlist & Hdel & Hsave & Hjson & Hclient) Hmode.
  unfold main. rewrite Hlist, Hdel, Hsave.
  unfold bind at 1. unfold ret at 1. cbn [negb].
  unfold bind at 1. unfold load_invoice.
  rewrite Hjson, Hclient, orb_false_r, Hmode.
  unfold cli_invoice. unfold bind at 1.
  rewrite create_empty_invoice_record. rewrite Hclient.
  unfold bind at 1. unfold ret at 1. unfold bind at 1. unfold lift at 1.
  rewrite cli_overrides_record.
  destruct (cli_items args); reflexivity.
Qed.

(** The claim as first stated fails on the text of the error: Python
    echoes the offending field, here the quantity, and not the item
    string it stands in. *)
Lemma error_echoes_field_only :
  parse_item_string "Consulting,Jan 1-15,abc,150"
  = Exn (ValueError (InvalidIntLiteral "abc"))
  /\ echoed (ValueError (InvalidIntLiteral "abc")) = Some "abc"
  /\ String.eqb "abc" "Consulting,Jan 1-15,abc,150" = false
  /\ parse_item_string "Design,,3,$9x"
     = Exn (ValueError (CouldNotConvertToFloat "9x"))
  /\ Str.contains "Design,,3,$9x" "9x" = false.
Proof. repeat split; vm_compute; reflexivity. Qed.

(** *** No comma survives the split *)

Lemma split_comma_free (s : string) :
  Forall (fun p => comma_free p = true) (Str.split "," s).
Proof.
  induction s as [|c s IH]; cbn [Str.split].
  - repeat constructor.
  - destruct (Ascii.eqb c ",") eqn:Ec.
    + constructor; [reflexivity|exact IH].
    + destruct (Str.split "," s) as [|p ps]; [repeat constructor; cbn; now rewrite Ec|].
      inversion IH as [|? ? Hp Hps]; subst.
      constructor; [|exact Hps].
      unfold comma_free in *. cbn [Str.all_chars]. now rewrite Ec, Hp.
Qed.

Lemma lstrip_by_all (space p : ascii -> bool) (s : string) :
  Str.all_chars p s = true -> Str.all_chars p (Str.lstrip_by space s) = true.
Proof.
  induction s as [|c s IH]; [reflexivity|]. cbn [Str.lstrip_by].
  destruct (space c); [|auto].
  cbn [Str.all_chars]. intros [_ Hs]%andb_prop. auto.
Qed.

Lemma rstrip_by_all (space p : ascii -> bool) (s : string) :
  Str.all_chars p s = true -> Str.all_chars p (Str.rstrip_by space s) = true.
Proof.
  induction s as [|c s IH]; [reflexivity|]. cbn [Str.rstrip_by Str.all_chars].
  intros [Hc Hs]%andb_prop. specialize (IH Hs).
  destruct (Str.rstrip_by space s) as [|c' r].
  - destruct (space c); [reflexivity|]. cbn. now rewrite Hc.
  - cbn [Str.all_chars] in *. now rewrite Hc, IH.
Qed.

Lemma strip_comma_free (s : string) :
  comma_free s = true -> comma_free (Str.strip s) = true.
Proof.
  intros H. unfold comma_free, Str.strip, Str.strip_by.
  now apply rstrip_by_all, lstrip_by_all.
Qed.

(** Every field of an item string is free of commas: a comma written in
    the rate never reaches the text the rate is read from. *)
Lemma item_fields_comma_free (item_str : string) :
  Forall (fun field => comma_free field = true) (item_fields item_str).
Proof.
  unfold item_fields.
  assert (Forall (fun field => comma_free field = true)
            (map Str.strip (Str.split "," item_str))) as Hparts.
  { apply Forall_forall. intros field Hin%list_elem_of_In.
    apply in_map_iff in Hin as (p & <- & Hp).
    apply strip_comma_free.
    pose proof (split_comma_free item_str) as Hall.
    rewrite Forall_forall in Hall. apply Hall. now apply list_elem_of_In. }
  destruct (_ <? _)%nat; [|exact Hparts].
  apply Forall_app. split; [exact Hparts|].
  apply Forall_forall. intros field Hin%list_elem_of_In.
  apply repeat_spec in Hin as ->. reflexivity.
Qed.

(** C5: on a rate written with a thousands separator the comma is taken
    as a field separator: no field of an item string ever holds a comma,
    so the rate is read from the fourth field alone and the fifth is
    dropped.  The interactive prompt, given the same rate text, removes
    the comma and reads 1500. *)
Theorem parse_item_string_thousands_separator :
  (forall item_str : string,
      Forall (fun field => comma_free field = true) (item_fields item_str))
  /\ item_fields "Consulting,Jan 1-15,1,$1,500"
     = ["Consulting"; "Jan 1-15"; "1"; "$1"; "500"]
  /\ parse_item_string "Consulting,Jan 1-15,1,$1,500"
     = Val (make_item "Consulting" "Jan 1-15" (PInt 1) (PFloat 1))
  /\ fst (prompt_items
            (set_stdin ["Consulting"; "Jan 1-15"; "1"; "$1,500"; ""]
               empty_world))
     = Val [make_item "Consulting" "Jan 1-15" (PInt 1) (PFloat 1500)].
Proof.
  split; [exact item_fields_comma_free|].
  repeat split; vm_compute; reflexivity.
Qed.

(** The two examples of the item-string format. *)
Lemma parse_item_string_examples :
  parse_item_string "Consulting,Jan 1-15,10,150"
  = Val (make_item "Consulting" "Jan 1-15" (PInt 10) (PFloat 150))
  /\ parse_item_string "Design,,3,99.5"
     = Val (make_item "Design" "" (PInt 3) (PFloat 99.5))
  /\ Py.mul (PInt 3) (PFloat 99.5) = Val (PFloat 298.5)
  /\ money (PFloat 298.5) = Val "$298.50"
  /\ Py.mul (PInt 10) (PFloat 150) = Val (PFloat 1500)
  /\ money (PFloat 1500) = Val "$1500"
  /\ parse_item_string "Design" = Val (make_item "Design" "" (PInt 1) (PInt 0)).
Proof. repeat split; vm_compute; reflexivity. Qed.

(** ** Invoice numbering *)

Lemma last_number_get_next (w : world) (k : Z) :
  last_number w = Some k ->
  exists w',
    get_next_invoice_number w = (Val (invoice_id (Num.format_03d (k + 1))), w')
    /\ last_number w' = Some (k + 1)
    /\ user_files w' = user_files w /\ stdin w' = stdin w
    /\ logo_file w' = logo_file w /\ clients_file w' = clients_file w
    /\ today w' = today w
    /\ paragraph_error w' = paragraph_error w
    /\ layout_error w' = layout_error w.
Proof.
  unfold last_number. intros Hk.
  destruct (counter_file w) as [[[]| |]|] eqn:Hfile; try discriminate.
  - destruct (Py.assoc_get "last_number" d) as [[]|] eqn:Hlast;
      try discriminate.
    injection Hk as ->.
    rewrite (get_next_present w d k (conj Hfile Hlast)).
    eexists. split; [reflexivity|]. cbn. rewrite assoc_get_set. auto 12.
  - injection Hk as <-. rewrite (get_next_absent w Hfile).
    eexists. split; [reflexivity|]. cbn. auto 12.
Qed.

(** C2 (as amended): the numbering step comes after the invoice has been
    collected and takes the first of four cases that applies.  With
    [--no-number] the field is set to [None], also when a number was
    given.  Otherwise a non-empty [--invoice-number] is stored as it is.
    Otherwise a non-empty number the invoice already carries (from a JSON
    file) is kept.  Otherwise [get_next_invoice_number] is called once
    and its result is stored: the counter goes up by one.  In the first
    three cases the world is left as it was. *)
Theorem invoice_number_policy (args : Args) (d : list (string * pyval))
        (w : world) :
  let invoice := PDict d in
  let carried :=
    match Py.assoc_get "invoice_number" d with Some v => v | None => PNone end in
  let store (v : pyval) := PDict (Py.assoc_set "invoice_number" v d) in
  (args_no_number args = true ->
   handle_invoice_numbering args invoice w = (Val (store PNone), w))
  /\ (args_no_number args = false ->
      Py.given (args_invoice_number args) = true ->
      handle_invoice_numbering args invoice w
      = (Val (store (PStr (arg (args_invoice_number args)))), w))
  /\ (args_no_number args = false ->
      Py.given (args_invoice_number args) = false ->
      Py.truthy carried = true ->
      handle_invoice_numbering args invoice w = (Val invoice, w))
  /\ (args_no_number args = false ->
      Py.given (args_invoice_number args) = false ->
      Py.truthy carried = false ->
      (forall id w',
          get_next_invoice_number w = (Val id, w') ->
          handle_invoice_numbering args invoice w = (Val (store (PStr id)), w'))
      /\ (forall k,
             last_number w = Some k ->
             exists w',
               handle_invoice_numbering args invoice w
               = (Val (store (PStr (invoice_id (Num.format_03d (k + 1))))), w')
               /\ last_number w' = Some (k + 1)))
  /\ number_and_render args invoice w
     = bind (handle_invoice_numbering args invoice)
         (fun invoice =>
            bind (lift (output_filename args invoice))
              (fun output_path =>
                 bind (generate_pdf invoice output_path)
                   (fun _ =>
                      if Py.given (args_save_json args)
                      then write_json (arg (args_save_json args)) invoice
                      else ret tt))) w.
Proof.
  intros invoice carried store. unfold handle_invoice_numbering.
  repeat split.
  - now intros ->.
  - now intros -> ->.
  - intros -> -> Htruthy. unfold bind, lift. cbn. fold carried.
    now rewrite Htruthy.
  - intros id w' Hnext. rewrite H, H0. unfold bind at 1. unfold lift at 1.
    cbn [Py.get invoice]. fold carried. rewrite H1. cbn [negb].
    unfold bind. now rewrite Hnext.
  - intros k Hk. rewrite H, H0. unfold bind at 1. unfold lift at 1.
    cbn [Py.get invoice]. fold carried. rewrite H1. cbn [negb].
    destruct (last_number_get_next w k Hk) as (w' & Hnext & Hlast & _).
    exists w'. unfold bind. now rewrite Hnext.
Qed.

(** The claim as first stated fails on an invoice that carries a number:
    with neither flag given the number is kept and the counter is not
    touched; and with both flags given the explicit number is not used. *)
Lemma carried_number_is_kept :
  handle_invoice_numbering (json_args "in.json" None false) numbered_invoice
    empty_world
  = (Val numbered_invoice, empty_world)
  /\ fst (get_next_invoice_number empty_world) = Val "INV-001"
  /\ counter_file
       (snd (main (json_args "in.json" None false)
               (set_user_files {["in.json" := Json numbered_invoice]}
                  empty_world)))
     = None
  /\ (exists elements,
         user_files
           (snd (main (json_args "in.json" None false)
                   (set_user_files {["in.json" := Json numbered_invoice]}
                      empty_world)))
           !! "A-7-Invoice-for-Consulting.pdf"
         = Some (Rendered (Paragraph "<b>Invoice #:</b> A-7" normal_style
                             :: elements)))
  /\ (let* invoice := fst (handle_invoice_numbering
                             (json_args "in.json" (Some "X-9") true)
                             numbered_invoice empty_world) in
      Py.getitem invoice "invoice_number")%res
     = Val PNone.
Proof.
  repeat split; try (vm_compute; reflexivity).
  eexists. vm_compute. reflexivity.
Qed.

(** ** The items table *)

Ltac step_res H :=
  repeat match type of H with
         | res_bind ?m _ = Val _ =>
             let E := fresh "E" in
             destruct m eqn:E; cbn [res_bind] in H; [|discriminate..]
         end.

(** What the loop over the items leaves in [table_data] and
    [grand_total]. *)
Lemma items_loop_rows (items : list pyval) :
  forall (acc : list (list pyval)) (g : pyval) (data : list (list pyval))
         (g' : pyval),
    items_loop items acc g = Val (data, g') ->
    exists rows totals,
      res_map item_row items = Val rows
      /\ res_map line_total items = Val totals
      /\ sum_from g totals = Val g'
      /\ data = acc ++ rows.
Proof.
  induction items as [|item items IH]; intros acc g data g' H.
  - cbn in H. injection H as <- <-. exists [], []. cbn.
    now rewrite app_nil_r.
  - cbn [items_loop] in H. step_res H.
    apply IH in H as (rows & totals & Hrows & Htotals & Hsum & ->).
    eexists (_ :: rows), (_ :: totals).
    cbn [res_map]. unfold item_row at 1, line_total at 1 2.
    rewrite E, E0. cbn [res_bind]. rewrite E1, E3, E4. cbn [res_bind].
    rewrite E5, E6, E7. cbn [res_bind]. rewrite Hrows, Htotals.
    cbn [res_bind sum_from]. rewrite E2. cbn [res_bind].
    repeat split; [assumption|]. now rewrite <-app_assoc.
Qed.

(** *** The money format *)












(** *** Rows and totals *)

Lemma res_map_lookup {A B} (f : A -> res B) (l : list A) (l' : list B) :
  res_map f l = Val l' ->
  length l' = length l
  /\ forall (i : nat) (a : A),
      l !! i = Some a -> exists b, l' !! i = Some b /\ f a = Val b.
Proof.
  revert l'. induction l as [|a l IH]; intros l' H.
  - cbn in H. injection H as <-. split; [reflexivity|]. intros i a [=].
  - cbn [res_map] in H. step_res H. injection H as <-.
    destruct (IH _ eq_refl) as [Hlen Hnth].
    split; [cbn; now rewrite Hlen|].
    intros [|i] x Hx; cbn in *; [injection Hx as <-; eauto|eauto].
Qed.

Lemma item_row_cells (item : pyval) (row : list pyval) :
  item_row item = Val row ->
  exists service date quantity quantity_text rate rate_text total total_text,
    row = [service; date; PStr quantity_text; PStr rate_text; PStr total_text]
    /\ Py.getitem item "service" = Val service
    /\ Py.get item "date" (PStr "") = Val date
    /\ Py.getitem item "quantity" = Val quantity
    /\ Py.str quantity = Val quantity_text
    /\ Py.getitem item "rate" = Val rate
    /\ money rate = Val rate_text
    /\ line_total item = Val total
    /\ money total = Val total_text.
Proof.
  intros H. unfold item_row in H. step_res H. injection H as <-.
  do 8 eexists. repeat split; eassumption.
Qed.

Lemma items_table_parts (invoice : pyval) (data : list (list pyval))
      (widths : list float) :
  items_table invoice = Val (Table data widths) ->
  exists items rows totals grand grand_text,
    (let* v := Py.getitem invoice "items" in iterate v)%res = Val items
    /\ res_map item_row items = Val rows
    /\ res_map line_total items = Val totals
    /\ sum_from (PInt 0) totals = Val grand
    /\ money grand = Val grand_text
    /\ data = table_header :: rows
              ++ [[PStr "Total"; PStr ""; PStr ""; PStr ""; PStr grand_text]].
Proof.
  intros H. unfold items_table in H. step_res H.
  destruct a1 as [table_data grand]. step_res H. injection H as <- <-.
  apply items_loop_rows in E1 as (rows & totals & Hrows & Htotals & Hsum & ->).
  exists a0, rows, totals, grand, a1. cbn [res_bind].
  repeat split; assumption.
Qed.







(** ** Rendering in CLI mode *)



Lemma first_error_none (markup : string -> option exn) (texts : list string) :
  Forall (fun text => markup text = None) texts ->
  first_error markup texts = None.
Proof.
  induction 1 as [|text texts Htext _ IH]; [reflexivity|].
  cbn [first_error]. now rewrite Htext.
Qed.

Lemma first_error_accepts (markup : string -> option exn)
      (texts : list string) :
  first_error markup texts = None ->
  Forall (fun text => markup text = None) texts.
Proof.
  induction texts as [|text texts IH]; [constructor|].
  cbn [first_error]. destruct (markup text) eqn:Htext; [discriminate|].
  intros H. constructor; auto.
Qed.

(** The elements of an invoice record: the first text that the markup
    parser refuses decides the exception, and when none is refused the
    elements are those of [record_elements]. *)
Lemma invoice_elements_record (markup : string -> option exn) (logo : bool)
      (r : invoice_record) (table : flowable) :
  cli_number (r_invoice_number r) ->
  items_table (to_dict r) = Val table ->
  invoice_elements markup logo (to_dict r)
  = match first_error markup (record_texts r) with
    | Some e => Exn e
    | None => Val (record_elements logo r table)
    end.
Proof.
  intros Hnum Htable. unfold invoice_elements. rewrite Htable.
  change (Py.get (to_dict r) "invoice_number" PNone)
    with (Val (r_invoice_number r)).
  change (Py.getitem (to_dict r) "invoice_number")
    with (Val (r_invoice_number r)).
  unfold record_texts, record_elements, unless_empty, paragraph.
  cbn -[String.append inch PrimFloat.mul].
  destruct Hnum as [->|[s ->]];
    cbn [Py.truthy number_text String.eqb Py.str res_bind negb];
    [|destruct (String.eqb s ""); cbn [negb res_bind app first_error];
      [|destruct (markup ("<b>Invoice #:</b> " +:+ s)); [reflexivity|]]];
    cbn [res_bind app first_error];
    (destruct (markup (r_title r)); [reflexivity|]);
    (destruct (markup ("<b>Date:</b> " +:+ r_date r)); [reflexivity|]);
    (destruct (markup "<b>From:</b>"); [reflexivity|]);
    (destruct (markup (r_from_name r)); [reflexivity|]);
    (destruct (markup (r_from_email r)); [reflexivity|]);
    (destruct (markup "<b>To:</b>"); [reflexivity|]);
    (destruct (markup (r_to_name r)); [reflexivity|]);
    cbn [res_bind app first_error];
    (destruct (String.eqb (r_to_company r) "");
     cbn [negb res_bind app first_error];
     [|destruct (markup (r_to_company r)); [reflexivity|]]);
    cbn [res_bind app first_error];
    (destruct (markup ("<b>Payment Method:</b> " +:+ r_payment_method r));
     [reflexivity|]);
    cbn [res_bind app first_error];
    (destruct (String.eqb (r_notes r) "");
     cbn [negb res_bind app first_error];
     [|destruct (markup ("<b>Notes:</b> " +:+ r_notes r)); [reflexivity|]]);
    destruct logo; reflexivity.
Qed.



(** ** The interactive item prompt *)

Lemma bind_val_inv {A B} (m : M A) (k : A -> M B) (w w' : world) (b : B) :
  bind m k w = (Val b, w') ->
  exists a w1, m w = (Val a, w1) /\ k a w1 = (Val b, w').
Proof.
  unfold bind. destruct (m w) as [[a| |] w1]; try discriminate. eauto.
Qed.










(** ** What touches the counter file *)

Create HintDb blind.

Lemma blind_ret {A} (a : A) : counter_blind (ret a).
Proof. intros c w. reflexivity. Qed.

Lemma blind_raise {A} (e : exn) : counter_blind (@raise A e).
Proof. intros c w. reflexivity. Qed.

Lemma blind_lift {A} (r : res A) : counter_blind (lift r).
Proof. intros c w. reflexivity. Qed.

Lemma blind_bind {A B} (m : M A) (k : A -> M B) :
  counter_blind m -> (forall a, counter_blind (k a)) ->
  counter_blind (bind m k).
Proof.
  intros Hm Hk c w. unfold bind. rewrite Hm.
  destruct (m w) as [[a| |] w1]; cbn [fst snd]; [apply Hk|reflexivity..].
Qed.

Lemma blind_ensure_data_dir : counter_blind ensure_data_dir.
Proof. intros c w. reflexivity. Qed.

Lemma blind_load_clients : counter_blind load_clients.
Proof.
  intros c w. unfold load_clients. cbn.
  destruct (clients_file w); reflexivity.
Qed.

Lemma blind_create_empty_invoice : counter_blind create_empty_invoice.
Proof. intros c w. reflexivity. Qed.

Lemma blind_input : counter_blind input.
Proof. intros c w. unfold input. cbn. destruct (stdin w); reflexivity. Qed.

Lemma blind_read_json (path : string) : counter_blind (read_json path).
Proof.
  intros c w. unfold read_json. cbn.
  destruct (user_files w !! path); reflexivity.
Qed.

Lemma blind_write_json (path : string) (v : pyval) :
  counter_blind (write_json path v).
Proof. intros c w. reflexivity. Qed.

Lemma blind_doc_build (path : string) (elements : list flowable) :
  counter_blind (doc_build path elements).
Proof.
  intros c w. unfold doc_build. cbn [layout_error set_counter_file].
  destruct (layout_error w elements); reflexivity.
Qed.

#[local] Hint Resolve blind_ret blind_raise blind_lift blind_ensure_data_dir
  blind_load_clients blind_create_empty_invoice blind_input blind_read_json
  blind_write_json blind_doc_build : blind.

(** Blindness of a statement built from binds, branches and blind parts. *)
Ltac blind :=
  repeat first
    [ progress eauto with blind
    | apply blind_bind; [|intros ?]
    | match goal with
      | |- counter_blind (if ?b then _ else _) => destruct b
      | |- counter_blind (match ?x with _ => _ end) => destruct x
      | |- counter_blind (let '(_, _) := ?x in _) => destruct x
      end ].

Lemma blind_save_clients (clients : pyval) : counter_blind (save_clients clients).
Proof. unfold save_clients. blind. intros c w. reflexivity. Qed.

Lemma blind_prompt (default : option string) : counter_blind (prompt default).
Proof. unfold prompt. blind. Qed.

#[local] Hint Resolve blind_save_clients blind_prompt : blind.

Lemma blind_prompt_client_selection (clients : pyval) :
  counter_blind (prompt_client_selection clients).
Proof. unfold prompt_client_selection. blind. Qed.

Lemma blind_prompt_items_loop (fuel : nat) :
  forall acc, counter_blind (prompt_items_loop fuel acc).
Proof.
  induction fuel as [|fuel IH]; intros acc; cbn [prompt_items_loop]; blind.
Qed.

Lemma blind_prompt_items : counter_blind prompt_items.
Proof. intros c w. unfold prompt_items. apply blind_prompt_items_loop. Qed.

Lemma blind_generate_pdf (invoice : pyval) (path : string) :
  counter_blind (generate_pdf invoice path).
Proof. unfold generate_pdf. blind. intros c w. reflexivity. Qed.

Lemma blind_list_clients : counter_blind list_clients.
Proof. unfold list_clients. blind. Qed.

Lemma blind_delete_client (key : string) : counter_blind (delete_client key).
Proof. unfold delete_client. blind. Qed.

Lemma blind_save_client (args : Args) (key : string) :
  counter_blind (save_client args key).
Proof. unfold save_client. blind. Qed.

Lemma blind_cli_invoice (args : Args) : counter_blind (cli_invoice args).
Proof. unfold cli_invoice. blind. Qed.

#[local] Hint Resolve blind_prompt_client_selection blind_prompt_items
  blind_generate_pdf blind_list_clients blind_delete_client blind_save_client
  blind_cli_invoice : blind.


Lemma blind_keeps {A} (m : M A) : counter_blind m -> keeps_counter m.
Proof.
  intros Hm w. specialize (Hm (counter_file w) w).
  replace (set_counter_file (counter_file w) w) with w in Hm
    by (destruct w; reflexivity).
  rewrite Hm at 1. reflexivity.
Qed.









(** ** Files written by a run *)

Lemma files_bind {A B} (m : M A) (k : A -> M B) :
  keeps_files m -> (forall a, keeps_files (k a)) -> keeps_files (bind m k).
Proof.
  intros Hm Hk w. unfold bind. specialize (Hm w).
  destruct (m w) as [[a| |] w1]; cbn [snd] in *; [|assumption..].
  now rewrite Hk.
Qed.

Lemma files_ret {A} (a : A) : keeps_files (ret a).
Proof. intros w. reflexivity. Qed.
Lemma files_raise {A} (e : exn) : keeps_files (@raise A e).
Proof. intros w. reflexivity. Qed.
Lemma files_lift {A} (r : res A) : keeps_files (lift r).
Proof. intros w. reflexivity. Qed.
Lemma files_ensure_data_dir : keeps_files ensure_data_dir.
Proof. intros w. reflexivity. Qed.
Lemma files_load_clients : keeps_files load_clients.
Proof. intros w. unfold load_clients. now destruct (clients_file w). Qed.
Lemma files_create_empty_invoice : keeps_files create_empty_invoice.
Proof. intros w. reflexivity. Qed.
Lemma files_input : keeps_files input.
Proof. intros w. unfold input. now destruct (stdin w). Qed.
Lemma files_read_json (path : string) : keeps_files (read_json path).
Proof. intros w. unfold read_json. now destruct (user_files w !! path). Qed.
Lemma files_peek : keeps_files peek_next_invoice_number.
Proof. intros w. now rewrite peek_frame. Qed.

Create HintDb files.
#[local] Hint Resolve files_ret files_raise files_lift files_ensure_data_dir
  files_load_clients files_create_empty_invoice files_input files_read_json
  files_peek : files.

Ltac files :=
  repeat first
    [ progress eauto with files
    | apply files_bind; [|intros ?]
    | match goal with
      | |- keeps_files (fun w => (Val tt, set_clients_file _ w)) =>
          intros ?; reflexivity
      | |- keeps_files (fun w => (Val tt, set_counter_file _ w)) =>
          intros ?; reflexivity
      | |- keeps_files (if ?b then _ else _) => destruct b
      | |- keeps_files (match ?x with _ => _ end) => destruct x
      | |- keeps_files (let '(_, _) := ?x in _) => destruct x
      end ].

Lemma files_save_clients (clients : pyval) : keeps_files (save_clients clients).
Proof. unfold save_clients. files. Qed.

Lemma files_get_next : keeps_files get_next_invoice_number.
Proof.
  unfold get_next_invoice_number.
  apply files_bind; [files|intros _].
  apply files_bind; [intros w; now destruct (counter_file w)|intros data].
  files.
Qed.

Lemma files_prompt (default : option string) : keeps_files (prompt default).
Proof. unfold prompt. files. Qed.
#[local] Hint Resolve files_save_clients files_get_next files_prompt : files.

Lemma files_prompt_client_selection (clients : pyval) :
  keeps_files (prompt_client_selection clients).
Proof. unfold prompt_client_selection. files. Qed.

Lemma files_prompt_items_loop (fuel : nat) :
  forall acc, keeps_files (prompt_items_loop fuel acc).
Proof.
  induction fuel as [|fuel IH]; intros acc; cbn [prompt_items_loop]; files.
Qed.

Lemma files_prompt_items : keeps_files prompt_items.
Proof. intros w. unfold prompt_items. apply files_prompt_items_loop. Qed.
#[local] Hint Resolve files_prompt_client_selection files_prompt_items_loop
  files_prompt_items : files.

Lemma files_interactive_input : keeps_files interactive_input.
Proof. unfold interactive_input. files. Qed.

Lemma files_cli_invoice (args : Args) : keeps_files (cli_invoice args).
Proof. unfold cli_invoice. files. Qed.
#[local] Hint Resolve files_interactive_input files_cli_invoice : files.

Lemma files_load_invoice (args : Args) : keeps_files (load_invoice args).
Proof. unfold load_invoice. files. Qed.

Lemma files_handle_invoice_numbering (args : Args) (invoice : pyval) :
  keeps_files (handle_invoice_numbering args invoice).
Proof. unfold handle_invoice_numbering. files. Qed.

Lemma files_list_clients : keeps_files list_clients.
Proof. unfold list_clients. files. Qed.
Lemma files_delete_client (key : string) : keeps_files (delete_client key).
Proof. unfold delete_client. files. Qed.
Lemma files_save_client (args : Args) (key : string) :
  keeps_files (save_client args key).
Proof. unfold save_client. files. Qed.
#[local] Hint Resolve files_load_invoice files_handle_invoice_numbering
  files_list_clients files_delete_client files_save_client : files.

(** ** A malformed item string in a run *)

Lemma load_clients_stored (w : world) (d : list (string * pyval)) :
  stored_clients w = Some d -> load_clients w = (Val (PDict d), w).
Proof.
  unfold stored_clients, load_clients.
  destruct (clients_file w) as [[[]| |]|]; try discriminate;
    now intros [= <-].
Qed.

Lemma cli_overrides_malformed (args : Args) (invoice : pyval)
      (items : list string) (e : exn) :
  args_item args = Some items ->
  items_given (args_item args) = true ->
  res_map parse_item_string items = Exn e ->
  forall overridden : pyval, cli_overrides args invoice <> Val overridden.
Proof.
  intros Hitems Hgiven Hparse overridden H. unfold cli_overrides in H.
  rewrite Hgiven, Hitems, Hparse in H.
  repeat match type of H with
         | res_bind ?m _ = Val _ =>
             destruct m; cbn [res_bind] in H; try discriminate
         end.
Qed.

Lemma cli_invoice_malformed (args : Args) (items : list string) (e : exn)
      (w : world) :
  args_item args = Some items ->
  items_given (args_item args) = true ->
  res_map parse_item_string items = Exn e ->
  forall (invoice : pyval) (w' : world),
    cli_invoice args w <> (Val (Some invoice), w').
Proof.
  intros Hitems Hgiven Hparse invoice w' H. unfold cli_invoice in H.
  apply bind_val_inv in H as (empty & w1 & _ & H).
  apply bind_val_inv in H as ([loaded|] & w2 & _ & H); [|discriminate].
  apply bind_val_inv in H as (overridden & w3 & Hover & _).
  unfold lift in Hover. injection Hover as Hover _.
  exact (cli_overrides_malformed args loaded items e Hitems Hgiven Hparse
           overridden Hover).
Qed.

(** C6 (as amended): an item string with malformed numeric text makes
    [parse_item_string] raise a [ValueError] that echoes the text of the
    offending field (the stripped quantity field, or the rate field with
    its dollar signs removed), not the item string.  In a run without
    [--from-json] whose item strings parse up to such an item, no file
    named on the command line is written (no document, partial or whole)
    and the counter file is left as it was (no number is allocated),
    whatever else is on the command line.  A plain CLI run (no client
    command, no [--client]) ends with that error and leaves everything
    as it was; a run that also saves a client ([--save-client] with
    [--to], on a readable store) ends with that error after the client
    store has been rewritten. *)
Theorem malformed_item_aborts (args : Args) (w : world)
        (good : list string) (bad : string) (rest : list string)
        (ve : value_error) :
  args_item args = Some (good ++ bad :: rest) ->
  Forall (fun s => malformed_number s = None) good ->
  malformed_number bad = Some ve ->
  parse_item_string bad = Exn (ValueError ve)
  /\ (ve = InvalidIntLiteral (nth 2 (item_fields bad) "")
      \/ ve = CouldNotConvertToFloat
                (Str.replace "$" "" (nth 3 (item_fields bad) "")))
  /\ (plain_cli args -> main args w = (Exn (ValueError ve), w))
  /\ (Py.given (args_from_json args) = false ->
      user_files (snd (main args w)) = user_files w
      /\ counter_file (snd (main args w)) = counter_file w)
  /\ (forall d : list (string * pyval),
         args_list_clients args = false ->
         Py.given (args_delete_client args) = false ->
         Py.given (args_from_json args) = false ->
         Py.given (args_client args) = false ->
         Py.given (args_save_client args) = true ->
         Py.given (args_to args) = true ->
         stored_clients w = Some d ->
         main args w
         = (Exn (ValueError ve),
            set_clients_file
              (Some (Json (PDict (Py.assoc_set (arg (args_save_client args))
                                    (client_profile args) d))))
              (set_data_dir true w))).
Proof.
  intros Hitems Hgood Hbad.
  pose proof (parse_item_string_malformed bad ve Hbad) as Hparse.
  assert (items_given (args_item args) = true) as Hgiven.
  { rewrite Hitems. destruct good; reflexivity. }
  assert (res_map parse_item_string (good ++ bad :: rest)
          = Exn (ValueError ve)) as Hmap.
  { apply res_map_failure; [|assumption].
    eapply Forall_impl; [exact Hgood|].
    intros s Hs. destruct (parse_item_string_wellformed s Hs) as (q & r & ->).
    eauto. }
  assert (cli_items args = Exn (ValueError ve)) as Hcli.
  { unfold cli_items. now rewrite Hgiven, Hitems. }
  split; [assumption|]. split; [|split; [|split]].
  - unfold malformed_number in Hbad.
    repeat match type of Hbad with
           | (if ?c then _ else _) = _ => destruct c
           end; [left|right|discriminate]; congruence.
  - intros Hplain.
    rewrite main_plain_cli by (try assumption; rewrite Hgiven; apply orb_true_r).
    now rewrite Hcli.
  - intros Hjson. unfold main.
    destruct (args_list_clients args).
    { split; [apply files_list_clients|].
      apply (blind_keeps _ blind_list_clients). }
    destruct (Py.given (args_delete_client args)).
    { split; [apply files_delete_client|].
      apply (blind_keeps _ (blind_delete_client _)). }
    set (save := if Py.given (args_save_client args)
                 then save_client args (arg (args_save_client args))
                 else ret true).
    assert (keeps_files save) as Hfiles by (subst save; files).
    assert (keeps_counter save) as Hcounter
      by (subst save; apply blind_keeps; blind).
    specialize (Hfiles w). specialize (Hcounter w). unfold bind.
    destruct (save w) as [[go_on| |] w1]; cbn [snd] in Hfiles, Hcounter;
      [|split; assumption..].
    destruct (negb go_on); [split; assumption|].
    unfold load_invoice. rewrite Hjson, Hgiven, orb_true_r. cbn [orb].
    pose proof (files_cli_invoice args w1) as Hfiles2.
    pose proof (blind_keeps _ (blind_cli_invoice args) w1) as Hcounter2.
    pose proof (cli_invoice_malformed args _ _ w1 Hitems Hgiven Hmap) as Hnot.
    destruct (cli_invoice args w1) as [[[invoice|]| |] w2];
      cbn [snd] in Hfiles2, Hcounter2;
      [exfalso; now apply (Hnot invoice w2)|split; cbn; congruence..].
  - intros d Hlist Hdel Hjson Hclient Hsave Hto Hstore.
    set (w1 := set_clients_file
                 (Some (Json (PDict (Py.assoc_set (arg (args_save_client args))
                                       (client_profile args) d))))
                 (set_data_dir true w)).
    assert (save_client args (arg (args_save_client args)) w = (Val true, w1))
      as Hsaved.
    { unfold save_client. rewrite Hto. cbn [negb].
      unfold bind at 1. rewrite (load_clients_stored w d Hstore).
      unfold bind at 1. unfold lift at 1. cbn [Py.setitem].
      rewrite Hgiven. reflexivity. }
    assert (cli_invoice args w1 = (Exn (ValueError ve), w1)) as Hfails.
    { unfold cli_invoice. unfold bind at 1.
      rewrite create_empty_invoice_record. rewrite Hclient.
      unfold bind at 1. unfold ret at 1. unfold bind at 1. unfold lift at 1.
      rewrite cli_overrides_record, Hcli. reflexivity. }
    unfold main. rewrite Hlist, Hdel, Hsave.
    unfold bind at 1. rewrite Hsaved. cbn [negb].
    unfold bind at 1. unfold load_invoice.
    rewrite Hjson, Hgiven, orb_true_r. cbn [orb].
    now rewrite Hfails.
Qed.

(** ** The properties at work on concrete runs *)

Lemma allocate_sequence_witness :
  counter_file empty_world = None
  /\ allocate_n 3 empty_world
     = (Val ["INV-001"; "INV-002"; "INV-003"],
        set_counter_file (Some (Json (PDict [("last_number", PInt 3)])))
          (set_data_dir true empty_world)).
Proof.
  split; [reflexivity|].
  exact (proj1 (allocate_sequence empty_world 3 eq_refl ltac:(lia))).
Defined.

Lemma peek_is_pure_witness :
  last_number empty_world = Some 0
  /\ peek_n 2 empty_world = ([Val "INV-001"; Val "INV-001"], empty_world)
  /\ fst (get_next_invoice_number (snd (peek_n 2 empty_world)))
     = Val "INV-001".
Proof.
  split; [reflexivity|].
  pose proof (peek_is_pure empty_world 2 0 eq_refl) as (H1 & _ & _ & H4 & _).
  split; [exact H1|exact H4].
Defined.

Lemma corrupt_counter_raises_witness :
  json_load (Unparseable "{") = Exn JSONDecodeError
  /\ get_next_invoice_number
       (set_counter_file (Some (Unparseable "{")) empty_world)
     = (Exn JSONDecodeError,
        set_data_dir true
          (set_counter_file (Some (Unparseable "{")) empty_world)).
Proof.
  split; [reflexivity|].
  exact (proj1 (corrupt_counter_raises
                  (set_counter_file (Some (Unparseable "{")) empty_world)
                  (Unparseable "{") eq_refl eq_refl)).
Defined.

Lemma malformed_item_aborts_witness :
  malformed_number "Design,,x,99.5" = Some (InvalidIntLiteral "x")
  /\ main (cli_args (Some "Invoice")
             (Some ["Consulting,Jan 1-15,10,150"; "Design,,x,99.5"])
             None false)
       empty_world
     = (Exn (ValueError (InvalidIntLiteral "x")), empty_world).
Proof.
  split; [vm_compute; reflexivity|].
  refine (proj1 (proj2 (proj2 (malformed_item_aborts
            (cli_args (Some "Invoice")
               (Some ["Consulting,Jan 1-15,10,150"; "Design,,x,99.5"])
               None false)
            empty_world ["Consulting,Jan 1-15,10,150"] "Design,,x,99.5" []
            (InvalidIntLiteral "x") eq_refl _ _))) _).
  - constructor; [vm_compute; reflexivity|constructor].
  - vm_compute; reflexivity.
  - repeat split.
Defined.

Lemma invoice_number_policy_witness :
  exists w',
    handle_invoice_numbering (cli_args (Some "Invoice") None None false)
      (PDict [("title", PStr "Invoice")]) empty_world
    = (Val (PDict [("title", PStr "Invoice");
                   ("invoice_number", PStr "INV-001")]), w')
    /\ last_number w' = Some 1.
Proof.
  destruct (invoice_number_policy (cli_args (Some "Invoice") None None false)
              [("title", PStr "Invoice")] empty_world)
    as (_ & _ & _ & H & _).
  destruct (H eq_refl eq_refl eq_refl) as [_ Hk].
  exact (Hk 0 eq_refl).
Defined.





(** * Further properties of the script *)

(** ** The sequence counter *)

(** X1: whatever the counter file holds, [peek_next_invoice_number] gives
    what [get_next_invoice_number] would give: the same identifier, or
    the same exception. *)
Theorem peek_predicts_allocate (w : world) :
  fst (get_next_invoice_number w) = fst (peek_next_invoice_number w).
Proof.
  unfold get_next_invoice_number, peek_next_invoice_number, bind, lift, ret,
    ensure_data_dir.
  cbn. destruct (counter_file w) as [c|]; [|vm_compute; reflexivity].
  destruct (json_load c) as [data| |]; try reflexivity.
  destruct (Py.getitem data "last_number") as [last| |] eqn:Hlast;
    try reflexivity.
  cbn. destruct (Py.add last (PInt 1)) as [next| |]; try reflexivity.
  destruct data; try discriminate. cbn.
  rewrite assoc_get_set. cbn.
  destruct (Py.format_int next); reflexivity.
Qed.

Lemma assoc_set_keys (k : string) (x y : pyval) (d : list (string * pyval)) :
  Py.assoc_get k d = Some y -> map fst (Py.assoc_set k x d) = map fst d.
Proof.
  induction d as [|[k' v] d IH]; cbn; [discriminate|].
  destruct (String.eqb k' k); cbn; [reflexivity|].
  intros H. now rewrite IH.
Qed.

(** X2: numbering resumes from the persisted counter.  With the counter
    file holding [last_number = k], [n] calls in a row return the
    identifiers of [k + 1], ..., [k + n] in that order and leave
    [last_number = k + n] in the file; every other key of the file keeps
    its value and its place; and from a counter that is not negative the
    identifiers are pairwise different. *)
Theorem numbering_resumes (w : world) (d : list (string * pyval)) (k : Z)
        (n : nat) :
  counter_at w d k ->
  (1 <= n)%nat ->
  let ids :=
    map (fun i => invoice_id (Num.format_03d (k + Z.of_nat i))) (seq 1 n) in
  let d' := Py.assoc_set "last_number" (PInt (k + Z.of_nat n)) d in
  allocate_n n w
  = (Val ids,
     set_counter_file (Some (Json (PDict d'))) (set_data_dir true w))
  /\ (forall key : string,
         key <> "last_number" -> Py.assoc_get key d' = Py.assoc_get key d)
  /\ map fst d' = map fst d
  /\ (0 <= k -> List.NoDup ids).
Proof.
  intros Hat Hn ids d'. destruct Hat as [Hfile Hlast].
  split; [|split; [|split]].
  - destruct n as [|m]; [lia|].
    subst ids d'. cbn [allocate_n]. unfold bind at 1.
    rewrite (get_next_present w d k) by (split; assumption).
    unfold bind at 1.
    rewrite (allocate_n_present m _
               (Py.assoc_set "last_number" (PInt (k + 1)) d) (k + 1)).
    + unfold ret. rewrite assoc_set_set. cbn [seq map].
      rewrite <-(seq_shift m 1), map_map.
      replace (k + 1 + Z.of_nat m) with (k + Z.of_nat (S m)) by lia.
      rewrite (map_ext (fun i => invoice_id (Num.format_03d (k + 1 + Z.of_nat i)))
                 (fun i => invoice_id (Num.format_03d (k + Z.of_nat (S i))))).
      * reflexivity.
      * intros i. do 2 f_equal. lia.
    + split; [reflexivity|apply assoc_get_set].
    + reflexivity.
  - intros key Hkey. subst d'. apply assoc_get_set_ne. congruence.
  - subst d'. eapply assoc_set_keys; eassumption.
  - intros Hk. subst ids.
    apply NoDup_map_NoDup_ForallPairs; [|apply seq_NoDup].
    intros a b _ _ Hab. apply invoice_id_inj, format_03d_inj in Hab; lia.
Qed.

(** X3: a counter file that is valid JSON but not an object with a number
    under ["last_number"] makes both functions fail, with [KeyError] when
    the key is missing and [TypeError] otherwise; the allocation creates
    the data directory and leaves the file as it was. *)
Theorem counter_shape_errors (w : world) (v : pyval) (e : exn) :
  counter_file w = Some (Json v) ->
  shape_error v = Some e ->
  get_next_invoice_number w = (Exn e, set_data_dir true w)
  /\ peek_next_invoice_number w = (Exn e, w)
  /\ (e = KeyError "last_number" \/ e = TypeError).
Proof.
  intros Hfile Hshape.
  unfold get_next_invoice_number, peek_next_invoice_number, bind, lift, ret,
    ensure_data_dir.
  cbn. rewrite Hfile. cbn.
  destruct v; cbn in Hshape |- *; try (injection Hshape as <-; auto).
  destruct (Py.assoc_get "last_number" d) as [x|]; cbn.
  - unfold Py.add. destruct (Py.as_number x); [discriminate|].
    injection Hshape as <-. auto.
  - injection Hshape as <-. auto.
Qed.

Lemma float_of_Z_1 : Num.float_of_Z 1 = Some 1%float.
Proof. vm_compute. reflexivity. Qed.

(** X4: a counter whose [last_number] is a float is advanced in the file
    before the allocation fails: the file is rewritten with the number
    plus one, and only then the [03d] format refuses the float.  The
    peek fails the same way and writes nothing. *)
Theorem fractional_counter_advances (w : world) (d : list (string * pyval))
        (f : float) :
  counter_file w = Some (Json (PDict d)) ->
  Py.assoc_get "last_number" d = Some (PFloat f) ->
  get_next_invoice_number w
  = (Exn (ValueError UnknownFormatCode),
     set_counter_file
       (Some (Json (PDict (Py.assoc_set "last_number" (PFloat (f + 1)) d))))
       (set_data_dir true w))
  /\ peek_next_invoice_number w = (Exn (ValueError UnknownFormatCode), w).
Proof.
  intros Hfile Hlast.
  unfold get_next_invoice_number, peek_next_invoice_number, bind, lift, ret,
    ensure_data_dir.
  cbn. rewrite Hfile. cbn. rewrite Hlast. cbn.
  unfold Py.add, Py.arith, Py.to_float. cbn. rewrite float_of_Z_1. cbn.
  rewrite assoc_get_set. cbn. auto.
Qed.

(** ** The client store *)

Lemma assoc_set_absent (k : string) (x : pyval) (d : list (string * pyval)) :
  Py.assoc_get k d = None -> Py.assoc_set k x d = d ++ [(k, x)].
Proof.
  induction d as [|[k' v] d IH]; cbn; [reflexivity|].
  destruct (String.eqb k' k); [discriminate|].
  intros H. now rewrite IH.
Qed.

Lemma assoc_get_del_ne (k k' : string) (d : list (string * pyval)) :
  k <> k' -> Py.assoc_get k' (Py.assoc_del k d) = Py.assoc_get k' d.
Proof.
  intros Hne. induction d as [|[k0 v] d IH]; cbn; [reflexivity|].
  destruct (String.eqb k0 k) eqn:Hk; cbn.
  - apply String.eqb_eq in Hk. subst k0.
    destruct (String.eqb k k') eqn:Hk'; [|reflexivity].
    apply String.eqb_eq in Hk'. contradiction.
  - now rewrite IH.
Qed.

Lemma assoc_get_absent (k : string) (d : list (string * pyval)) :
  ~ In k (map fst d) -> Py.assoc_get k d = None.
Proof.
  induction d as [|[k0 v] d IH]; cbn; [reflexivity|].
  intros Hnot. destruct (String.eqb k0 k) eqn:Hk.
  - apply String.eqb_eq in Hk. tauto.
  - apply IH. tauto.
Qed.

Lemma assoc_get_del (k : string) (d : list (string * pyval)) :
  List.NoDup (map fst d) -> Py.assoc_get k (Py.assoc_del k d) = None.
Proof.
  induction d as [|[k0 v] d IH]; cbn; [reflexivity|].
  intros Hnd. apply List.NoDup_cons_iff in Hnd as [Hnot Hnd].
  destruct (String.eqb k0 k) eqn:Hk; cbn.
  - apply String.eqb_eq in Hk. subst k0. now apply assoc_get_absent.
  - rewrite Hk. now apply IH.
Qed.

Lemma assoc_del_keys (k : string) (d : list (string * pyval)) :
  List.NoDup (map fst d) ->
  map fst (Py.assoc_del k d)
  = List.filter (fun k' => negb (String.eqb k' k)) (map fst d).
Proof.
  induction d as [|[k0 v] d IH]; cbn; [reflexivity|].
  intros Hnd. apply List.NoDup_cons_iff in Hnd as [Hnot Hnd].
  destruct (String.eqb k0 k) eqn:Hk; cbn.
  - apply String.eqb_eq in Hk. subst k0.
    symmetry. apply List.forallb_filter_id.
    apply forallb_forall. intros x Hx.
    destruct (String.eqb x k) eqn:Hxk; [|reflexivity].
    apply String.eqb_eq in Hxk. subst x. contradiction.
  - now rewrite IH.
Qed.

(** X5: [--save-client KEY --to NAME] with no item, on a store that is a
    JSON object (or absent): the run ends normally without rendering, and
    the store then maps [KEY] to the profile made of [--to] and
    [--to-company] ([""] when not given).  Every other client keeps its
    profile; a key already there keeps its place, a new one goes last.
    Nothing but the client file and the data directory changes. *)
Theorem save_client_upsert (args : Args) (w : world)
        (d : list (string * pyval)) :
  args_list_clients args = false ->
  Py.given (args_delete_client args) = false ->
  Py.given (args_save_client args) = true ->
  Py.given (args_to args) = true ->
  items_given (args_item args) = false ->
  stored_clients w = Some d ->
  let key := arg (args_save_client args) in
  let d' := Py.assoc_set key (client_profile args) d in
  let w' := set_clients_file (Some (Json (PDict d'))) (set_data_dir true w) in
  main args w = (Val tt, w')
  /\ load_clients w' = (Val (PDict d'), w')
  /\ Py.assoc_get key d' = Some (client_profile args)
  /\ (forall other : string,
         other <> key -> Py.assoc_get other d' = Py.assoc_get other d)
  /\ (forall p : pyval,
         Py.assoc_get key d = Some p -> map fst d' = map fst d)
  /\ (Py.assoc_get key d = None -> d' = d ++ [(key, client_profile args)]).
Proof.
  intros Hlist Hdel Hsave Hto Hitems Hstore key d' w'.
  split; [|split; [reflexivity|split; [apply assoc_get_set|split; [|split]]]].
  - unfold main. rewrite Hlist, Hdel, Hsave.
    unfold bind at 1. unfold save_client. rewrite Hto. cbn [negb].
    unfold bind at 1. rewrite (load_clients_stored w d Hstore).
    unfold bind at 1. unfold lift at 1. cbn [Py.setitem].
    rewrite Hitems. reflexivity.
  - intros other Hne. apply assoc_get_set_ne. congruence.
  - intros p Hp. eapply assoc_set_keys; eassumption.
  - apply assoc_set_absent.
Qed.

(** X6: [--save-client] without [--to] does nothing at all: the run ends
    normally with the world as it was, whatever else is on the command
    line (items included: no invoice is rendered). *)
Theorem save_client_requires_to (args : Args) (w : world) :
  args_list_clients args = false ->
  Py.given (args_delete_client args) = false ->
  Py.given (args_save_client args) = true ->
  Py.given (args_to args) = false ->
  main args w = (Val tt, w).
Proof.
  intros Hlist Hdel Hsave Hto.
  unfold main. rewrite Hlist, Hdel, Hsave.
  unfold bind at 1. unfold save_client. rewrite Hto. reflexivity.
Qed.

(** X7: [--save-client] with [--to] and at least one item saves the
    profile first and then goes on exactly as the same command line
    without [--save-client] would, on the updated store.  So the profile
    is saved also when what follows fails. *)
Theorem save_client_then_invoice (args : Args) (w : world)
        (d : list (string * pyval)) :
  args_list_clients args = false ->
  Py.given (args_delete_client args) = false ->
  Py.given (args_save_client args) = true ->
  Py.given (args_to args) = true ->
  items_given (args_item args) = true ->
  stored_clients w = Some d ->
  main args w
  = main (without_save_client args)
      (set_clients_file
         (Some (Json (PDict (Py.assoc_set (arg (args_save_client args))
                               (client_profile args) d))))
         (set_data_dir true w)).
Proof.
  intros Hlist Hdel Hsave Hto Hitems Hstore.
  unfold main at 2. cbn [args_list_clients args_delete_client args_save_client
                       without_save_client].
  rewrite Hlist, Hdel. cbn [Py.given]. unfold bind at 2. unfold ret at 2.
  cbn [negb].
  unfold main. rewrite Hlist, Hdel, Hsave.
  unfold bind at 1. unfold save_client. rewrite Hto. cbn [negb].
  unfold bind at 1. rewrite (load_clients_stored w d Hstore).
  unfold bind at 1. unfold lift at 1. cbn [Py.setitem].
  rewrite Hitems. cbn. reflexivity.
Qed.

(** X8: deleting a client that is not in the store changes nothing: the
    run ends normally and the world, the client file included, is as it
    was (the file is not rewritten, the data directory not created). *)
Theorem delete_missing_client_is_noop (args : Args) (w : world)
        (d : list (string * pyval)) :
  args_list_clients args = false ->
  Py.given (args_delete_client args) = true ->
  stored_clients w = Some d ->
  Py.assoc_get (arg (args_delete_client args)) d = None ->
  main args w = (Val tt, w).
Proof.
  intros Hlist Hdel Hstore Hkey.
  unfold main. rewrite Hlist, Hdel. unfold delete_client.
  unfold bind at 1. rewrite (load_clients_stored w d Hstore).
  unfold bind at 1. unfold lift at 1. cbn [Py.is_in]. rewrite Hkey.
  reflexivity.
Qed.

(** X9: deleting a stored client rewrites the store without that key:
    the key is no longer found, every other client keeps its profile, and
    the remaining keys keep their order. *)
Theorem delete_client_removes (args : Args) (w : world)
        (d : list (string * pyval)) (p : pyval) :
  args_list_clients args = false ->
  Py.given (args_delete_client args) = true ->
  stored_clients w = Some d ->
  List.NoDup (map fst d) ->
  let key := arg (args_delete_client args) in
  let d' := Py.assoc_del key d in
  Py.assoc_get key d = Some p ->
  main args w
  = (Val tt,
     set_clients_file (Some (Json (PDict d'))) (set_data_dir true w))
  /\ Py.assoc_get key d' = None
  /\ (forall other : string,
         other <> key -> Py.assoc_get other d' = Py.assoc_get other d)
  /\ map fst d'
     = List.filter (fun k => negb (String.eqb k key)) (map fst d).
Proof.
  intros Hlist Hdel Hstore Hnd key d' Hkey.
  split; [|split; [now apply assoc_get_del|split]].
  - unfold main. rewrite Hlist, Hdel. unfold delete_client.
    unfold bind at 1. rewrite (load_clients_stored w d Hstore).
    unfold bind at 1. unfold lift at 1. cbn [Py.is_in]. fold key.
    rewrite Hkey.
    unfold bind at 1. unfold lift at 1. cbn [Py.delitem]. rewrite Hkey.
    reflexivity.
  - intros other Hne. apply assoc_get_del_ne. congruence.
  - now apply assoc_del_keys.
Qed.

Lemma res_map_total {A B} (f : A -> res B) (l : list A) :
  Forall (fun a => exists b, f a = Val b) l ->
  exists l', res_map f l = Val l'.
Proof.
  induction 1 as [|a l [b Hb] _ [l' IH]]; cbn; [eauto|].
  rewrite Hb, IH. cbn. eauto.
Qed.

(** X10: [--list-clients] takes precedence over every other argument and
    never changes anything, whether it ends normally or not; on a store
    whose profiles are JSON objects it ends normally. *)
Theorem list_clients_is_read_only (args : Args) (w : world) :
  args_list_clients args = true ->
  snd (main args w) = w
  /\ (forall d : list (string * pyval),
         stored_clients w = Some d ->
         Forall (fun kv => exists p, snd kv = PDict p) d ->
         main args w = (Val tt, w)).
Proof.
  intros Hlist. unfold main. rewrite Hlist. unfold list_clients. split.
  - unfold bind, load_clients.
    destruct (clients_file w) as [c|]; [|reflexivity].
    destruct (json_load c) as [clients| |]; [|reflexivity..].
    destruct (negb (Py.truthy clients)); [reflexivity|].
    destruct clients; try reflexivity.
    unfold lift. destruct (res_map _ d); reflexivity.
  - intros d Hstore Hdicts.
    unfold bind at 1. rewrite (load_clients_stored w d Hstore).
    destruct d as [|kv d]; [reflexivity|]. cbn [Py.truthy negb].
    unfold bind, lift.
    destruct (res_map_total
                (fun kv : string * pyval =>
                   (let* name := Py.get (snd kv) "name" (PStr "") in
                    Py.get (snd kv) "company" (PStr ""))%res)
                (kv :: d)) as [l' ->]; [|reflexivity].
    eapply Forall_impl; [exact Hdicts|].
    intros [k v] [p Hp]. cbn in Hp. subst v. cbn. eauto.
Qed.

(** X11: a client file that [json.load] cannot decode ends every run
    that reads the client store (listing, deleting, saving with [--to],
    CLI mode with [--client], interactive mode) with the decoding error,
    and nothing is changed: the store is not overwritten, no prompt is
    read, no number allocated, no document written. *)
Theorem corrupt_client_store_aborts (args : Args) (w : world) (c : content) :
  clients_file w = Some c ->
  json_load c = Exn JSONDecodeError ->
  reads_clients args = true ->
  main args w = (Exn JSONDecodeError, w).
Proof.
  intros Hfile Hload Hreads.
  assert (load_clients w = (Exn JSONDecodeError, w)) as Hclients.
  { unfold load_clients. now rewrite Hfile, Hload. }
  unfold reads_clients in Hreads. unfold main.
  destruct (args_list_clients args).
  { unfold list_clients, bind. now rewrite Hclients. }
  destruct (Py.given (args_delete_client args)).
  { unfold delete_client, bind. now rewrite Hclients. }
  destruct (Py.given (args_save_client args)).
  { unfold save_client. rewrite Hreads.
    cbn [negb]. unfold bind. now rewrite Hclients. }
  unfold bind at 1. unfold ret at 1. cbn [negb].
  unfold load_invoice.
  destruct (Py.given (args_from_json args)); [discriminate|].
  destruct (Py.given (args_title args) || items_given (args_item args)
            || Py.given (args_client args)).
  - unfold cli_invoice. rewrite Hreads.
    unfold bind, create_empty_invoice. now rewrite Hclients.
  - unfold interactive_input, bind, create_empty_invoice.
    now rewrite Hclients.
Qed.

(** X12: in CLI mode, [--client KEY] with a key that is not in the store
    ends the run normally before anything else happens: no item string is
    parsed, no number allocated, no document written. *)
Theorem unknown_client_stops (args : Args) (w : world)
        (d : list (string * pyval)) :
  args_list_clients args = false ->
  Py.given (args_delete_client args) = false ->
  Py.given (args_save_client args) = false ->
  Py.given (args_from_json args) = false ->
  Py.given (args_client args) = true ->
  stored_clients w = Some d ->
  Py.assoc_get (arg (args_client args)) d = None ->
  main args w = (Val tt, w).
Proof.
  intros Hlist Hdel Hsave Hjson Hclient Hstore Hkey.
  unfold main. rewrite Hlist, Hdel, Hsave.
  unfold bind at 1. unfold ret at 1. cbn [negb].
  unfold bind at 1. unfold load_invoice.
  rewrite Hjson, Hclient, orb_true_r.
  unfold cli_invoice. unfold bind at 1.
  rewrite create_empty_invoice_record. rewrite Hclient.
  unfold bind at 1. unfold bind at 1.
  rewrite (load_clients_stored w d Hstore).
  unfold bind at 1. unfold lift at 1. cbn [Py.is_in]. rewrite Hkey.
  reflexivity.
Qed.

Lemma cli_overrides_client (args : Args) (day name company : string) :
  cli_overrides args
    (to_dict
       {| r_invoice_number := PNone; r_title := ""; r_date := day;
          r_from_name := DEFAULTS.from_name;
          r_from_email := DEFAULTS.from_email;
          r_to_name := name; r_to_company := company; r_items := [];
          r_payment_method := DEFAULTS.payment_method;
          r_notes := "" |})
  = res_bind (cli_items args)
      (fun items => Val (to_dict (client_record args day name company items))).
Proof.
  unfold cli_overrides, cli_items, client_record, override, override2, over.
  destruct (Py.given (args_title args)), (Py.given (args_date args)),
    (Py.given (args_to args)), (Py.given (args_to_company args)),
    (Py.given (args_from_name args)), (Py.given (args_from_email args)),
    (items_given (args_item args));
    cbn;
    try (destruct (res_map parse_item_string _); cbn);
    destruct (Py.given (args_payment args)), (Py.given (args_notes args));
    reflexivity.
Qed.

(** X13: in CLI mode, [--client KEY] with a stored profile whose name and
    company are strings fills the recipient from the profile, and the
    explicit [--to] and [--to-company] go over it; every other field is
    as without [--client]. *)
Theorem client_profile_fills_recipient (args : Args) (w : world)
        (d p : list (string * pyval)) (name company : string) :
  args_list_clients args = false ->
  Py.given (args_delete_client args) = false ->
  Py.given (args_save_client args) = false ->
  Py.given (args_from_json args) = false ->
  Py.given (args_client args) = true ->
  stored_clients w = Some d ->
  Py.assoc_get (arg (args_client args)) d = Some (PDict p) ->
  Py.get (PDict p) "name" (PStr "") = Val (PStr name) ->
  Py.get (PDict p) "company" (PStr "") = Val (PStr company) ->
  main args w
  = match cli_items args with
    | Val items =>
        number_and_render args
          (to_dict (client_record args (today w) name company items)) w
    | Exn e => (Exn e, w)
    | Beyond => (Beyond, w)
    end
  /\ (forall items : list pyval,
         let r := client_record args (today w) name company items in
         r_to_name r = (if Py.given (args_to args)
                        then arg (args_to args) else name)
         /\ r_to_company r = (if Py.given (args_to_company args)
                              then arg (args_to_company args) else company)
         /\ client_record args (today w) "" "" items
            = cli_record args (today w) items).
Proof.
  intros Hlist Hdel Hsave Hjson Hclient Hstore Hkey Hname Hcompany.
  split; [|intros items; repeat split].
  unfold main. rewrite Hlist, Hdel, Hsave.
  unfold bind at 1. unfold ret at 1. cbn [negb].
  unfold bind at 1. unfold load_invoice.
  rewrite Hjson, Hclient, orb_true_r.
  unfold cli_invoice. unfold bind at 1.
  rewrite create_empty_invoice_record. rewrite Hclient.
  unfold bind at 1. unfold bind at 1.
  rewrite (load_clients_stored w d Hstore).
  unfold bind at 1. unfold lift at 1. cbn [Py.is_in]. rewrite Hkey.
  cbn [negb].
  unfold bind at 1. unfold lift at 1. cbn [Py.getitem]. rewrite Hkey.
  unfold bind at 1. unfold lift at 1. rewrite Hname.
  unfold bind at 1. unfold lift at 1.
  unfold bind at 1. unfold lift at 1. rewrite Hcompany.
  unfold bind at 1. unfold lift at 1.
  change (setitem2 (to_dict _) "to" "name" (PStr name))
    with (Val (to_dict
       {| r_invoice_number := PNone; r_title := ""; r_date := today w;
          r_from_name := DEFAULTS.from_name;
          r_from_email := DEFAULTS.from_email;
          r_to_name := name; r_to_company := ""; r_items := [];
          r_payment_method := DEFAULTS.payment_method;
          r_notes := "" |})).
  cbv beta iota.
  change (setitem2 (to_dict _) "to" "company" (PStr company))
    with (Val (to_dict
       {| r_invoice_number := PNone; r_title := ""; r_date := today w;
          r_from_name := DEFAULTS.from_name;
          r_from_email := DEFAULTS.from_email;
          r_to_name := name; r_to_company := company; r_items := [];
          r_payment_method := DEFAULTS.payment_method;
          r_notes := "" |})).
  cbv beta iota. unfold ret at 1.
  unfold bind at 1. unfold lift at 1.
  rewrite cli_overrides_client.
  destruct (cli_items args); reflexivity.
Qed.
(** ** Runs that fail *)

Lemma number_and_render_outcome (args : Args) (invoice : pyval) (w : world) :
  fst (number_and_render args invoice w) = Val tt
  \/ user_files (snd (number_and_render args invoice w)) = user_files w.
Proof.
  pose proof (files_handle_invoice_numbering args invoice w) as Hnum.
  unfold number_and_render, bind, lift, generate_pdf, bind, doc_build, ret,
    write_json.
  destruct (handle_invoice_numbering args invoice w) as [[numbered| |] w1];
    cbn [snd] in Hnum; [|right; exact Hnum..].
  destruct (output_filename args numbered) as [path| |];
    [|right; exact Hnum..].
  destruct (invoice_elements (paragraph_error w1) (logo_file w1) numbered)
    as [elements| |]; [|right; exact Hnum..].
  destruct (layout_error w1 elements); [right; exact Hnum|].
  left. destruct (Py.given (args_save_json args)); reflexivity.
Qed.

(** X14: a run that does not end normally has written no file: not the
    document, not the JSON copy (writing a file is taken to succeed).
    Whatever fails (a prompt at end of input, an item string, the
    counter, the file name, a paragraph that reportlab refuses, the
    layout of the document) fails before anything is written. *)
Theorem failure_writes_no_document (args : Args) (w : world) :
  fst (main args w) <> Val tt ->
  user_files (snd (main args w)) = user_files w.
Proof.
  unfold main.
  destruct (args_list_clients args); [intros _; apply files_list_clients|].
  destruct (Py.given (args_delete_client args));
    [intros _; apply files_delete_client|].
  assert (keeps_files (if Py.given (args_save_client args)
                       then save_client args (arg (args_save_client args))
                       else ret true)) as Hsave by files.
  specialize (Hsave w). unfold bind.
  destruct ((if Py.given (args_save_client args)
             then save_client args (arg (args_save_client args))
             else ret true) w) as [[go_on| |] w1];
    cbn [snd] in Hsave; [|intros _; exact Hsave..].
  destruct (negb go_on); [intros _; exact Hsave|].
  pose proof (files_load_invoice args w1) as Hload.
  destruct (load_invoice args w1) as [[[invoice|]| |] w2];
    cbn [snd] in Hload; try (intros _; cbn; congruence).
  intros Hfail.
  destruct (number_and_render_outcome args invoice w2) as [Hok|Hsame];
    [contradiction|congruence].
Qed.

(** ** JSON mode *)

(** X15: with [--from-json] the field arguments are ignored: two command
    lines with no client command that name the same JSON file and agree
    on [--output], [--save-json], [--invoice-number] and [--no-number]
    run alike, whatever their [--title], [--date], [--to], [--item],
    [--client] and the like. *)
Theorem from_json_ignores_fields (a b : Args) (w : world) :
  no_client_command a ->
  no_client_command b ->
  Py.given (args_from_json a) = true ->
  args_from_json b = args_from_json a ->
  args_output b = args_output a ->
  args_save_json b = args_save_json a ->
  args_invoice_number b = args_invoice_number a ->
  args_no_number b = args_no_number a ->
  main a w = main b w.
Proof.
  intros (Hla & Hda & Hsa) (Hlb & Hdb & Hsb) Hjson Ej Eo Es Ei En.
  unfold main, load_invoice, number_and_render, handle_invoice_numbering,
    output_filename.
  rewrite Hla, Hda, Hsa, Hlb, Hdb, Hsb, Ej, Eo, Es, Ei, En, Hjson.
  reflexivity.
Qed.

Lemma set_user_files_same (w : world) : set_user_files (user_files w) w = w.
Proof. now destruct w. Qed.

Lemma insert_twice (m : gmap string content) (p q : string) (x y : content) :
  <[q := y]> (<[p := x]> (<[q := y]> (<[p := x]> m)))
  = <[q := y]> (<[p := x]> m).
Proof.
  apply map_eq. intros i. rewrite !lookup_insert.
  repeat case_decide; reflexivity.
Qed.

(** X16: a run from a JSON file that takes no number from the counter
    can be repeated.  When a run with [--from-json] (no client command)
    on an invoice that carries a number, or under [--no-number] or
    [--invoice-number], ends normally and has not overwritten its input
    file, running the same command line again ends normally and leaves
    everything exactly as the first run left it: the same document at
    the same path, the same JSON copy if one is asked for, and the
    counter file as it was before the first run. *)
Theorem json_replay_is_idempotent (args : Args) (w w1 : world)
        (d : list (string * pyval)) :
  no_client_command args ->
  Py.given (args_from_json args) = true ->
  user_files w !! arg (args_from_json args) = Some (Json (PDict d)) ->
  takes_no_number args d = true ->
  main args w = (Val tt, w1) ->
  user_files w1 !! arg (args_from_json args) = Some (Json (PDict d)) ->
  main args w1 = (Val tt, w1)
  /\ counter_file w1 = counter_file w.
Proof.
  intros (Hlist & Hdel & Hsave) Hjson Hfile Htakes Hrun Hstill.
  assert (exists numbered : pyval,
             forall w0 : world,
               handle_invoice_numbering args (PDict d) w0 = (Val numbered, w0))
    as [numbered Hhandle].
  { unfold handle_invoice_numbering. unfold takes_no_number in Htakes.
    destruct (args_no_number args); [eexists; intros w0; reflexivity|].
    destruct (Py.given (args_invoice_number args));
      [eexists; intros w0; reflexivity|].
    cbn [orb] in Htakes. exists (PDict d). intros w0.
    unfold bind, lift. cbn [Py.get]. now rewrite Htakes. }
  assert (forall w0 : world,
             user_files w0 !! arg (args_from_json args)
             = Some (Json (PDict d)) ->
             main args w0
             = (let* output_path := lift (output_filename args numbered) in
                let* _ := generate_pdf numbered output_path in
                if Py.given (args_save_json args)
                then write_json (arg (args_save_json args)) numbered
                else ret tt)%io w0) as Hmain.
  { intros w0 Hw0. unfold main. rewrite Hlist, Hdel, Hsave.
    unfold bind at 1. unfold ret at 1. cbn [negb].
    unfold bind at 1. unfold load_invoice. rewrite Hjson.
    unfold bind at 1. unfold read_json. rewrite Hw0. cbn [json_load].
    unfold ret at 1. unfold number_and_render.
    unfold bind at 1. now rewrite Hhandle. }
  rewrite (Hmain w Hfile) in Hrun. rewrite (Hmain w1 Hstill).
  clear Hmain Hhandle Hfile Hstill.
  unfold bind, lift, generate_pdf, bind, doc_build, ret, write_json in Hrun |- *.
  destruct (output_filename args numbered) as [path| |]; try discriminate.
  destruct (invoice_elements (paragraph_error w) (logo_file w) numbered)
    as [elements| |] eqn:Helements; try discriminate.
  destruct (layout_error w elements) eqn:Hlayout; try discriminate.
  destruct (Py.given (args_save_json args)); injection Hrun as <-;
    cbn [paragraph_error logo_file layout_error user_files set_user_files
         counter_file];
    rewrite Helements, Hlayout; (split; [|reflexivity]); f_equal;
    unfold set_user_files; cbn [data_dir clients_file counter_file logo_file
                                  user_files stdin today paragraph_error
                                  layout_error];
    f_equal.
  - apply insert_twice.
  - apply insert_insert_eq.
Qed.

(** X17: a number is taken before anything is rendered, and is not given
    back.  When the numbering step has to allocate (no flag, no number
    carried by the invoice) and the run then fails to derive the file
    name or to build the document, the counter has gone up by one all
    the same, and no file has been written. *)
Theorem failed_render_consumes_number (args : Args) (invoice number : pyval)
        (w : world) (k : Z) :
  args_no_number args = false ->
  Py.given (args_invoice_number args) = false ->
  Py.get invoice "invoice_number" PNone = Val number ->
  Py.truthy number = false ->
  last_number w = Some k ->
  fst (number_and_render args invoice w) <> Val tt ->
  last_number (snd (number_and_render args invoice w)) = Some (k + 1)
  /\ user_files (snd (number_and_render args invoice w)) = user_files w.
Proof.
  intros Hno Hgiven Hget Hfalsy Hk Hfail.
  split.
  2:{ destruct (number_and_render_outcome args invoice w); tauto. }
  revert Hfail.
  destruct (last_number_get_next w k Hk) as (w1 & Hnext & Hk1 & _).
  unfold number_and_render, bind, handle_invoice_numbering.
  rewrite Hno, Hgiven. unfold bind, lift. rewrite Hget, Hfalsy.
  cbn [negb]. rewrite Hnext.
  destruct (Py.setitem invoice "invoice_number"
              (PStr (invoice_id (Num.format_03d (k + 1)))))
    as [numbered| |]; [|intros _; exact Hk1..].
  destruct (output_filename args numbered) as [path| |];
    [|intros _; exact Hk1..].
  unfold generate_pdf, bind, doc_build, ret, write_json.
  destruct (invoice_elements (paragraph_error w1) (logo_file w1) numbered)
    as [elements| |]; [|intros _; exact Hk1..].
  destruct (layout_error w1 elements); [intros _; exact Hk1|].
  destruct (Py.given (args_save_json args)); cbn; congruence.
Qed.

(** ** The output file name *)





(** ** The document *)

(** X19: the document of an invoice record, top to bottom.  The
    paragraphs are built in this order, and the first text that
    reportlab's markup parser refuses raises its exception, so that no
    list of elements comes about.  When every text is accepted the
    elements are: the logo and a spacer when there is a logo file; the
    invoice number line when the number is a non-empty string; title,
    date, spacer; the sender block; the recipient block, with the company
    line only when the company is not empty; the items table between two
    spacers; the payment line; and a spacer and the notes line only when
    the notes are not empty. *)
Theorem invoice_layout (markup : string -> option exn) (logo : bool)
        (r : invoice_record) (table : flowable) :
  cli_number (r_invoice_number r) ->
  items_table (to_dict r) = Val table ->
  invoice_elements markup logo (to_dict r)
  = match first_error markup (record_texts r) with
    | Some e => Exn e
    | None => Val (record_elements logo r table)
    end
  /\ (Forall (fun text => markup text = None) (record_texts r) ->
      invoice_elements markup logo (to_dict r)
      = Val (record_elements logo r table))
  /\ (forall elements : list flowable,
         invoice_elements markup logo (to_dict r) = Val elements ->
         elements = record_elements logo r table
         /\ Forall (fun text => markup text = None) (record_texts r)).
Proof.
  intros Hnum Htable.
  pose proof (invoice_elements_record markup logo r table Hnum Htable) as H.
  split; [exact H|]. split.
  - intros Htexts. now rewrite H, (first_error_none _ _ Htexts).
  - intros elements Helements. rewrite H in Helements.
    destruct (first_error markup (record_texts r)) eqn:Hfirst;
      [discriminate|].
    injection Helements as <-. split; [reflexivity|].
    now apply first_error_accepts.
Qed.

Lemma money_float_finite (f : float) (text : string) :
  money (PFloat f) = Val text -> finite f = true.
Proof.
  unfold money, Py.int_of, Num.Z_of_float, finite. cbn [Py.as_number].
  destruct (Prim2SF f); cbn [res_bind]; try discriminate; reflexivity.
Qed.

(** X20: a table that is built shows finite amounts only.  Whenever
    [items_table] returns, every float rate, every float line total and a
    float grand total are finite: an infinite or NaN amount makes the
    money format raise instead. *)
Theorem rendered_amounts_are_finite (invoice : pyval)
        (data : list (list pyval)) (widths : list float) :
  items_table invoice = Val (Table data widths) ->
  exists (items : list pyval) (grand : pyval),
    (let* v := Py.getitem invoice "items" in iterate v)%res = Val items
    /\ (let* totals := res_map line_total items in
        sum_from (PInt 0) totals)%res = Val grand
    /\ (forall g : float, grand = PFloat g -> finite g = true)
    /\ (forall (i : nat) (item : pyval),
           items !! i = Some item ->
           (forall f : float,
               Py.getitem item "rate" = Val (PFloat f) -> finite f = true)
           /\ (forall t : float,
                  line_total item = Val (PFloat t) -> finite t = true)).
Proof.
  intros Htable.
  destruct (items_table_parts invoice data widths Htable)
    as (items & rows & totals & grand & grand_text
        & Hitems & Hrows & Htotals & Hsum & Hgrand & _).
  exists items, grand.
  split; [exact Hitems|]. split; [now rewrite Htotals|].
  split.
  { intros g ->. eapply money_float_finite; eassumption. }
  intros i item Hitem.
  destruct (res_map_lookup item_row items rows Hrows) as [_ Hat].
  destruct (Hat i item Hitem) as (row & _ & Hrow).
  destruct (item_row_cells item row Hrow)
    as (service & date & quantity & quantity_text & rate & rate_text
        & total & total_text & _ & _ & _ & _ & _
        & Hrate & Hrate_text & Htotal & Htotal_text).
  split.
  - intros f Hf. rewrite Hf in Hrate. injection Hrate as <-.
    eapply money_float_finite; eassumption.
  - intros t Ht. rewrite Ht in Htotal. injection Htotal as <-.
    eapply money_float_finite; eassumption.
Qed.


(** Item strings can spell amounts that are not finite. *)
Lemma non_finite_rates_parse :
  parse_item_string "Work,,1,inf"
  = Val (make_item "Work" "" (PInt 1) (PFloat infinity))
  /\ parse_item_string "Work,,1,nan"
     = Val (make_item "Work" "" (PInt 1) (PFloat nan))
  /\ parse_item_string "Work,,1,1e999"
     = Val (make_item "Work" "" (PInt 1) (PFloat infinity))
  /\ finite infinity = false /\ finite nan = false.
Proof. repeat split; vm_compute; reflexivity. Qed.

(** ** Item strings with fewer or more than four fields *)

Lemma split_nonempty (sep : ascii) (s : string) : Str.split sep s <> [].
Proof.
  destruct s as [|c s]; cbn [Str.split]; [discriminate|].
  destruct (Ascii.eqb c sep); [discriminate|].
  destruct (Str.split sep s); discriminate.
Qed.

Lemma split_app (sep : ascii) (s t : string) :
  Str.split sep (s +:+ String sep t) = Str.split sep s ++ Str.split sep t.
Proof.
  induction s as [|c s IH].
  - change ("" +:+ String sep t) with (String sep t).
    cbn [Str.split]. now rewrite Ascii.eqb_refl.
  - change (String c s +:+ String sep t) with (String c (s +:+ String sep t)).
    cbn [Str.split]. rewrite IH.
    destruct (Ascii.eqb c sep); [reflexivity|].
    pose proof (split_nonempty sep s) as Hne.
    destruct (Str.split sep s) as [|p ps]; [contradiction|reflexivity].
Qed.

Lemma split_one (s : string) :
  comma_free s = true -> Str.split "," s = [s].
Proof.
  unfold comma_free. induction s as [|c s IH]; [reflexivity|].
  cbn [Str.all_chars Str.split]. intros [Hc Hs]%andb_true_iff.
  apply negb_true_iff in Hc. rewrite Hc, (IH Hs). reflexivity.
Qed.

(** X22: missing trailing fields of an item string take their defaults.
    A service alone, or a service and a date, give quantity [1] and rate
    [0] (the int); with a third field the quantity is read from it (or
    is [1] if it is blank, or the run fails on it) and the rate is [0].
    Service and date are stripped of surrounding white space. *)
Theorem short_item_string_defaults (service date quantity : string) :
  comma_free service = true ->
  comma_free date = true ->
  comma_free quantity = true ->
  parse_item_string service
  = Val (make_item (Str.strip service) "" (PInt 1) (PInt 0))
  /\ parse_item_string (service +:+ "," +:+ date)
     = Val (make_item (Str.strip service) (Str.strip date) (PInt 1) (PInt 0))
  /\ parse_item_string (service +:+ "," +:+ date +:+ "," +:+ quantity)
     = if String.eqb (Str.strip quantity) "" then
         Val (make_item (Str.strip service) (Str.strip date) (PInt 1) (PInt 0))
       else
         match Num.int_of_string (Str.strip quantity) with
         | Some q =>
             Val (make_item (Str.strip service) (Str.strip date) (PInt q)
                    (PInt 0))
         | None => Exn (ValueError (InvalidIntLiteral (Str.strip quantity)))
         end.
Proof.
  intros Hs Hd Hq.
  repeat match goal with
         | |- context ["," +:+ ?t] => change ("," +:+ t) with (String "," t)
         end.
  unfold parse_item_string, item_fields.
  rewrite !split_app, !(split_one _ Hs), !(split_one _ Hd), !(split_one _ Hq).
  cbn -[Str.strip Num.int_of_string].
  destruct (String.eqb (Str.strip quantity) ""); cbn [negb];
    [auto|].
  destruct (Num.int_of_string (Str.strip quantity)); auto.
Qed.

(** X23: fields after the fourth are ignored: text appended after a
    further comma to an item string that has four fields or more does not
    change what [parse_item_string] returns or raises. *)
Theorem extra_fields_are_ignored (item_str extra : string) :
  (4 <= length (Str.split "," item_str))%nat ->
  parse_item_string (item_str +:+ "," +:+ extra) = parse_item_string item_str.
Proof.
  intros Hlen.
  change ("," +:+ extra) with (String "," extra).
  assert (forall i : nat,
             (i < 4)%nat ->
             nth i (item_fields (item_str +:+ String "," extra)) ""
             = nth i (item_fields item_str) "") as Hnth.
  { intros i Hi. unfold item_fields. rewrite split_app, map_app.
    rewrite !length_app, !length_map.
    destruct (Nat.ltb_spec (length (Str.split "," item_str)
                            + length (Str.split "," extra)) 4); [lia|].
    destruct (Nat.ltb_spec (length (Str.split "," item_str)) 4); [lia|].
    apply app_nth1. rewrite length_map. lia. }
  unfold parse_item_string.
  rewrite !Hnth by lia. reflexivity.
Qed.

(** ** The interactive prompts *)

Lemma prompt_answer (default : option string) (line : string)
      (rest : list string) (w : world) :
  prompt default (set_stdin (line :: rest) w)
  = (Val (answer line (arg default)), set_stdin rest w).
Proof.
  unfold prompt, answer.
  destruct default as [d|]; cbn [arg Py.given].
  - destruct (String.eqb d "") eqn:Hd; cbn [negb].
    + apply String.eqb_eq in Hd. subst d. unfold bind, input, ret. cbn.
      destruct (String.eqb (Str.strip line) "") eqn:E; [|reflexivity].
      apply String.eqb_eq in E. now rewrite E.
    + reflexivity.
  - unfold bind, input, ret. cbn.
    destruct (String.eqb (Str.strip line) "") eqn:E; [|reflexivity].
    apply String.eqb_eq in E. now rewrite E.
Qed.

Lemma prompt_items_loop_entries (entries : list entry) :
  forall (fuel : nat) (acc : list pyval) (last : string)
         (rest : list string) (w : world),
    (length entries < fuel)%nat ->
    Forall (fun e => entry_ok e = true) entries ->
    blank last = true ->
    acc ++ map entry_item entries <> [] ->
    prompt_items_loop fuel acc
      (set_stdin (concat (map entry_lines entries) ++ last :: rest) w)
    = (Val (acc ++ map entry_item entries), set_stdin rest w).
Proof.
  induction entries as [|e entries IH];
    intros fuel acc last rest w Hfuel Hok Hlast Hne.
  - destruct fuel as [|fuel]; [cbn in Hfuel; lia|].
    cbn [map concat app] in *. rewrite app_nil_r in *.
    cbn [prompt_items_loop]. unfold bind at 1, input at 1.
    cbn [stdin set_stdin]. unfold blank in Hlast. rewrite Hlast.
    destruct acc; [contradiction|reflexivity].
  - destruct fuel as [|fuel]; [cbn in Hfuel; lia|].
    inversion Hok as [|? ? He Hrest]; subst.
    unfold entry_ok in He. apply andb_true_iff in He as [Hservice Hmul].
    apply negb_true_iff in Hservice.
    cbn [map concat entry_lines app]. cbn [prompt_items_loop].
    unfold bind at 1, input at 1. cbn [stdin set_stdin].
    rewrite Hservice.
    change (set_stdin ?l (set_stdin _ w)) with (set_stdin l w).
    unfold bind at 1. rewrite prompt_answer.
    unfold bind at 1. rewrite prompt_answer.
    unfold bind at 1. rewrite prompt_answer.
    cbn [arg].
    change (match Num.int_of_string (answer (e_quantity e) "1"),
                  Num.float_of_string
                    (Str.replace "," ""
                       (Str.replace "$" "" (answer (e_rate e) "0"))) with
            | Some q, Some r => (PInt q, PFloat r)
            | _, _ => (PInt 1, PInt 0)
            end) with (entry_numbers e).
    destruct (entry_numbers e) as [quantity rate] eqn:Hnum.
    cbn [fst snd] in Hmul.
    unfold bind at 1, lift at 1.
    destruct (Py.mul quantity rate); try discriminate.
    rewrite (IH fuel (acc ++ [make_item (Str.strip (e_service e))
                                (answer (e_date e) "") quantity rate])
               last rest w); try assumption.
    + unfold entry_item. rewrite Hnum. cbn [fst snd].
      now rewrite <-app_assoc.
    + cbn in Hfuel. lia.
    + intros H. apply app_eq_nil in H as [H _].
      apply app_eq_nil in H as [_ H]. discriminate.
Qed.

Lemma prompt_items_loop_blanks (blanks : list string) :
  forall (fuel : nat) (tail : list string) (w : world),
    Forall (fun line => blank line = true) blanks ->
    prompt_items_loop (length blanks + fuel) []
      (set_stdin (blanks ++ tail) w)
    = prompt_items_loop fuel [] (set_stdin tail w).
Proof.
  induction blanks as [|line blanks IH]; intros fuel tail w Hblank;
    [reflexivity|].
  inversion Hblank as [|? ? Hline Hrest]; subst.
  cbn [length Nat.add app prompt_items_loop].
  unfold bind at 1, input at 1. cbn [stdin set_stdin].
  unfold blank in Hline. rewrite Hline.
  change (set_stdin ?l (set_stdin _ w)) with (set_stdin l w).
  now apply IH.
Qed.

(** X24: the item prompt returns one item per entry typed, in the order
    typed, and stops at the first blank service line after an item,
    leaving the lines behind it unread.  Blank service lines before the
    first item are asked again.  An entry keeps its quantity and rate
    only if both parse (a blank quantity counting as [1], a blank rate as
    [0], dollar signs and commas removed from the rate); otherwise it gets
    quantity [1] and rate [0]. *)
Theorem prompt_items_reads_entries (blanks : list string)
        (entries : list entry) (last : string) (rest : list string)
        (w : world) :
  Forall (fun line => blank line = true) blanks ->
  entries <> [] ->
  Forall (fun e => entry_ok e = true) entries ->
  blank last = true ->
  prompt_items
    (set_stdin (blanks ++ concat (map entry_lines entries) ++ last :: rest) w)
  = (Val (map entry_item entries), set_stdin rest w).
Proof.
  intros Hblanks Hne Hok Hlast. unfold prompt_items.
  cbn [stdin set_stdin].
  replace (S (length (blanks ++ concat (map entry_lines entries)
                      ++ last :: rest)))
    with (length blanks
          + S (length (concat (map entry_lines entries) ++ last :: rest)))%nat
    by (rewrite !length_app; cbn [length]; lia).
  rewrite prompt_items_loop_blanks by assumption.
  rewrite prompt_items_loop_entries; try assumption.
  - reflexivity.
  - rewrite length_app. cbn [length].
    assert (length entries <= length (concat (map entry_lines entries)))%nat.
    { clear. induction entries as [|e entries IH]; cbn; lia. }
    lia.
  - cbn [app]. destruct entries; [contradiction|discriminate].
Qed.

Lemma prompt_items_entries (entries : list entry) (last : string)
      (rest : list string) (w : world) :
  entries <> [] ->
  Forall (fun e => entry_ok e = true) entries ->
  blank last = true ->
  prompt_items
    (set_stdin (concat (map entry_lines entries) ++ last :: rest) w)
  = (Val (map entry_item entries), set_stdin rest w).
Proof.
  intros Hne Hok Hlast. unfold prompt_items. cbn [stdin set_stdin].
  rewrite prompt_items_loop_entries; try assumption.
  - reflexivity.
  - rewrite length_app. cbn [length].
    assert (length entries <= length (concat (map entry_lines entries)))%nat.
    { clear. induction entries as [|e entries IH]; cbn; lia. }
    lia.
  - cbn [app]. destruct entries; [contradiction|discriminate].
Qed.

Lemma clients_file_stdin (l : list string) (w : world) :
  load_clients (set_stdin l w)
  = (fst (load_clients w), set_stdin l w).
Proof.
  unfold load_clients. cbn [clients_file set_stdin].
  now destruct (clients_file w).
Qed.

(** X25: an interactive session with no saved client and a readable
    counter.  The answers to title, date, sender name, sender email,
    client name and company, the item entries, payment method and notes
    build the invoice field by field: each answer stripped, a blank answer
    keeping the default (today's date, the default sender and payment
    method, the empty string elsewhere), no invoice number yet.  The lines
    after the notes are left unread. *)
Theorem interactive_input_record (w : world) (k : Z)
        (title date name email to company payment notes last : string)
        (entries : list entry) (rest : list string) :
  stored_clients w = Some [] ->
  last_number w = Some k ->
  entries <> [] ->
  Forall (fun e => entry_ok e = true) entries ->
  blank last = true ->
  interactive_input
    (set_stdin ([title; date; name; email; to; company]
                ++ concat (map entry_lines entries)
                ++ [last; payment; notes] ++ rest) w)
  = (Val (to_dict
            {| r_invoice_number := PNone;
               r_title := Str.strip title;
               r_date := answer date (today w);
               r_from_name := answer name DEFAULTS.from_name;
               r_from_email := answer email DEFAULTS.from_email;
               r_to_name := Str.strip to;
               r_to_company := Str.strip company;
               r_items := map entry_item entries;
               r_payment_method := answer payment DEFAULTS.payment_method;
               r_notes := Str.strip notes |}),
     set_stdin rest w).
Proof.
  intros Hstore Hk Hne Hok Hlast.
  assert (forall line, answer line "" = Str.strip line) as Hanswer.
  { intros line. unfold answer.
    destruct (String.eqb (Str.strip line) "") eqn:E; [|reflexivity].
    apply String.eqb_eq in E. now rewrite E. }
  unfold interactive_input.
  unfold bind at 1. unfold create_empty_invoice at 1.
  cbn [today set_stdin].
  unfold bind at 1. rewrite clients_file_stdin.
  rewrite (load_clients_stored w [] Hstore). cbn [fst].
  unfold bind at 1.
  rewrite (peek_value (set_stdin _ w) k) by exact Hk.
  cbn [app].
  unfold bind at 1. rewrite prompt_answer.
  unfold bind at 1. unfold lift at 1. cbn [Py.setitem Py.assoc_set String.eqb Ascii.eqb Bool.eqb].
  unfold bind at 1. unfold lift at 1. cbn [Py.getitem Py.assoc_get String.eqb Ascii.eqb Bool.eqb].
  unfold bind at 1. rewrite prompt_answer.
  unfold bind at 1. unfold lift at 1. cbn [Py.setitem Py.assoc_set String.eqb Ascii.eqb Bool.eqb].
  unfold bind at 1. rewrite prompt_answer.
  unfold bind at 1. unfold lift at 1.
  cbn [setitem2 res_bind Py.getitem Py.setitem Py.assoc_get Py.assoc_set String.eqb Ascii.eqb Bool.eqb].
  unfold bind at 1. rewrite prompt_answer.
  unfold bind at 1. unfold lift at 1.
  cbn [setitem2 res_bind Py.getitem Py.setitem Py.assoc_get Py.assoc_set String.eqb Ascii.eqb Bool.eqb].
  unfold bind at 1. unfold prompt_client_selection at 1.
  cbn [Py.truthy negb]. unfold ret at 1. cbn [Py.truthy].
  unfold bind at 1. unfold bind at 1. rewrite prompt_answer.
  unfold bind at 1. unfold lift at 1.
  cbn [setitem2 res_bind Py.getitem Py.setitem Py.assoc_get Py.assoc_set String.eqb Ascii.eqb Bool.eqb].
  unfold bind at 1. rewrite prompt_answer.
  unfold lift at 1.
  cbn [setitem2 res_bind Py.getitem Py.setitem Py.assoc_get Py.assoc_set String.eqb Ascii.eqb Bool.eqb].
  unfold bind at 1.
  change ([last; payment; notes] ++ rest)
    with (last :: payment :: notes :: rest).
  rewrite (prompt_items_entries entries last (payment :: notes :: rest) w)
    by assumption.
  unfold bind at 1. unfold lift at 1. cbn [Py.setitem Py.assoc_set String.eqb Ascii.eqb Bool.eqb].
  unfold bind at 1. rewrite prompt_answer.
  unfold bind at 1. unfold lift at 1. cbn [Py.setitem Py.assoc_set String.eqb Ascii.eqb Bool.eqb].
  unfold bind at 1. rewrite prompt_answer.
  unfold lift. cbn [Py.setitem Py.assoc_set String.eqb Ascii.eqb Bool.eqb arg].
  rewrite !Hanswer. reflexivity.
Qed.

Lemma assoc_get_lookup (d : list (string * pyval)) :
  List.NoDup (map fst d) ->
  forall (i : nat) (key : string) (profile : pyval),
    d !! i = Some (key, profile) -> Py.assoc_get key d = Some profile.
Proof.
  induction d as [|[k0 v] d IH]; intros Hnd i key profile Hi;
    [discriminate|].
  cbn [map fst] in Hnd. apply List.NoDup_cons_iff in Hnd as [Hnot Hnd].
  destruct i as [|i]; cbn in Hi.
  - injection Hi as -> ->. cbn. now rewrite String.eqb_refl.
  - cbn. destruct (String.eqb k0 key) eqn:E.
    + apply String.eqb_eq in E. subst k0. exfalso. apply Hnot.
      apply in_map_iff. exists (key, profile). split; [reflexivity|].
      apply list_elem_of_In. eapply list_elem_of_lookup_2. exact Hi.
    + eapply IH; eassumption.
Qed.

Lemma listing_succeeds (d all : list (string * pyval)) :
  Forall (fun kv => exists p, snd kv = PDict p) all ->
  (forall key, In key (map fst d) -> In key (map fst all)) ->
  exists l,
    res_map (fun key =>
               (let* client := Py.getitem (PDict all) key in
                let* name := Py.get client "name" (PStr key) in
                Py.get client "company" (PStr ""))%res) (map fst d)
    = Val l.
Proof.
  intros Hdicts Hsub. apply res_map_total.
  apply Forall_forall. intros key Hkey%list_elem_of_In.
  apply Hsub in Hkey. clear Hsub.
  induction all as [|[k0 v] all IH]; [contradiction|].
  inversion Hdicts as [|? ? [p Hp] Hrest]; subst. cbn in Hp. subst v.
  cbn [Py.getitem Py.assoc_get].
  destruct (String.eqb k0 key) eqn:E.
  - cbn. eauto.
  - destruct Hkey as [Hk|Hk].
    + cbn in Hk. subst k0. now rewrite String.eqb_refl in E.
    + apply IH; assumption.
Qed.

(** X26: the client menu, on a store of JSON-object profiles, reads one
    line.  A choice that is an int is always taken as a position: [n]
    from 1 to the number of clients selects the [n]-th profile in store
    order, any other int selects nothing, even if it is the key of a
    client.  A choice that is not an int selects the profile stored under
    that key, or nothing when there is none. *)
Theorem client_selection (d : list (string * pyval)) (line : string)
        (rest : list string) (w : world) :
  d <> [] ->
  List.NoDup (map fst d) ->
  Forall (fun kv => exists p, snd kv = PDict p) d ->
  let choice := Str.strip line in
  let run := prompt_client_selection (PDict d) (set_stdin (line :: rest) w) in
  snd run = set_stdin rest w
  /\ (forall (n : Z) (key : string) (profile : pyval),
         Num.int_of_string choice = Some n ->
         1 <= n ->
         d !! Z.to_nat (n - 1) = Some (key, profile) ->
         fst run = Val profile)
  /\ (forall n : Z,
         Num.int_of_string choice = Some n ->
         n < 1 \/ Z.of_nat (length d) < n ->
         fst run = Val PNone)
  /\ (Num.int_of_string choice = None ->
      fst run = Val (match Py.assoc_get choice d with
                     | Some profile => profile
                     | None => PNone
                     end)).
Proof.
  intros Hne Hnd Hdicts choice run.
  assert (run
          = match Num.int_of_string choice with
            | Some n =>
                if (0 <=? n - 1) && (n - 1 <? Z.of_nat (length (map fst d)))
                then (Py.getitem (PDict d)
                        (nth (Z.to_nat (n - 1)) (map fst d) ""),
                      set_stdin rest w)
                else (Val PNone, set_stdin rest w)
            | None =>
                (Val (match Py.assoc_get choice d with
                      | Some profile => profile
                      | None => PNone
                      end), set_stdin rest w)
            end) as Hrun.
  { subst run. unfold prompt_client_selection.
    destruct d as [|kv d]; [contradiction|]. cbn [Py.truthy negb].
    destruct (listing_succeeds (kv :: d) (kv :: d) Hdicts) as [l Hl]; [auto|].
    unfold bind at 1. unfold lift at 1. rewrite Hl.
    unfold bind at 1. rewrite prompt_answer. cbn [arg].
    assert (answer line "" = choice) as ->.
    { unfold answer. subst choice.
      destruct (String.eqb (Str.strip line) "") eqn:E; [|reflexivity].
      apply String.eqb_eq in E. now rewrite E. }
    destruct (Num.int_of_string choice) as [n|].
    - destruct ((0 <=? n - 1) && (n - 1 <? Z.of_nat (length (map fst (kv :: d)))));
        reflexivity.
    - unfold bind, lift. cbn [Py.is_in Py.getitem].
      destruct (Py.assoc_get choice (kv :: d)); reflexivity. }
  rewrite Hrun. clear Hrun run.
  split; [|split; [|split]].
  - destruct (Num.int_of_string choice) as [n|]; [|reflexivity].
    destruct ((0 <=? n - 1) && (n - 1 <? Z.of_nat (length (map fst d))));
      reflexivity.
  - intros n key profile -> Hn Hat.
    pose proof (lookup_lt_Some _ _ _ Hat) as Hlt.
    rewrite length_map.
    destruct (Z.leb_spec 0 (n - 1)); [|lia].
    destruct (Z.ltb_spec (n - 1) (Z.of_nat (length d))); [|lia].
    cbn [andb fst Py.getitem].
    assert (nth (Z.to_nat (n - 1)) (map fst d) "" = key) as ->.
    { apply nth_lookup_Some with (d := "").
      rewrite list_lookup_fmap, Hat. reflexivity. }
    now rewrite (assoc_get_lookup d Hnd _ _ _ Hat).
  - intros n -> Hout. rewrite length_map.
    destruct (Z.leb_spec 0 (n - 1)), (Z.ltb_spec (n - 1) (Z.of_nat (length d)));
      try reflexivity; lia.
  - intros ->. reflexivity.
Qed.

(** ** Examples for the further properties *)

Lemma numbering_resumes_witness :
  fst (allocate_n 2
         (set_counter_file
            (Some (Json (PDict [("last_number", PInt 41);
                                ("note", PStr "keep")])))
            empty_world))
  = Val ["INV-042"; "INV-043"].
Proof.
  destruct (numbering_resumes
              (set_counter_file
                 (Some (Json (PDict [("last_number", PInt 41);
                                     ("note", PStr "keep")])))
                 empty_world)
              [("last_number", PInt 41); ("note", PStr "keep")] 41 2)
    as [H _].
  - split; reflexivity.
  - lia.
  - rewrite H. vm_compute. reflexivity.
Defined.

Lemma counter_shape_errors_witness :
  get_next_invoice_number
    (set_counter_file (Some (Json (PDict []))) empty_world)
  = (Exn (KeyError "last_number"),
     set_data_dir true
       (set_counter_file (Some (Json (PDict []))) empty_world)).
Proof.
  exact (proj1 (counter_shape_errors
                  (set_counter_file (Some (Json (PDict []))) empty_world)
                  (PDict []) (KeyError "last_number") eq_refl eq_refl)).
Defined.

Lemma fractional_counter_advances_witness :
  peek_next_invoice_number
    (set_counter_file
       (Some (Json (PDict [("last_number", PFloat 2.5)]))) empty_world)
  = (Exn (ValueError UnknownFormatCode),
     set_counter_file
       (Some (Json (PDict [("last_number", PFloat 2.5)]))) empty_world).
Proof.
  exact (proj2 (fractional_counter_advances
                  (set_counter_file
                     (Some (Json (PDict [("last_number", PFloat 2.5)])))
                     empty_world)
                  [("last_number", PFloat 2.5)] 2.5%float eq_refl eq_refl)).
Defined.

Lemma save_client_upsert_witness :
  main (client_args false None (Some "zed") None (Some "Zed Ltd") None)
    client_world
  = (Val tt,
     set_clients_file
       (Some (Json (PDict (example_clients
                           ++ [("zed", PDict [("name", PStr "Zed Ltd");
                                              ("company", PStr "")])]))))
       (set_data_dir true client_world)).
Proof.
  exact (proj1 (save_client_upsert
                  (client_args false None (Some "zed") None (Some "Zed Ltd")
                     None)
                  client_world example_clients
                  eq_refl eq_refl eq_refl eq_refl eq_refl eq_refl)).
Defined.

Lemma save_client_requires_to_witness :
  main (client_args false None (Some "zed") None None (Some ["Work,,1,10"]))
    client_world
  = (Val tt, client_world).
Proof.
  exact (save_client_requires_to
           (client_args false None (Some "zed") None None
              (Some ["Work,,1,10"]))
           client_world eq_refl eq_refl eq_refl eq_refl).
Defined.

Lemma save_client_then_invoice_witness :
  main (client_args false None (Some "zed") None (Some "Zed Ltd")
          (Some ["Work,,1,10"]))
    client_world
  = main (client_args false None None None (Some "Zed Ltd")
            (Some ["Work,,1,10"]))
      (set_clients_file
         (Some (Json (PDict (example_clients
                             ++ [("zed", PDict [("name", PStr "Zed Ltd");
                                                ("company", PStr "")])]))))
         (set_data_dir true client_world)).
Proof.
  exact (save_client_then_invoice
           (client_args false None (Some "zed") None (Some "Zed Ltd")
              (Some ["Work,,1,10"]))
           client_world example_clients
           eq_refl eq_refl eq_refl eq_refl eq_refl eq_refl).
Defined.

Lemma delete_missing_client_is_noop_witness :
  main (client_args false (Some "nobody") None None None None) client_world
  = (Val tt, client_world).
Proof.
  exact (delete_missing_client_is_noop
           (client_args false (Some "nobody") None None None None)
           client_world example_clients eq_refl eq_refl eq_refl eq_refl).
Defined.

Lemma delete_client_removes_witness :
  main (client_args false (Some "acme") None None None None) client_world
  = (Val tt,
     set_clients_file
       (Some (Json (PDict [("bob", PDict [("name", PStr "Bob");
                                          ("company", PStr "")])])))
       (set_data_dir true client_world)).
Proof.
  refine (proj1 (delete_client_removes
                   (client_args false (Some "acme") None None None None)
                   client_world example_clients
                   (PDict [("name", PStr "Acme Corp");
                           ("company", PStr "Acme Holdings")])
                   eq_refl eq_refl eq_refl _ eq_refl)).
  repeat constructor; cbn; intuition discriminate.
Defined.

Lemma list_clients_is_read_only_witness :
  snd (main (client_args true (Some "acme") None None None None) client_world)
  = client_world.
Proof.
  exact (proj1 (list_clients_is_read_only
                  (client_args true (Some "acme") None None None None)
                  client_world eq_refl)).
Defined.

Lemma corrupt_client_store_aborts_witness :
  main (client_args false None (Some "zed") None (Some "Zed Ltd") None)
    (set_clients_file (Some (Unparseable "{")) empty_world)
  = (Exn JSONDecodeError,
     set_clients_file (Some (Unparseable "{")) empty_world).
Proof.
  exact (corrupt_client_store_aborts
           (client_args false None (Some "zed") None (Some "Zed Ltd") None)
           (set_clients_file (Some (Unparseable "{")) empty_world)
           (Unparseable "{") eq_refl eq_refl eq_refl).
Defined.

Lemma unknown_client_stops_witness :
  main (client_args false None None (Some "nobody") None
          (Some ["Work,,x,10"]))
    client_world
  = (Val tt, client_world).
Proof.
  exact (unknown_client_stops
           (client_args false None None (Some "nobody") None
              (Some ["Work,,x,10"]))
           client_world example_clients
           eq_refl eq_refl eq_refl eq_refl eq_refl eq_refl eq_refl).
Defined.

Lemma client_profile_fills_recipient_witness :
  main (client_args false None None (Some "acme") None None) client_world
  = number_and_render
      (client_args false None None (Some "acme") None None)
      (to_dict
         (client_record (client_args false None None (Some "acme") None None)
            (today client_world) "Acme Corp" "Acme Holdings" []))
      client_world.
Proof.
  exact (proj1 (client_profile_fills_recipient
                  (client_args false None None (Some "acme") None None)
                  client_world example_clients
                  [("name", PStr "Acme Corp");
                   ("company", PStr "Acme Holdings")]
                  "Acme Corp" "Acme Holdings"
                  eq_refl eq_refl eq_refl eq_refl eq_refl eq_refl eq_refl
                  eq_refl eq_refl)).
Defined.

Lemma from_json_ignores_fields_witness :
  main (saving_args (Some "in.json") None None None) empty_world
  = main (saving_args (Some "in.json") (Some "Another title")
            (Some ["Work,,1,10"]) None)
      empty_world.
Proof.
  refine (from_json_ignores_fields
            (saving_args (Some "in.json") None None None)
            (saving_args (Some "in.json") (Some "Another title")
               (Some ["Work,,1,10"]) None)
            empty_world _ _ eq_refl eq_refl eq_refl eq_refl eq_refl eq_refl);
    repeat split.
Defined.

Lemma json_replay_is_idempotent_witness :
  main (json_args "in.json" None false)
    (snd (main (json_args "in.json" None false)
            (set_user_files {["in.json" := Json numbered_invoice]}
               empty_world)))
  = (Val tt,
     snd (main (json_args "in.json" None false)
            (set_user_files {["in.json" := Json numbered_invoice]}
               empty_world))).
Proof.
  refine (proj1 (json_replay_is_idempotent
                   (json_args "in.json" None false)
                   (set_user_files {["in.json" := Json numbered_invoice]}
                      empty_world)
                   (snd (main (json_args "in.json" None false)
                           (set_user_files
                              {["in.json" := Json numbered_invoice]}
                              empty_world)))
                   (match numbered_invoice with PDict d => d | _ => [] end)
                   _ eq_refl _ _ _ _)).
  - repeat split.
  - vm_compute. reflexivity.
  - vm_compute. reflexivity.
  - vm_compute. reflexivity.
  - vm_compute. reflexivity.
Defined.


Lemma failure_writes_no_document_witness :
  user_files
    (snd (main (cli_args (Some "Invoice") (Some ["Design,,x,99.5"]) None false)
            empty_world))
  = user_files empty_world.
Proof.
  apply failure_writes_no_document. vm_compute. discriminate.
Defined.

Lemma failed_render_consumes_number_witness :
  last_number
    (snd (number_and_render (json_args "in.json" None false) (PDict [])
            empty_world))
  = Some 1.
Proof.
  refine (proj1 (failed_render_consumes_number
                   (json_args "in.json" None false) (PDict []) PNone
                   empty_world 0 eq_refl eq_refl eq_refl eq_refl eq_refl _)).
  vm_compute. discriminate.
Defined.

Lemma invoice_layout_witness :
  exists elements,
    invoice_elements strict_paragraph false numbered_invoice
    = Val (Paragraph "<b>Invoice #:</b> A-7" normal_style
             :: Paragraph "Invoice for Consulting!!" title_style :: elements).
Proof.
  eexists.
  refine (eq_trans
            (proj1 (proj2
               (invoice_layout strict_paragraph false
                  {| r_invoice_number := PStr "A-7";
                     r_title := "Invoice for Consulting!!";
                     r_date := "March 03, 2025";
                     r_from_name := "Adam Luck";
                     r_from_email := "adamluckydo@gmail.com";
                     r_to_name := "Acme Corp"; r_to_company := "";
                     r_items := [make_item "Consulting" "Jan 1-15" (PInt 10)
                                   (PInt 150)];
                     r_payment_method := "PayPal"; r_notes := "" |}
                  (Table example_table col_widths) _ _)) _) _).
  - right. eexists. reflexivity.
  - vm_compute. reflexivity.
  - repeat (constructor; [vm_compute; reflexivity|]). constructor.
  - reflexivity.
Defined.

Lemma rendered_amounts_are_finite_witness :
  items_table numbered_invoice = Val (Table example_table col_widths)
  /\ exists items : list pyval,
      (let* v := Py.getitem numbered_invoice "items" in iterate v)%res
      = Val items.
Proof.
  assert (items_table numbered_invoice = Val (Table example_table col_widths))
    as H by (vm_compute; reflexivity).
  split; [exact H|].
  destruct (rendered_amounts_are_finite numbered_invoice example_table
              col_widths H) as (items & _ & Hitems & _).
  exists items. exact Hitems.
Defined.

Lemma short_item_string_defaults_witness :
  parse_item_string "Design"
  = Val (make_item "Design" "" (PInt 1) (PInt 0)).
Proof.
  exact (proj1 (short_item_string_defaults "Design" "" "3"
                  eq_refl eq_refl eq_refl)).
Defined.

Lemma extra_fields_are_ignored_witness :
  parse_item_string "Consulting,Jan 1-15,1,$1,500"
  = parse_item_string "Consulting,Jan 1-15,1,$1".
Proof.
  apply (extra_fields_are_ignored "Consulting,Jan 1-15,1,$1" "500").
  vm_compute. lia.
Defined.

Lemma prompt_items_reads_entries_witness :
  prompt_items
    (set_stdin [" "; "Work"; "Jan 2025"; "2"; "x"; ""; "PayPal"] empty_world)
  = (Val [make_item "Work" "Jan 2025" (PInt 1) (PInt 0)],
     set_stdin ["PayPal"] empty_world).
Proof.
  refine (eq_trans
            (prompt_items_reads_entries [" "]
               [{| e_service := "Work"; e_date := "Jan 2025";
                   e_quantity := "2"; e_rate := "x" |}]
               "" ["PayPal"] empty_world _ _ _ eq_refl) _).
  - repeat constructor.
  - discriminate.
  - repeat constructor.
  - vm_compute. reflexivity.
Defined.

Lemma interactive_input_record_witness :
  exists invoice,
    interactive_input answering_world = (Val invoice, empty_world)
    /\ getitem2 invoice "to" "name" = Val (PStr "Acme Corp")
    /\ getitem2 invoice "from" "name" = Val (PStr DEFAULTS.from_name).
Proof.
  eexists. split.
  - refine (interactive_input_record empty_world 0
              "Invoice for Work" "" "" "" "Acme Corp" "" "" "" ""
              [{| e_service := "Work"; e_date := "Jan 2025";
                  e_quantity := "2"; e_rate := "50" |}]
              [] eq_refl eq_refl _ _ eq_refl).
    + discriminate.
    + repeat constructor.
  - split; reflexivity.
Defined.

Lemma client_selection_witness :
  fst (prompt_client_selection (PDict example_clients)
         (set_stdin ["2"] empty_world))
  = Val (PDict [("name", PStr "Bob"); ("company", PStr "")]).
Proof.
  destruct (client_selection example_clients "2" [] empty_world)
    as (_ & Hindex & _).
  - discriminate.
  - repeat constructor; cbn; intuition discriminate.
  - repeat constructor; cbn; eauto.
  - refine (Hindex 2 "bob" _ eq_refl _ eq_refl). lia.
Defined.

